(** * Webex review dashboards: sentiment, version ordering, balloon geometry,
      filtering and aggregation

    A shallow embedding of the two Streamlit pages
    [Balloon_Dashboard.py] and [pages/In-Detailed Dashboard.py].

    Conventions of the embedding:
    - a Python [str] is a [string]; characters are bytes, read as ASCII
      (case mapping, digits and whitespace of non-ASCII code points are
      outside the model);
    - a pandas cell that can be missing (NaN / NaT) is an [option], and so
      is a number of the balloon page that is NaN when a bucket has no
      review date;
    - a timestamp is a number of nanoseconds since the epoch ([Z]), a
      calendar date picked in the sidebar is a number of days since the epoch;
    - Python [int] is [Z] or [N]; Python [float] arithmetic is written once
      over an interface [PyFloat] with two instances: exact rationals [Q]
      and IEEE-754 binary64 ([PrimFloat]), the arithmetic CPython runs. *)

From Stdlib Require Import ZArith QArith Qround String Ascii List Bool Lia.
From Stdlib Require Import Uint63 Floats Sorted Qminmax Lqa.
From stdpp Require Import base gmap sets list strings sorting.
Import ListNotations.

Local Open Scope string_scope.

(** ** Python string primitives *)

Module PyStr.

Definition is_upper (c : ascii) : bool :=
  let n := N_of_ascii c in ((65 <=? n) && (n <=? 90))%N.

Definition is_digit (c : ascii) : bool :=
  let n := N_of_ascii c in ((48 <=? n) && (n <=? 57))%N.

(** [str.isspace] on the ASCII range: TAB..CR, FS..US and SPACE. *)
Definition is_space (c : ascii) : bool :=
  let n := N_of_ascii c in
  (((9 <=? n) && (n <=? 13)) || ((28 <=? n) && (n <=? 32)))%N.

Definition lower_char (c : ascii) : ascii :=
  if is_upper c then ascii_of_N (N_of_ascii c + 32) else c.

(** [s.lower()] *)
Fixpoint lower (s : string) : string :=
  match s with
  | EmptyString => EmptyString
  | String c s' => String (lower_char c) (lower s')
  end.

(** [t.startswith(w)] *)
Fixpoint startswith (t w : string) {struct w} : bool :=
  match w, t with
  | EmptyString, _ => true
  | String _ _, EmptyString => false
  | String a w', String b t' => Ascii.eqb a b && startswith t' w'
  end.

(** [w in t] *)
Fixpoint contains (w t : string) : bool :=
  startswith t w ||
  match t with
  | EmptyString => false
  | String _ t' => contains w t'
  end.

(** [s.split(sep)] for a one-character separator. *)
Fixpoint split (sep : ascii) (s : string) : list string :=
  match s with
  | EmptyString => [EmptyString]
  | String c s' =>
      if Ascii.eqb c sep then EmptyString :: split sep s'
      else match split sep s' with
           | p :: ps => String c p :: ps
           | [] => [String c EmptyString]
           end
  end.

Fixpoint lstrip (s : string) : string :=
  match s with
  | EmptyString => EmptyString
  | String c s' => if is_space c then lstrip s' else s
  end.

Fixpoint rstrip (s : string) : string :=
  match s with
  | EmptyString => EmptyString
  | String c s' =>
      match rstrip s' with
      | EmptyString => if is_space c then EmptyString else String c EmptyString
      | r => String c r
      end
  end.

(** [s.strip()] *)
Definition strip (s : string) : string := rstrip (lstrip s).

(** Truth value of a string: non-empty. *)
Definition truthy (s : string) : bool :=
  match s with EmptyString => false | String _ _ => true end.

(** [s.isdigit()]: non-empty and made of digits only. *)
Fixpoint all_digits (s : string) : bool :=
  match s with
  | EmptyString => true
  | String c s' => is_digit c && all_digits s'
  end.

Definition isdigit (s : string) : bool := truthy s && all_digits s.

Definition digit_val (c : ascii) : N := (N_of_ascii c - 48)%N.

Fixpoint int_acc (acc : N) (s : string) : N :=
  match s with
  | EmptyString => acc
  | String c s' => int_acc (10 * acc + digit_val c)%N s'
  end.

(** [int(s)] on a non-empty run of digits, the only strings both pages pass
    to it (so the [ValueError] branch is not reachable). *)
Definition int (s : string) : N := int_acc 0 s.

(** [re.findall(r'\d+', s)]: the maximal digit runs, left to right. *)
Fixpoint findall_digits (s : string) : list string :=
  match s with
  | EmptyString => []
  | String c s' =>
      if is_digit c then
        match s' with
        | String c' _ =>
            if is_digit c' then
              match findall_digits s' with
              | d :: ds => String c d :: ds
              | [] => [String c EmptyString]
              end
            else String c EmptyString :: findall_digits s'
        | EmptyString => [String c EmptyString]
        end
      else findall_digits s'
  end.

(** [re.split(r'(\d+)', s)]: the text between digit runs with the captured
    runs in between, [text; digits; text; ...; text]; the first and the
    last text may be empty. *)
Fixpoint split_digits (s : string) : list string :=
  match s with
  | EmptyString => [EmptyString]
  | String c s' =>
      match split_digits s' with
      | t0 :: rest =>
          if is_digit c then
            match t0, rest with
            | EmptyString, d :: rest' => EmptyString :: String c d :: rest'
            | _, _ => EmptyString :: String c EmptyString :: t0 :: rest
            end
          else String c t0 :: rest
      | [] => [String c EmptyString]
      end
  end.

(** [str(x)] of a cell: the text itself, ["nan"] for a missing value. *)
Definition str (x : option string) : string :=
  match x with Some s => s | None => "nan" end.

(** [sorted(l, key=...)], given the strict order [lt] on the keyed
    elements: a stable sort, equal elements keep their input order. *)
Section Sorted.
Context {A : Type} (lt : A -> A -> bool).

Fixpoint insert (x : A) (l : list A) : list A :=
  match l with
  | [] => [x]
  | y :: l' => if lt y x then y :: insert x l' else x :: y :: l'
  end.

Fixpoint sorted (l : list A) : list A :=
  match l with
  | [] => []
  | x :: l' => insert x (sorted l')
  end.
End Sorted.

(** [list < list] on integers, Python's lexicographic comparison. *)
Fixpoint list_lt (k1 k2 : list N) : bool :=
  match k1, k2 with
  | [], [] => false
  | [], _ :: _ => true
  | _ :: _, [] => false
  | a :: k1', b :: k2' => if (a =? b)%N then list_lt k1' k2' else (a <? b)%N
  end.

(** [s[:n]]: the first [n] characters, all of [s] when it is shorter. *)
Fixpoint slice_to (n : nat) (s : string) : string :=
  match n, s with
  | O, _ => EmptyString
  | S _, EmptyString => EmptyString
  | S n', String c s' => String c (slice_to n' s')
  end.

End PyStr.

(** ** Python floats *)

(** Rounding to the nearest integer, ties to the even one. *)
Definition round_half_even (q : Q) : Z :=
  let f := Qfloor q in
  match (q - inject_Z f ?= 1 # 2)%Q with
  | Lt => f
  | Gt => f + 1
  | Eq => if Z.even f then f else f + 1
  end.

(** The float operations the balloon page uses.  [of_int] is the implicit
    conversion of an [int] operand, [lit] a decimal literal such as [3.2]
    given by its exact value, [flt] the comparison [<], [rint] numpy's
    rounding to the nearest integer (ties to even), the step [round] on a
    numpy float goes through. *)
Class PyFloat (F : Type) := {
  of_int : Z -> F;
  lit : Q -> F;
  fadd : F -> F -> F;
  fsub : F -> F -> F;
  fmul : F -> F -> F;
  fdiv : F -> F -> F;
  flt : F -> F -> bool;
  rint : F -> F
}.

Declare Scope py_scope.
Delimit Scope py_scope with py.
Infix "+" := fadd : py_scope.
Infix "-" := fsub : py_scope.
Infix "*" := fmul : py_scope.
Infix "/" := fdiv : py_scope.
Infix "<?" := flt : py_scope.

(** [max(a, b)] and [min(a, b)] keep the first argument unless the second
    one is strictly greater (resp. smaller). *)
Definition py_max {F} `{PyFloat F} (a b : F) : F := if (a <? b)%py then b else a.
Definition py_min {F} `{PyFloat F} (a b : F) : F := if (b <? a)%py then b else a.

(** [round(x, 2)] of a [numpy.float64], the type [Series.mean()] returns:
    numpy multiplies by [10**2], rounds to the nearest integer and divides
    by [10**2]. *)
Definition round2 {F} `{PyFloat F} (x : F) : F :=
  (rint (x * of_int 100) / of_int 100)%py.

Definition Qltb (a b : Q) : bool := negb (Qle_bool b a).

(** Exact arithmetic. *)
#[export] Instance exact : PyFloat Q := {|
  of_int := inject_Z;
  lit q := q;
  fadd := Qplus;
  fsub := Qminus;
  fmul := Qmult;
  fdiv := Qdiv;
  flt := Qltb;
  rint q := inject_Z (round_half_even q)
|}.

(** Conversion of an integer below 2^63 in absolute value (all integers of
    the page are day counts and small constants). *)
Definition float_of_Z (z : Z) : float :=
  match z with
  | Z0 => PrimFloat.zero
  | Zpos _ => PrimFloat.of_uint63 (Uint63.of_Z z)
  | Zneg p => PrimFloat.opp (PrimFloat.of_uint63 (Uint63.of_Z (Zpos p)))
  end.

(** [rint] on a double.  A finite double is [m * 2^e] up to its sign; with
    [0 <= e] it is an integer already, otherwise its magnitude is below
    2^53 and is rounded half to even.  Infinities, NaN and zeros are
    returned as they are, and a result of zero keeps the sign. *)
Definition rint_binary64 (x : float) : float :=
  match Prim2SF x with
  | S754_finite s m e =>
      if (0 <=? e)%Z then x
      else
        let k := round_half_even (Zpos m # Pos.pow 2 (Z.to_pos (- e))) in
        if (k =? 0)%Z then (if s then PrimFloat.neg_zero else PrimFloat.zero)
        else if s then PrimFloat.opp (float_of_Z k) else float_of_Z k
  | _ => x
  end.

(** IEEE-754 binary64, the arithmetic of CPython's [float]: a decimal
    literal is the double nearest to its value, which the correctly rounded
    quotient of numerator by denominator yields when both are exact. *)
#[export] Instance binary64 : PyFloat float := {|
  of_int := float_of_Z;
  lit q := PrimFloat.div (float_of_Z (Qnum q)) (float_of_Z (Zpos (Qden q)));
  fadd := PrimFloat.add;
  fsub := PrimFloat.sub;
  fmul := PrimFloat.mul;
  fdiv := PrimFloat.div;
  flt := PrimFloat.ltb;
  rint := rint_binary64
|}.

(** ** The review table *)

Inductive sentiment := Positive | Neutral | Negative.

Definition sentiment_eqb (a b : sentiment) : bool :=
  match a, b with
  | Positive, Positive | Neutral, Neutral | Negative, Negative => true
  | _, _ => false
  end.

(** One row of the spreadsheet.  [at_] is the column [at] and [Release_Date]
    the column [Release Date], both after [pd.to_datetime]; [None] is NaT
    or NaN. *)
Record review := {
  at_ : option Z;
  content : option string;
  score : Q;
  appVersion : option string;
  Release_Version : option string;
  reviewCreatedVersion : option string;
  Feature_Description : option string;
  Release_Date : option Z
}.

Module Pandas.

(** [series.dropna().tolist()] *)
Definition dropna {A} (col : list (option A)) : list A := omap id col.

(** [series.unique()]: first occurrences, in order of appearance. *)
Fixpoint unique (l : list string) : list string :=
  match l with
  | [] => []
  | x :: l' => x :: List.filter (fun y => negb (String.eqb x y)) (unique l')
  end.

Definition opt_min (a b : option Z) : option Z :=
  match a, b with
  | Some x, Some y => Some (Z.min x y)
  | Some x, None => Some x
  | None, _ => b
  end.

Definition opt_max (a b : option Z) : option Z :=
  match a, b with
  | Some x, Some y => Some (Z.max x y)
  | Some x, None => Some x
  | None, _ => b
  end.

(** [series.min()] and [series.max()] skip missing values and are
    missing themselves when nothing is left. *)
Definition min (col : list (option Z)) : option Z := foldr opt_min None col.
Definition max (col : list (option Z)) : option Z := foldr opt_max None col.

(** The aggregations ['first'] (first value that is not missing) and
    ['count'] (number of values that are not missing). *)
Definition first {A} (col : list (option A)) : option A := head (dropna col).
Definition count {A} (col : list (option A)) : nat := length (dropna col).

(** [series.sum()] and [series.mean()] of a numeric column without missing
    values, in float arithmetic.  The sum is taken left to right; pandas
    adds in this order or in blocks, depending on the libraries installed,
    which gives the same double whenever whole numbers are added that stay
    small, as star ratings do (see [add_whole_exact]). *)
Definition sum {F} `{PyFloat F} (col : list F) : F :=
  fold_left fadd col (of_int 0).
Definition mean {F} `{PyFloat F} (col : list F) : F :=
  (sum col / of_int (Z.of_nat (length col)))%py.

Definition ns_per_day : Z := 86400 * 10 ^ 9.

(** [pd.to_datetime(d)] of a calendar date: midnight of that day. *)
Definition to_datetime (d : Z) : Z := d * ns_per_day.

(** [Timedelta.days]: whole days, rounded down. *)
Definition days (delta : Z) : Z := delta / ns_per_day.

(** [series >= t] and [series <= t], row by row; a comparison with NaT is
    [False]. *)
Definition ge (x : option Z) (t : Z) : bool :=
  match x with Some a => (t <=? a)%Z | None => false end.
Definition le (x : option Z) (t : Z) : bool :=
  match x with Some a => (a <=? t)%Z | None => false end.

(** [series == v] and [series.isin(vs)] on a text column; a missing cell
    matches nothing. *)
Definition eq_str (x : option string) (v : string) : bool :=
  match x with Some a => String.eqb a v | None => false end.
Definition isin (x : option string) (vs : list string) : bool :=
  existsb (eq_str x) vs.

(** [Timestamp.date()]: the calendar day of a timestamp. *)
Definition date (t : Z) : Z := t / ns_per_day.

(** [groupby(key).size()]: the keys that occur, in ascending order, each
    with its number of rows; rows with a missing key are left out. *)
Definition groupby_size (keys : list (option Z)) : list (Z * nat) :=
  let present := dropna keys in
  map (fun k => (k, length (List.filter (Z.eqb k) present)))
      (PyStr.sorted Z.ltb (nodup Z.eq_dec present)).

End Pandas.

(** ** Balloon_Dashboard.py *)

Module Balloon.

(** The two keyword lists of [classify_sentiment], lines 26 and 28. *)
Definition positive_words : list string :=
  ["good"; "great"; "excellent"; "love"; "happy"; "nice"; "perfect";
   "clear"; "easy"; "Perfectoo"].
Definition negative_words : list string :=
  ["bad"; "terrible"; "hate"; "issue"; "problem"; "poor"; "worst"].

Definition classify_sentiment (text : option string) : sentiment :=
  let text := PyStr.lower (PyStr.str text) in
  if existsb (fun word => PyStr.contains word text) positive_words
  then Positive
  else if existsb (fun word => PyStr.contains word text) negative_words
  then Negative
  else Neutral.

(** The column [df['Sentiment']] added by [load_data]. *)
Definition Sentiment (r : review) : sentiment := classify_sentiment (content r).

Definition version_key (v : string) : list N :=
  let nums := PyStr.findall_digits v in
  match nums with
  | [] => [0%N]
  | _ :: _ => map PyStr.int nums
  end.

(** [sorted(..., key=version_key)] *)
Definition sorted_by_version_key (l : list string) : list string :=
  PyStr.sorted (fun a b => PyStr.list_lt (version_key a) (version_key b)) l.

Definition version_list (df : list review) : list string :=
  "All Versions"
    :: sorted_by_version_key (Pandas.unique (Pandas.dropna (map appVersion df))).

Definition version_df (selected_version : string) (df : list review) : list review :=
  if String.eqb selected_version "All Versions" then df
  else List.filter (fun r => Pandas.eq_str (appVersion r) selected_version) df.

Definition sentiment_order : list sentiment := [Positive; Neutral; Negative].

Definition sentiment_df (version_df : list review) (s : sentiment) : list review :=
  List.filter (fun r => sentiment_eqb (Sentiment r) s) version_df.

(** Statistics of one bucket. *)
Definition reviews (sentiment_df : list review) : nat := length sentiment_df.

(** [None]: no row of the bucket carries a timestamp, the span is NaT and
    its [.days] is NaN. *)
Definition duration_days (sentiment_df : list review) : option Z :=
  match Pandas.max (map at_ sentiment_df), Pandas.min (map at_ sentiment_df) with
  | Some latest, Some earliest => Some (Pandas.days (latest - earliest))
  | _, _ => None
  end.

(** The geometry of one lollipop, lines 57-61 and 74-82, over either
    arithmetic. *)
Section Geometry.
Context {F : Type} `{PyFloat F}.
Local Open Scope py_scope.

Definition score_min : F := lit (32 # 10).
Definition score_max : F := lit (50 # 10).
Definition min_size : F := of_int 30.
Definition max_size : F := of_int 80.
Definition pixel_to_data_ratio : F := of_int 2 / of_int 600.

(** Line 72; a score cell is the double nearest to its value. *)
Definition avg_score (sentiment_df : list review) : F :=
  round2 (Pandas.mean (map (fun r => lit (score r)) sentiment_df)).

Definition duration_scaled (duration_days : Z) : F :=
  py_max (of_int duration_days / of_int 15) (lit (15 # 10)).

Definition score_norm (avg_score : F) : F :=
  let score_norm := (avg_score - score_min) / (score_max - score_min) in
  py_max (of_int 0) (py_min score_norm (of_int 1)).

Definition circle_pixel_radius (avg_score : F) : F :=
  min_size + score_norm avg_score * (max_size - min_size).

Definition circle_data_radius (avg_score : F) : F :=
  (circle_pixel_radius avg_score / of_int 2) * pixel_to_data_ratio.

Definition stick_visible_height (avg_score : F) (duration_days : Z) : F :=
  py_max (duration_scaled duration_days - circle_data_radius avg_score)
         (lit (5 # 10)).

Definition circle_y (avg_score : F) (duration_days : Z) : F :=
  stick_visible_height avg_score duration_days + circle_data_radius avg_score.

(** What the loop draws for one sentiment bucket.  The fields that depend
    on the span are NaN ([None]) when [duration_days] is: NaN goes through
    [/], [-] and [+], and [max(nan, c)] keeps its first argument. *)
Record lollipop := {
  l_reviews : nat;
  l_avg_score : F;
  l_duration_days : option Z;
  l_duration_scaled : option F;
  l_circle_pixel_radius : F;
  l_stick_visible_height : option F;
  l_circle_y : option F
}.

(** One iteration of the loop over [sentiment_order], lines 66-82.
    [None]: the bucket is empty and skipped ([continue]). *)
Definition plot (version_df : list review) (s : sentiment) : option lollipop :=
  let bucket := sentiment_df version_df s in
  match bucket with
  | [] => None
  | _ :: _ =>
      let a := avg_score bucket in
      let d := duration_days bucket in
      Some {| l_reviews := reviews bucket;
              l_avg_score := a;
              l_duration_days := d;
              l_duration_scaled := option_map duration_scaled d;
              l_circle_pixel_radius := circle_pixel_radius a;
              l_stick_visible_height := option_map (stick_visible_height a) d;
              l_circle_y := option_map (circle_y a) d |}
  end.
End Geometry.

Arguments lollipop F : clear implicits.

(** Feature descriptions, lines 139-147. *)
Definition feature_raw (version_df : list review) : list string :=
  Pandas.dropna (map Feature_Description version_df).

(** [[desc.strip() for desc in entry.split('#') if desc.strip()]] *)
Definition features (entry : string) : list string :=
  map PyStr.strip
      (List.filter (fun desc => PyStr.truthy (PyStr.strip desc))
                   (PyStr.split "#" entry)).

Definition feature_set (feature_raw : list string) : gset string :=
  foldl (fun set entry => set ∪ list_to_set (features entry)) ∅ feature_raw.

Definition feature_list (feature_raw : list string) : list string :=
  PyStr.sorted String.ltb (elements (feature_set feature_raw)).

End Balloon.

(** ** pages/In-Detailed Dashboard.py *)

Module InDetailed.

(** An element of a version key: text, or a digit run read as an integer. *)
Inductive key_part := KText (s : string) | KInt (n : N).

Definition version_key (v : option string) : list key_part :=
  match v with
  | None => []
  | Some v =>
      map (fun x => if PyStr.isdigit x then KInt (PyStr.int x) else KText x)
          (PyStr.split_digits v)
  end.

(** [a == b] on key elements; an [int] never equals a [str]. *)
Definition part_eqb (a b : key_part) : bool :=
  match a, b with
  | KText s, KText t => String.eqb s t
  | KInt m, KInt n => (m =? n)%N
  | _, _ => false
  end.

(** [a < b] on key elements; [None] is the [TypeError] of comparing an
    [int] with a [str]. *)
Definition part_lt (a b : key_part) : option bool :=
  match a, b with
  | KText s, KText t => Some (String.ltb s t)
  | KInt m, KInt n => Some (m <? n)%N
  | _, _ => None
  end.

(** [k1 < k2] on keys: the first pair of unequal elements decides, else
    the shorter list is the smaller one. *)
Fixpoint key_lt (k1 k2 : list key_part) : option bool :=
  match k1, k2 with
  | [], [] => Some false
  | [], _ :: _ => Some true
  | _ :: _, [] => Some false
  | a :: k1', b :: k2' => if part_eqb a b then key_lt k1' k2' else part_lt a b
  end.

(** The order [sorted(..., key=version_key)] sorts labels by (comparing two
    version keys never raises, see [version_key_comparable]). *)
Definition version_lt (a b : string) : bool :=
  match key_lt (version_key (Some a)) (version_key (Some b)) with
  | Some r => r
  | None => false
  end.

Definition sorted_by_version_key (l : list string) : list string :=
  PyStr.sorted version_lt l.

Definition sorted_versions (df : list review) : list string :=
  sorted_by_version_key (Pandas.unique (Pandas.dropna (map Release_Version df))).

(** Lines 36-39: the mask on the review date. *)
Definition in_date_range (d0 d1 : Z) (r : review) : bool :=
  Pandas.ge (at_ r) (Pandas.to_datetime d0)
  && Pandas.le (at_ r) (Pandas.to_datetime d1).

(** Lines 36-42.  [date_range] is the tuple the date widget returns;
    [None] is the [IndexError] of [date_range[0]] or [date_range[1]] while
    fewer than two dates are picked. *)
Definition filtered_df (date_range : list Z) (version_filter : list string)
           (df : list review) : option (list review) :=
  match date_range with
  | d0 :: d1 :: _ =>
      let filtered_df := List.filter (in_date_range d0 d1) df in
      Some match version_filter with
           | [] => filtered_df
           | _ :: _ =>
               List.filter (fun r => Pandas.isin (Release_Version r) version_filter)
                           filtered_df
           end
  | _ => None
  end.

(** The two keyword lists of [classify_sentiment], lines 47 and 49. *)
Definition positive_words : list string :=
  ["good"; "great"; "excellent"; "love"; "happy"; "nice"].
Definition negative_words : list string :=
  ["bad"; "terrible"; "hate"; "issue"; "problem"; "poor"].

Definition classify_sentiment (text : option string) : sentiment :=
  let text := PyStr.lower (PyStr.str text) in
  if existsb (fun word => PyStr.contains word text) positive_words
  then Positive
  else if existsb (fun word => PyStr.contains word text) negative_words
  then Negative
  else Neutral.

(** The column [filtered_df["Sentiment"]] of line 54. *)
Definition Sentiment (r : review) : sentiment := classify_sentiment (content r).

(** A cell of a table. *)
Inductive cell :=
| Timestamp (t : option Z)
| Text (s : option string)
| Number (x : Q)
| Label (s : sentiment).

(** The columns of the spreadsheet. *)
Definition input_columns : list string :=
  ["at"; "Release Date"; "content"; "score"; "appVersion"; "Release Version";
   "reviewCreatedVersion"; "Feature Description"].

(** [filtered_df[name]] at one row, after line 54; [None] is a [KeyError]. *)
Definition column (name : string) (r : review) : option cell :=
  if String.eqb name "at" then Some (Timestamp (at_ r))
  else if String.eqb name "Release Date" then Some (Timestamp (Release_Date r))
  else if String.eqb name "content" then Some (Text (content r))
  else if String.eqb name "score" then Some (Number (score r))
  else if String.eqb name "appVersion" then Some (Text (appVersion r))
  else if String.eqb name "Release Version" then Some (Text (Release_Version r))
  else if String.eqb name "reviewCreatedVersion" then Some (Text (reviewCreatedVersion r))
  else if String.eqb name "Feature Description" then Some (Text (Feature_Description r))
  else if String.eqb name "Sentiment" then Some (Label (Sentiment r))
  else None.

(** Lines 76-78: the columns of the traceability table. *)
Definition traceability_columns : list string :=
  ["at"; "content"; "score"; "Sentiment"; "reviewCreatedVersion";
   "Feature Description"; "Release Date"].

(** The table handed to [to_csv(index=False)]: a header and one line of
    cells per row. *)
Record table := { header : list string; lines : list (list cell) }.

Definition select (columns : list string) (rows : list review) : option table :=
  match mapM (fun r => mapM (fun c => column c r) columns) rows with
  | Some ls => Some {| header := columns; lines := ls |}
  | None => None
  end.

Definition traceability (filtered_df : list review) : option table :=
  select traceability_columns filtered_df.

(** Lines 133-145: the Gantt aggregate. *)
Record gantt_row := {
  g_Release_Version : string;
  Start : option Z;
  End_ : option Z;
  Description : option string;
  Reviews : nat
}.

(** The rows of one group of [groupby("Release Version")]. *)
Definition group (v : string) (rows : list review) : list review :=
  List.filter (fun r => Pandas.eq_str (Release_Version r) v) rows.

Definition agg (v : string) (rows : list review) : gantt_row :=
  let g := group v rows in
  {| g_Release_Version := v;
     Start := Pandas.min (map Release_Date g);
     End_ := Pandas.max (map at_ g);
     Description := Pandas.first (map Feature_Description g);
     Reviews := Pandas.count (map content g) |}.

(** The group keys: the labels that occur, missing ones dropped, in
    ascending order. *)
Definition group_keys (rows : list review) : list string :=
  PyStr.sorted String.ltb (Pandas.unique (Pandas.dropna (map Release_Version rows))).

Definition grouped (rows : list review) : list gantt_row :=
  map (fun v => agg v rows) (group_keys rows).

(** Ascending order of [sort_values]: missing values last. *)
Definition start_lt (a b : option Z) : bool :=
  match a, b with
  | Some x, Some y => (x <? y)%Z
  | Some _, None => true
  | None, _ => false
  end.

(** [sort_values("Start")].  pandas sorts with a quicksort here, which is
    free to order rows of equal [Start] either way; the stable sort below
    is one such order. *)
Definition sort_values_Start (rows : list gantt_row) : list gantt_row :=
  PyStr.sorted (fun a b => start_lt (Start a) (Start b)) rows.

Definition gantt_df (filtered_df : list review) : list gantt_row :=
  take 20 (sort_values_Start (grouped filtered_df)).

(** Line 23: the initial value of the date widget, the calendar days of
    the earliest and of the latest review; [None] when the table has no
    review date at all (the widget rejects NaT). *)
Definition default_date_range (df : list review) : option (list Z) :=
  match Pandas.min (map at_ df), Pandas.max (map at_ df) with
  | Some first, Some last => Some [Pandas.date first; Pandas.date last]
  | _, _ => None
  end.

(** Lines 58-60 and 148-155 go through two renderings of pandas that are
    not part of the page: the month of a timestamp ([dt.to_period("M")], as
    the ordinal of the month) and the text of a timestamp ([str]). *)
Section Rendering.
Context (to_period_M : Z -> Z) (timestamp_str : option Z -> string).

(** Line 58: the number of reviews per month. *)
Definition timeline (filtered_df : list review) : list (Z * nat) :=
  Pandas.groupby_size (map (fun r => option_map to_period_M (at_ r)) filtered_df).

(** One bar of the Gantt chart. *)
Record gantt_task := {
  Task : string;
  t_Start : string;
  Finish : string;
  Resource : string;
  t_Reviews : nat
}.

(** Lines 149-153 for one row; [None] is the [TypeError] of slicing a
    missing description. *)
Definition gantt_task_of (row : gantt_row) : option gantt_task :=
  match Description row with
  | None => None
  | Some d =>
      Some {| Task := g_Release_Version row;
              t_Start := timestamp_str (Start row);
              Finish := timestamp_str (End_ row);
              Resource := PyStr.slice_to 40 d +:+ "...";
              t_Reviews := Reviews row |}
  end.

(** Lines 148-155: the list comprehension over the rows of [gantt_df]. *)
Definition gantt_data (gantt_df : list gantt_row) : option (list gantt_task) :=
  mapM gantt_task_of gantt_df.

(** Line 157: [ff.create_gantt] refuses an empty list of bars; [None] is
    its [PlotlyError]. *)
Definition create_gantt (gantt_data : list gantt_task) : option (list gantt_task) :=
  match gantt_data with
  | [] => None
  | _ :: _ => Some gantt_data
  end.

(** The download of line 169, from the sidebar inputs.  The page is a
    script that stops at the first exception, so the button is reached only
    when the lines before it went through: [None] is the [IndexError] of
    lines 37-38, the [TypeError] of line 152 or the [PlotlyError] of line
    157.  The other charts of lines 57-128 are library calls on the
    filtered table and outside the model. *)
Definition download (date_range : list Z) (version_filter : list string)
           (df : list review) : option table :=
  match filtered_df date_range version_filter df with
  | None => None
  | Some rows =>
      match gantt_data (gantt_df rows) with
      | None => None
      | Some bars =>
          match create_gantt bars with
          | None => None
          | Some _ => traceability rows
          end
      end
  end.

End Rendering.

End InDetailed.

(** ** Vocabulary of the statements *)

(** [w] occurs in [t] as a substring. *)
Definition substring (w t : string) : Prop :=
  exists a b, t = a +:+ w +:+ b.

(** Some keyword of the list [words] occurs in [t]. *)
Definition mentions (words : list string) (t : string) : Prop :=
  exists w, In w words /\ substring w t.

(** The balloon page's classifier with ["Perfectoo"] taken out of the
    positive keywords. *)
Definition classify_sentiment_without_Perfectoo (text : option string) : sentiment :=
  let text := PyStr.lower (PyStr.str text) in
  if existsb (fun word => PyStr.contains word text)
       ["good"; "great"; "excellent"; "love"; "happy"; "nice"; "perfect";
        "clear"; "easy"]
  then Positive
  else if existsb (fun word => PyStr.contains word text) Balloon.negative_words
  then Negative
  else Neutral.

(** [c] is one of the characters of [t]. *)
Definition occurs (c : ascii) (t : string) : Prop := In c (list_ascii_of_string t).

(** [x] stands somewhere before [y] in [l]. *)
Definition before {A} (x y : A) (l : list A) : Prop :=
  exists l1 l2 l3 : list A, l = (l1 ++ x :: l2 ++ y :: l3)%list.

(** No character of [s] is a digit. *)
Fixpoint no_digit (s : string) : bool :=
  match s with
  | EmptyString => true
  | String c s' => negb (PyStr.is_digit c) && no_digit s'
  end.

(** What follows a text piece in a split label: a digit run and a text,
    again and again; a text between two digit runs is not empty (the runs
    are maximal). *)
Fixpoint runs_then_text (pieces : list string) : bool :=
  match pieces with
  | [] => true
  | d :: t :: pieces' =>
      PyStr.isdigit d && no_digit t
      && match pieces' with [] => true | _ :: _ => PyStr.truthy t end
      && runs_then_text pieces'
  | [_] => false
  end.

(** A label cut into text, digit run, text, ..., text. *)
Definition alternating (pieces : list string) : bool :=
  match pieces with
  | t0 :: rest => no_digit t0 && runs_then_text rest
  | [] => false
  end.

(** The digit runs of such a cut: the pieces at odd positions. *)
Fixpoint digit_runs (pieces : list string) : list string :=
  match pieces with
  | _ :: d :: pieces' => d :: digit_runs pieces'
  | _ => []
  end.

(** The pieces glued back together. *)
Definition glue (pieces : list string) : string := foldr String.append "" pieces.

(** A key whose elements are text and integer in turn, [text_next] telling
    which kind comes first. *)
Fixpoint shaped (text_next : bool) (k : list InDetailed.key_part) : bool :=
  match k with
  | [] => true
  | InDetailed.KText _ :: k' => text_next && shaped false k'
  | InDetailed.KInt _ :: k' => negb text_next && shaped true k'
  end.

(** The integers of a key. *)
Definition ints (k : list InDetailed.key_part) : list N :=
  omap (fun p => match p with InDetailed.KInt n => Some n | InDetailed.KText _ => None end) k.

(** [t] is the earliest (resp. latest) review timestamp of [rows]. *)
Definition earliest (t : Z) (rows : list review) : Prop :=
  In (Some t) (map at_ rows) /\ forall u, In (Some u) (map at_ rows) -> (t <= u)%Z.
Definition latest (t : Z) (rows : list review) : Prop :=
  In (Some t) (map at_ rows) /\ forall u, In (Some u) (map at_ rows) -> (u <= t)%Z.

(** The review date of [r] lies between midnight of day [d0] and midnight of
    day [d1], both included. *)
Definition dated_within (d0 d1 : Z) (r : review) : Prop :=
  exists t, at_ r = Some t /\ (d0 * 86400000000000 <= t <= d1 * 86400000000000)%Z.

(** [r] passes the release-version filter: no version is selected, or the
    row's release version is one of the selected ones. *)
Definition version_selected (version_filter : list string) (r : review) : Prop :=
  version_filter = [] \/ exists v, In v version_filter /\ Release_Version r = Some v.

(** The columns the specification gives for the CSV download: the input
    columns without the feature description, plus the sentiment. *)
Definition columns_without_feature_description : list string :=
  List.filter (fun c => negb (String.eqb c "Feature Description")) InDetailed.input_columns
  ++ ["Sentiment"].

(** One line of the traceability table. *)
Definition traceability_line (r : review) : list InDetailed.cell :=
  [InDetailed.Timestamp (at_ r); InDetailed.Text (content r);
   InDetailed.Number (score r); InDetailed.Label (InDetailed.classify_sentiment (content r));
   InDetailed.Text (reviewCreatedVersion r); InDetailed.Text (Feature_Description r);
   InDetailed.Timestamp (Release_Date r)].

(** [x] is a feature of the raw descriptions: a fragment between ['#']
    signs of some entry, trimmed, and not empty. *)
Definition trimmed_fragment (x : string) (feature_raw : list string) : Prop :=
  exists entry frag,
    In entry feature_raw /\ In frag (PyStr.split "#" entry)
    /\ x = PyStr.strip frag /\ x <> "".

(** The rows of the table that belong to release version [v], in their
    order. *)
Definition rows_of_version (v : string) (rows : list review) : list review :=
  filter (fun r => Release_Version r = Some v) rows.

(** [m] is the least (resp. greatest) value present in a column, or is
    missing when no value is present. *)
Definition is_min (m : option Z) (col : list (option Z)) : Prop :=
  match m with
  | Some m => In (Some m) col /\ forall x, In (Some x) col -> (m <= x)%Z
  | None => forall x, ~ In (Some x) col
  end.
Definition is_max (m : option Z) (col : list (option Z)) : Prop :=
  match m with
  | Some m => In (Some m) col /\ forall x, In (Some x) col -> (x <= m)%Z
  | None => forall x, ~ In (Some x) col
  end.

(** [d] is the first value present in a column, or is missing when no value
    is present. *)
Definition is_first {A} (d : option A) (col : list (option A)) : Prop :=
  match d with
  | Some d => exists pre post, col = (pre ++ Some d :: post)%list
                               /\ Forall (fun c => c = None) pre
  | None => Forall (fun c => c = None) col
  end.

(** [row] is the Gantt aggregate of its release version over [rows]. *)
Definition aggregate_of (rows : list review) (row : InDetailed.gantt_row) : Prop :=
  let g := rows_of_version (InDetailed.g_Release_Version row) rows in
  g <> []
  /\ is_min (InDetailed.Start row) (map Release_Date g)
  /\ is_max (InDetailed.End_ row) (map at_ g)
  /\ is_first (InDetailed.Description row) (map Feature_Description g)
  /\ InDetailed.Reviews row = length (filter (fun r => content r <> None) g).

(** A start date that is not later than another one; a missing start date
    counts as later than every date. *)
Definition starts_no_later (a b : option Z) : Prop :=
  match a, b with
  | Some x, Some y => (x <= y)%Z
  | _, None => True
  | None, Some _ => False
  end.

(** The mean scores with two decimals from 0.00 to 10.00, in hundredths:
    [round(mean, 2)] is the quotient of a whole number [k] by 100, the
    double [lit (k # 100)]. *)
Definition hundredths : list Z := map Z.of_nat (seq 0 1001).

(** In binary64 the radius at [k / 100] is within [30, 80], equal to 30
    up to 3.20 and equal to 80 from 5.00 on. *)
Definition clamps_in_binary64 (k : Z) : bool :=
  let r := @Balloon.circle_pixel_radius float binary64 (lit (k # 100)) in
  (if (k <=? 320)%Z then PrimFloat.eqb r (of_int 30) else true)
  && (if (500 <=? k)%Z then PrimFloat.eqb r (of_int 80) else true)
  && PrimFloat.leb (of_int 30) r && PrimFloat.leb r (of_int 80).

(** Every character of [s] is whitespace. *)
Fixpoint all_space (s : string) : bool :=
  match s with
  | EmptyString => true
  | String c s' => PyStr.is_space c && all_space s'
  end.

(** [sep.join(pieces)] for a one-character separator. *)
Fixpoint join (sep : ascii) (pieces : list string) : string :=
  match pieces with
  | [] => EmptyString
  | [p] => p
  | p :: pieces' => p +:+ String sep (join sep pieces')
  end.

(** [x] neither starts nor ends with a whitespace character. *)
Definition no_outer_space (x : string) : Prop :=
  (forall c rest, x = String c rest -> PyStr.is_space c = false) /\
  (forall pre c, x = pre +:+ String c EmptyString -> PyStr.is_space c = false).

(** An entry made of ['#'] signs and whitespace only. *)
Definition blank_entry (entry : string) : Prop :=
  forall c, occurs c entry -> c = "#"%char \/ PyStr.is_space c = true.

(** Day counts from 0 to 3650 (ten years). *)
Definition day_counts : list Z := map Z.of_nat (seq 0 3651).

(** In binary64: up to 22 days the scaled length is 1.5, from 23 days on
    it is the quotient by 15, which exceeds 1.5. *)
Definition duration_threshold_in_binary64 (d : Z) : bool :=
  let s := @Balloon.duration_scaled float binary64 d in
  if (d <=? 22)%Z then PrimFloat.eqb s 1.5
  else PrimFloat.eqb s (PrimFloat.div (of_int d) (of_int 15)) && PrimFloat.ltb 1.5 s.

(** In binary64: the radius does not decrease from [k / 100] to
    [(k + 1) / 100]. *)
Definition radius_step_in_binary64 (k : Z) : bool :=
  PrimFloat.leb (@Balloon.circle_pixel_radius float binary64 (lit (k # 100)))
                (@Balloon.circle_pixel_radius float binary64 (lit ((k + 1) # 100))).

(** In binary64, for the mean [k / 100] and every span up to 60 days, the
    floor of 0.5 is not what [max] returns for the stick height. *)
Definition floor_idle_in_binary64 (k : Z) : bool :=
  forallb (fun d =>
             PrimFloat.eqb
               (@Balloon.stick_visible_height float binary64 (lit (k # 100)) d)
               (PrimFloat.sub (@Balloon.duration_scaled float binary64 d)
                              (@Balloon.circle_data_radius float binary64 (lit (k # 100))))
             && PrimFloat.ltb 1 (@Balloon.stick_visible_height float binary64 (lit (k # 100)) d))
          (map Z.of_nat (seq 0 61)).

(** The release versions of the rows that have both a release version and a
    review text, one entry per such row. *)
Definition counted_versions (rows : list review) : list string :=
  omap (fun r => match content r with
                 | Some _ => Release_Version r
                 | None => None
                 end) rows.


(** A row of a sample table: a review text, its score and its review date,
    the other cells empty. *)
Definition sample_review (text : string) (stars : Z) (date : option Z) : review :=
  {| at_ := date; content := Some text; score := inject_Z stars;
     appVersion := None; Release_Version := None; reviewCreatedVersion := None;
     Feature_Description := None; Release_Date := None |}.

(** The linear map that takes 3.2 to 30 and 5.0 to 80, not clamped. *)
Definition linear_image {F} `{PyFloat F} (x : F) : F :=
  (of_int 30 + (x - lit 3.2) / (lit 5.0 - lit 3.2) * (of_int 80 - of_int 30))%py.

(** No row of the bucket carries a review timestamp. *)
Definition no_timestamp (bucket : list review) : Prop :=
  Forall (fun r => at_ r = None) bucket.

(** A bucket of star ratings: every score is a whole number from 1 to 5. *)
Definition star_ratings (bucket : list review) : Prop :=
  Forall (fun r => exists z : Z, (1 <= z <= 5)%Z /\ score r = inject_Z z) bucket.

(** The stars of a bucket of star ratings, added up. *)
Definition total_stars (bucket : list review) : Z :=
  fold_right Z.add 0%Z (map (fun r => Qnum (score r)) bucket).

(** In binary64: adding the whole number [a] and a whole number [b] with
    [a + b] up to 500 gives the whole number [a + b], without rounding. *)
Definition add_whole_exact_in_binary64 (a : Z) : bool :=
  forallb (fun i => PrimFloat.Leibniz.eqb
                      (PrimFloat.add (float_of_Z a) (float_of_Z (Z.of_nat i)))
                      (float_of_Z (a + Z.of_nat i)))
          (seq 0 (Z.to_nat (501 - a))).

(** In binary64: the mean of [n] ratings that add up to [t], rounded to two
    decimals, is the double [k / 100] for the whole number [k] nearest to
    [100 * t / n], either neighbour when [100 * t / n] lies half-way. *)
Definition nearest_on_grid (n t : Z) : bool :=
  let avg := @round2 float binary64 (PrimFloat.div (float_of_Z t) (float_of_Z n)) in
  let k := (100 * t / n)%Z in
  let r := ((100 * t) mod n)%Z in
  if (2 * r <? n)%Z then PrimFloat.Leibniz.eqb avg (lit (k # 100))
  else if (n <? 2 * r)%Z then PrimFloat.Leibniz.eqb avg (lit ((k + 1) # 100))
  else PrimFloat.Leibniz.eqb avg (lit (k # 100))
       || PrimFloat.Leibniz.eqb avg (lit ((k + 1) # 100)).

(** The same for every total of [n] ratings, from [n] to [5 * n]. *)
Definition average_on_grid_in_binary64 (n : Z) : bool :=
  forallb (fun i => nearest_on_grid n (n + Z.of_nat i)) (seq 0 (Z.to_nat (4 * n + 1))).

(** The review date of [r] falls on a calendar day from [d0] to [d1], both
    days included. *)
Definition on_days (d0 d1 : Z) (r : review) : Prop :=
  exists t, at_ r = Some t /\ (d0 <= Pandas.date t <= d1)%Z.
(** ** Substring search *)

Section Substring.

Lemma app_nil (b : string) : "" +:+ b = b.
Proof. reflexivity. Qed.

Lemma app_cons (c : ascii) (a b : string) : String c a +:+ b = String c (a +:+ b).
Proof. reflexivity. Qed.

Lemma append_assoc (a b c : string) : (a +:+ b) +:+ c = a +:+ (b +:+ c).
Proof.
  induction a as [|x a IH]; [reflexivity|].
  now rewrite !app_cons, IH.
Qed.

Lemma app_eq_nil (a b : string) : "" = a +:+ b -> a = "" /\ b = "".
Proof. destruct a; [rewrite app_nil; now intros <- | rewrite app_cons; discriminate]. Qed.

Lemma startswith_spec w : forall t,
  PyStr.startswith t w = true <-> exists b, t = w +:+ b.
Proof.
  induction w as [|a w IH]; intros t; simpl.
  - split; [intros _; now exists t | reflexivity].
  - destruct t as [|b t]; simpl.
    + split; [discriminate | intros [x Hx]; rewrite app_cons in Hx; discriminate].
    + rewrite andb_true_iff, IH. split.
      * intros [Hab [x ->]]. apply Ascii.eqb_eq in Hab as ->. now exists x.
      * intros [x Hx]. rewrite app_cons in Hx. injection Hx as -> ->.
        split; [apply Ascii.eqb_refl | now exists x].
Qed.

Lemma contains_spec w : forall t,
  PyStr.contains w t = true <-> substring w t.
Proof.
  unfold substring.
  induction t as [|c t IH]; simpl; rewrite orb_true_iff, startswith_spec.
  - split.
    + intros [[b Hb] | H]; [now exists "", b | discriminate].
    + intros (a & b & H). left. apply app_eq_nil in H as [-> H]. now exists b.
  - rewrite IH. split.
    + intros [[b Hb] | (a & b & ->)]; [now exists "", b | now exists (String c a), b].
    + intros (a & b & H). destruct a as [|c' a].
      * left. now exists b.
      * right. rewrite app_cons in H. injection H as -> ->. now exists a, b.
Qed.

Lemma contains_false w t : PyStr.contains w t = false <-> ~ substring w t.
Proof. rewrite <- contains_spec. now destruct (PyStr.contains w t). Qed.

Lemma existsb_mentions words t :
  existsb (fun word => PyStr.contains word t) words = true <-> mentions words t.
Proof.
  unfold mentions. rewrite existsb_exists.
  split; intros (w & Hin & H); exists w; (split; [assumption|]); now apply contains_spec.
Qed.

Lemma existsb_mentions_false words t :
  existsb (fun word => PyStr.contains word t) words = false <-> ~ mentions words t.
Proof.
  rewrite <- existsb_mentions.
  now destruct (existsb _ words).
Qed.

Lemma lower_app a b : PyStr.lower (a +:+ b) = PyStr.lower a +:+ PyStr.lower b.
Proof.
  induction a as [|c a IH]; [reflexivity|].
  rewrite app_cons. simpl. now rewrite IH, app_cons.
Qed.

Lemma substring_lower w t : substring w t -> substring (PyStr.lower w) (PyStr.lower t).
Proof.
  intros (a & b & ->). exists (PyStr.lower a), (PyStr.lower b).
  now rewrite !lower_app.
Qed.

Lemma substring_trans u w t : substring u w -> substring w t -> substring u t.
Proof.
  intros (a & b & ->) (a' & b' & ->).
  exists (a' +:+ a), (b +:+ b').
  now rewrite !append_assoc.
Qed.

End Substring.

(** ** The sentiment classifiers *)

Section Classifier.

(** The shape both classifiers share: first match wins. *)
Lemma first_match pos neg t :
  let r := if existsb (fun word => PyStr.contains word t) pos then Positive
           else if existsb (fun word => PyStr.contains word t) neg then Negative
           else Neutral in
  (r = Positive <-> mentions pos t) /\
  (r = Negative <-> ~ mentions pos t /\ mentions neg t) /\
  (r = Neutral <-> ~ mentions pos t /\ ~ mentions neg t).
Proof.
  simpl.
  pose proof (existsb_mentions pos t) as Hp.
  pose proof (existsb_mentions neg t) as Hn.
  destruct (existsb _ pos); destruct (existsb _ neg);
    intuition (discriminate || auto).
Qed.

(** A keyword found in the text as typed is found, in lower case, in the
    lower-cased text; the lower-case form of every positive keyword of
    either page contains a positive keyword. *)
Lemma raw_positive words t w :
  Forall (fun w => mentions words (PyStr.lower w)) words ->
  In w words -> substring w t -> mentions words (PyStr.lower t).
Proof.
  intros Hall Hin Hsub. rewrite List.Forall_forall in Hall.
  destruct (Hall w Hin) as (k & Hk & Hkw).
  exists k. split; [assumption|].
  eapply substring_trans; [exact Hkw | now apply substring_lower].
Qed.

Lemma balloon_positive_closed :
  Forall (fun w => mentions Balloon.positive_words (PyStr.lower w)) Balloon.positive_words.
Proof.
  repeat constructor;
    apply existsb_mentions; vm_compute; reflexivity.
Qed.

Lemma in_detailed_positive_closed :
  Forall (fun w => mentions InDetailed.positive_words (PyStr.lower w)) InDetailed.positive_words.
Proof.
  repeat constructor;
    apply existsb_mentions; vm_compute; reflexivity.
Qed.

End Classifier.

(** C1. On either page [classify_sentiment] lower-cases the text and answers
    Positive exactly when a positive keyword of that page occurs in it as a
    substring, Negative exactly when no positive but some negative keyword
    occurs, and Neutral exactly when neither occurs.  Hence a text with
    both kinds of keyword is Positive, a text with neither is Neutral, and
    a positive keyword occurring in the text as typed also yields
    Positive. *)
Theorem classify_sentiment_first_match_wins (text : option string) :
  let t := PyStr.lower (PyStr.str text) in
  ((Balloon.classify_sentiment text = Positive
      <-> mentions Balloon.positive_words t) /\
   (Balloon.classify_sentiment text = Negative
      <-> ~ mentions Balloon.positive_words t /\ mentions Balloon.negative_words t) /\
   (Balloon.classify_sentiment text = Neutral
      <-> ~ mentions Balloon.positive_words t /\ ~ mentions Balloon.negative_words t) /\
   (mentions Balloon.positive_words t /\ mentions Balloon.negative_words t ->
      Balloon.classify_sentiment text = Positive) /\
   (forall w, In w Balloon.positive_words -> substring w (PyStr.str text) ->
      Balloon.classify_sentiment text = Positive)) /\
  ((InDetailed.classify_sentiment text = Positive
      <-> mentions InDetailed.positive_words t) /\
   (InDetailed.classify_sentiment text = Negative
      <-> ~ mentions InDetailed.positive_words t /\ mentions InDetailed.negative_words t) /\
   (InDetailed.classify_sentiment text = Neutral
      <-> ~ mentions InDetailed.positive_words t /\ ~ mentions InDetailed.negative_words t) /\
   (mentions InDetailed.positive_words t /\ mentions InDetailed.negative_words t ->
      InDetailed.classify_sentiment text = Positive) /\
   (forall w, In w InDetailed.positive_words -> substring w (PyStr.str text) ->
      InDetailed.classify_sentiment text = Positive)).
Proof.
  intros t.
  pose proof (first_match Balloon.positive_words Balloon.negative_words t) as (B1 & B2 & B3).
  pose proof (first_match InDetailed.positive_words InDetailed.negative_words t) as (D1 & D2 & D3).
  split; (split; [assumption | split; [assumption | split; [assumption | split]]]).
  - intros [Hp _]. now apply B1.
  - intros w Hin Hsub. apply B1.
    exact (raw_positive _ _ _ balloon_positive_closed Hin Hsub).
  - intros [Hp _]. now apply D1.
  - intros w Hin Hsub. apply D1.
    exact (raw_positive _ _ _ in_detailed_positive_closed Hin Hsub).
Qed.

(** ** Upper-case letters and lower-cased text *)

Section LowerCase.

Lemma lower_char_not_upper c : PyStr.is_upper (PyStr.lower_char c) = false.
Proof.
  destruct c as [[] [] [] [] [] [] [] []]; vm_compute; reflexivity.
Qed.

Lemma occurs_lower c t : occurs c (PyStr.lower t) -> PyStr.is_upper c = false.
Proof.
  unfold occurs. induction t as [|x t IH]; simpl; [tauto|].
  intros [<- | H]; [apply lower_char_not_upper | now apply IH].
Qed.

Lemma occurs_app c a b : occurs c b -> occurs c (a +:+ b).
Proof.
  unfold occurs. induction a as [|x a IH]; intros H; [assumption|].
  rewrite app_cons. simpl. right. now apply IH.
Qed.

Lemma substring_head_occurs c w t : substring (String c w) t -> occurs c t.
Proof.
  intros (a & b & ->). apply occurs_app. rewrite app_cons. now left.
Qed.

(** A keyword that starts with an upper-case letter never matches. *)
Lemma upper_keyword_never_matches c w t :
  PyStr.is_upper c = true -> PyStr.contains (String c w) (PyStr.lower t) = false.
Proof.
  intros Hup. apply contains_false. intros Hsub.
  apply substring_head_occurs, occurs_lower in Hsub. congruence.
Qed.

End LowerCase.

(** C9. The balloon page's classifier equals the same classifier without
    the keyword ["Perfectoo"]: the text is lower-cased before matching, so
    the mixed-case literal is never a substring of it, and a text that
    contains ["perfectoo"] already contains the keyword ["perfect"]. *)
Theorem classify_sentiment_Perfectoo_redundant :
  (forall text : option string,
     Balloon.classify_sentiment text = classify_sentiment_without_Perfectoo text) /\
  (forall text : option string,
     PyStr.contains "Perfectoo" (PyStr.lower (PyStr.str text)) = false) /\
  (forall t : string,
     PyStr.contains "perfectoo" t = true -> PyStr.contains "perfect" t = true).
Proof.
  assert (Hnever : forall t, PyStr.contains "Perfectoo" (PyStr.lower t) = false)
    by (intros t; now apply upper_keyword_never_matches).
  split; [|split].
  - intros text.
    unfold Balloon.classify_sentiment, classify_sentiment_without_Perfectoo,
      Balloon.positive_words.
    change ["good"; "great"; "excellent"; "love"; "happy"; "nice"; "perfect";
            "clear"; "easy"; "Perfectoo"]
      with (["good"; "great"; "excellent"; "love"; "happy"; "nice"; "perfect";
             "clear"; "easy"] ++ ["Perfectoo"])%list.
    cbv zeta. rewrite existsb_app.
    replace (existsb _ ["Perfectoo"]) with false; [now rewrite orb_false_r|].
    simpl. now rewrite Hnever.
  - intros text. apply Hnever.
  - intros t. rewrite !contains_spec. intros Hsub.
    eapply substring_trans; [|exact Hsub].
    now exists "", "oo".
Qed.

(** ** The stable sort *)

Section SortedFacts.
Context {A : Type} (lt : A -> A -> bool).

(** Below, [x] may stand before [y] when [lt y x = false]: the sort only
    ever asks whether [y < x]. *)
Abbreviation le := (fun x y : A => lt y x = false).

Hypothesis lt_asym : forall x y, lt x y = true -> lt y x = false.
Hypothesis le_trans :
  forall x y z, lt y x = false -> lt z y = false -> lt z x = false.

Lemma insert_perm x l : Permutation (PyStr.insert lt x l) (x :: l).
Proof.
  induction l as [|y l IH]; simpl; [reflexivity|].
  destruct (lt y x); [|reflexivity].
  rewrite IH. apply perm_swap.
Qed.

Lemma sorted_perm l : Permutation (PyStr.sorted lt l) l.
Proof.
  induction l as [|x l IH]; simpl; [reflexivity|].
  now rewrite insert_perm, IH.
Qed.

Lemma insert_sorted x l :
  StronglySorted le l -> StronglySorted le (PyStr.insert lt x l).
Proof.
  induction 1 as [|y l Hs IH Hall]; simpl.
  - repeat constructor.
  - destruct (lt y x) eqn:Hyx.
    + constructor; [assumption|].
      rewrite insert_perm. constructor; [now apply lt_asym | assumption].
    + constructor; [now constructor|].
      constructor; [assumption|].
      eapply Forall_impl; [exact Hall|].
      intros z Hz. now apply le_trans with y.
Qed.

Lemma sorted_sorted l : StronglySorted le (PyStr.sorted lt l).
Proof.
  induction l as [|x l IH]; simpl; [constructor | now apply insert_sorted].
Qed.

Lemma strongly_sorted_before x y l :
  StronglySorted le l -> before x y l -> lt y x = false.
Proof.
  intros Hs (l1 & l2 & l3 & ->).
  induction l1 as [|z l1 IH]; simpl in Hs; apply StronglySorted_inv in Hs as [Hs Hall].
  - rewrite Forall_app, Forall_cons in Hall. tauto.
  - now apply IH.
Qed.

(** Whatever the input, the sort never leaves a strictly greater element
    before a smaller one. *)
Lemma sorted_never_inverts x y l :
  lt x y = true -> ~ before y x (PyStr.sorted lt l).
Proof.
  intros Hlt Hb.
  pose proof (strongly_sorted_before _ _ _ (sorted_sorted l) Hb) as Hle.
  simpl in Hle. congruence.
Qed.

End SortedFacts.

(** ** Lexicographic order on integer keys *)

Section ListLt.

Lemma list_lt_asym : forall a b, PyStr.list_lt a b = true -> PyStr.list_lt b a = false.
Proof.
  induction a as [|x a IH]; intros [|y b]; simpl; try easy.
  rewrite (N.eqb_sym y x).
  destruct (N.eqb_spec x y) as [->|Hne]; [apply IH|].
  rewrite !N.ltb_lt, N.ltb_ge. lia.
Qed.

Lemma list_le_trans : forall a b c,
  PyStr.list_lt b a = false -> PyStr.list_lt c b = false -> PyStr.list_lt c a = false.
Proof.
  induction a as [|x a IH]; intros [|y b] [|z c]; simpl; try easy.
  destruct (N.eqb_spec y x), (N.eqb_spec z y), (N.eqb_spec z x);
    subst; rewrite ?N.ltb_ge; try lia; try easy.
  apply IH.
Qed.

End ListLt.

Lemma strongly_sorted_impl {A} (R S : A -> A -> Prop) (l : list A) :
  (forall a b, R a b -> S a b) -> StronglySorted R l -> StronglySorted S l.
Proof.
  intros H. induction 1 as [|x l Hs IH Hall]; constructor; [assumption|].
  eapply Forall_impl; [exact Hall | auto].
Qed.

(** ** Cutting a label at its digit runs *)

Section SplitDigits.

Lemma split_digits_cons c s :
  PyStr.split_digits (String c s) =
  match PyStr.split_digits s with
  | t0 :: rest =>
      if PyStr.is_digit c then
        match t0, rest with
        | EmptyString, d :: rest' => EmptyString :: String c d :: rest'
        | _, _ => EmptyString :: String c EmptyString :: t0 :: rest
        end
      else String c t0 :: rest
  | [] => [String c EmptyString]
  end.
Proof. reflexivity. Qed.

Lemma no_digit_isdigit t : no_digit t = true -> PyStr.isdigit t = false.
Proof.
  destruct t as [|c t]; [reflexivity|]. simpl.
  unfold PyStr.isdigit. simpl. now destruct (PyStr.is_digit c).
Qed.

Lemma isdigit_cons c d :
  PyStr.is_digit c = true -> PyStr.isdigit (String c d) = PyStr.all_digits d.
Proof. intros H. unfold PyStr.isdigit. simpl. now rewrite H. Qed.

Lemma isdigit_all_digits d : PyStr.isdigit d = true -> PyStr.all_digits d = true.
Proof. unfold PyStr.isdigit. now rewrite andb_true_iff. Qed.

(** The cut alternates text without digits and maximal digit runs. *)
Lemma split_digits_alternating s : alternating (PyStr.split_digits s) = true.
Proof.
  induction s as [|c s IH]; [reflexivity|].
  rewrite split_digits_cons.
  destruct (PyStr.split_digits s) as [|t0 rest]; [discriminate|].
  simpl in IH. apply andb_true_iff in IH as [Ht0 Hrest].
  destruct (PyStr.is_digit c) eqn:Hc.
  - destruct t0 as [|x t0].
    + destruct rest as [|d [|t rest]].
      * cbn [alternating runs_then_text no_digit andb].
        now rewrite (isdigit_cons _ _ Hc).
      * discriminate.
      * simpl in Hrest. rewrite !andb_true_iff in Hrest.
        destruct Hrest as [[[Hd Ht] Hmax] Hrest].
        cbn [alternating runs_then_text no_digit andb].
        now rewrite (isdigit_cons _ _ Hc), (isdigit_all_digits _ Hd), Ht, Hmax, Hrest.
    + cbn [alternating runs_then_text PyStr.truthy andb].
      rewrite (isdigit_cons _ _ Hc), Ht0, Hrest. simpl.
      now destruct rest.
  - simpl. now rewrite Hc, Ht0, Hrest.
Qed.

(** The cut glues back to the label. *)
Lemma split_digits_glue s : glue (PyStr.split_digits s) = s.
Proof.
  induction s as [|c s IH]; [reflexivity|].
  rewrite split_digits_cons.
  pose proof (split_digits_alternating s) as Halt.
  destruct (PyStr.split_digits s) as [|t0 rest]; [discriminate|].
  unfold glue in *. cbn [foldr] in IH.
  destruct (PyStr.is_digit c).
  - destruct t0 as [|x t0]; [destruct rest as [|d rest]|];
      cbn [foldr] in *; now rewrite <- IH.
  - cbn [foldr]. now rewrite <- IH.
Qed.

(** How the cut of a non-empty label starts. *)
Lemma split_digits_head c s :
  if PyStr.is_digit c
  then exists d rest, PyStr.split_digits (String c s) = EmptyString :: d :: rest
  else exists t rest, PyStr.split_digits (String c s) = String c t :: rest.
Proof.
  rewrite split_digits_cons.
  pose proof (split_digits_alternating s) as Halt.
  destruct (PyStr.split_digits s) as [|t0 rest]; [discriminate|].
  destruct (PyStr.is_digit c).
  - destruct t0; [destruct rest|]; eauto.
  - eauto.
Qed.

(** [re.findall] returns the digit runs of the cut [re.split] makes. *)
Lemma findall_digits_runs s :
  PyStr.findall_digits s = digit_runs (PyStr.split_digits s).
Proof.
  induction s as [|c s IH]; [reflexivity|].
  rewrite split_digits_cons. simpl PyStr.findall_digits.
  destruct (PyStr.is_digit c) eqn:Hc.
  - destruct s as [|c' s].
    + reflexivity.
    + pose proof (split_digits_head c' s) as Hhead.
      destruct (PyStr.is_digit c') eqn:Hc'.
      * destruct Hhead as (d & rest & Heq). rewrite IH, Heq. reflexivity.
      * destruct Hhead as (t & rest & Heq). rewrite IH, Heq. reflexivity.
  - rewrite IH. destruct (PyStr.split_digits s) as [|t0 rest]; [reflexivity|].
    reflexivity.
Qed.

End SplitDigits.

(** ** The order of strings *)

Section StringOrder.

Lemma str_ltb_leb a b : String.ltb b a = false <-> String.leb a b = true.
Proof.
  unfold String.ltb, String.leb. rewrite (String.compare_antisym b a).
  destruct (String.compare a b); simpl; split; congruence.
Qed.

Lemma str_lt_asym a b : String.ltb a b = true -> String.ltb b a = false.
Proof.
  unfold String.ltb. rewrite (String.compare_antisym a b).
  now destruct (String.compare b a).
Qed.

Lemma str_le_trans a b c :
  String.ltb b a = false -> String.ltb c b = false -> String.ltb c a = false.
Proof.
  rewrite !str_ltb_leb. intros Hab Hbc.
  apply Is_true_true. apply Is_true_true in Hab, Hbc.
  exact (transitivity (R := String.le) Hab Hbc).
Qed.

Lemma str_trichotomy a b :
  String.eqb a b = false -> String.ltb a b = false -> String.ltb b a = true.
Proof.
  intros Hne. apply String.eqb_neq in Hne.
  unfold String.ltb. rewrite (String.compare_antisym b a).
  destruct (String.compare a b) eqn:Hc; try easy.
  now apply String.compare_eq_iff in Hc.
Qed.

Lemma str_ltb_irrefl a : String.ltb a a = false.
Proof.
  unfold String.ltb. pose proof (String.compare_antisym a a) as H.
  now destruct (String.compare a a).
Qed.

End StringOrder.

(** ** The order of In-Detailed version keys *)

Section KeyOrder.
Import InDetailed.

Lemma part_eqb_sym a b : part_eqb a b = part_eqb b a.
Proof.
  destruct a, b; simpl; auto using String.eqb_sym, N.eqb_sym.
Qed.

Lemma part_eqb_eq a b : part_eqb a b = true -> a = b.
Proof.
  destruct a, b; simpl; try discriminate.
  - now intros ->%String.eqb_eq.
  - now intros ->%N.eqb_eq.
Qed.

(** Comparing two keys of the same shape never raises. *)
Lemma key_lt_comparable : forall k1 k2 b,
  shaped b k1 = true -> shaped b k2 = true -> exists r, key_lt k1 k2 = Some r.
Proof.
  induction k1 as [|p k1 IH]; intros [|q k2] b H1 H2; simpl; eauto.
  destruct p, q, b; simpl in *; try discriminate;
    match goal with
    | |- context [if ?c then _ else _] => destruct c; eauto
    end.
Qed.

Lemma key_lt_asym : forall k1 k2 b,
  shaped b k1 = true -> shaped b k2 = true ->
  key_lt k1 k2 = Some true -> key_lt k2 k1 = Some false.
Proof.
  induction k1 as [|p k1 IH]; intros [|q k2] b H1 H2; simpl; try easy.
  rewrite (part_eqb_sym q p).
  destruct p, q, b; simpl in *; try discriminate.
  - destruct (String.eqb s s0); [now apply IH with false|].
    intros [= Hlt]. now rewrite (str_lt_asym _ _ Hlt).
  - destruct (N.eqb_spec n n0) as [->|Hne]; [now apply IH with true|].
    intros [= Hlt]. f_equal. apply N.ltb_lt in Hlt. apply N.ltb_ge. lia.
Qed.

Lemma key_le_trans : forall k1 k2 k3 b,
  shaped b k1 = true -> shaped b k2 = true -> shaped b k3 = true ->
  key_lt k2 k1 = Some false -> key_lt k3 k2 = Some false -> key_lt k3 k1 = Some false.
Proof.
  induction k1 as [|p k1 IH]; intros [|q k2] [|r k3] b H1 H2 H3; simpl; try easy.
  destruct p, q, r, b; simpl in *; try discriminate.
  - destruct (String.eqb_spec s0 s) as [->|Hqp].
    + destruct (String.eqb s1 s); [now apply IH with false | easy].
    + destruct (String.eqb_spec s1 s0) as [->|Hrq].
      * rewrite (proj2 (String.eqb_neq _ _) Hqp). easy.
      * intros [= Hqp'] [= Hrq'].
        destruct (String.eqb_spec s1 s) as [->|Hrp].
        -- apply String.eqb_neq in Hrq.
           rewrite (str_trichotomy _ _ Hrq Hrq') in Hqp'. discriminate.
        -- f_equal. now apply str_le_trans with s0.
  - destruct (N.eqb_spec n0 n) as [->|Hqp].
    + destruct (N.eqb n1 n); [now apply IH with true | easy].
    + destruct (N.eqb_spec n1 n0) as [->|Hrq].
      * rewrite (proj2 (N.eqb_neq _ _) Hqp). easy.
      * intros [= Hqp'] [= Hrq']. apply N.ltb_ge in Hqp', Hrq'.
        destruct (N.eqb_spec n1 n) as [->|Hrp]; [lia|].
        f_equal. apply N.ltb_ge. lia.
Qed.

(** A version key has text at even and integers at odd positions. *)
Lemma pieces_shaped : forall pieces,
  runs_then_text pieces = true ->
  shaped false
    (map (fun x => if PyStr.isdigit x then KInt (PyStr.int x) else KText x) pieces) = true.
Proof.
  fix IH 1. intros [|d [|t pieces]]; simpl; try easy.
  rewrite !andb_true_iff. intros [[[Hd Ht] _] Hrest].
  rewrite Hd, (no_digit_isdigit _ Ht). simpl. now apply IH.
Qed.

Lemma version_key_shaped v : shaped true (version_key (Some v)) = true.
Proof.
  unfold version_key.
  pose proof (split_digits_alternating v) as Halt.
  destruct (PyStr.split_digits v) as [|t0 rest]; [discriminate|].
  simpl in Halt. apply andb_true_iff in Halt as [Ht0 Hrest].
  simpl. rewrite (no_digit_isdigit _ Ht0). simpl. now apply pieces_shaped.
Qed.

Lemma version_key_comparable a b :
  exists r, key_lt (version_key (Some a)) (version_key (Some b)) = Some r.
Proof. eapply key_lt_comparable; apply version_key_shaped. Qed.

Lemma version_lt_asym a b : version_lt a b = true -> version_lt b a = false.
Proof.
  unfold version_lt.
  destruct (key_lt (version_key (Some a)) (version_key (Some b))) as [[]|] eqn:Hab; try easy.
  intros _.
  now rewrite (key_lt_asym _ _ true (version_key_shaped a) (version_key_shaped b) Hab).
Qed.

Lemma version_le_trans a b c :
  version_lt b a = false -> version_lt c b = false -> version_lt c a = false.
Proof.
  unfold version_lt.
  destruct (version_key_comparable b a) as [r1 H1], (version_key_comparable c b) as [r2 H2].
  rewrite H1, H2. intros -> ->.
  now rewrite (key_le_trans _ _ _ true (version_key_shaped a) (version_key_shaped b)
                 (version_key_shaped c) H1 H2).
Qed.

End KeyOrder.

(** ** Version keys of the two pages *)

Section VersionKeys.
Import InDetailed.

Lemma split_digits_no_digit v : no_digit v = true -> PyStr.split_digits v = [v].
Proof.
  induction v as [|c v IH]; [reflexivity|].
  simpl no_digit. rewrite andb_true_iff, negb_true_iff. intros [Hc Hv].
  rewrite split_digits_cons, (IH Hv), Hc. reflexivity.
Qed.

Lemma ints_runs : forall pieces,
  runs_then_text pieces = true ->
  ints (map (fun x => if PyStr.isdigit x then KInt (PyStr.int x) else KText x) pieces)
  = map PyStr.int (digit_runs (EmptyString :: pieces)).
Proof.
  fix IH 1. intros [|d [|t pieces]]; simpl; try easy.
  rewrite !andb_true_iff. intros [[[Hd Ht] _] Hrest].
  unfold ints in *. simpl. rewrite Hd, (no_digit_isdigit _ Ht). simpl.
  f_equal. now apply IH.
Qed.

Lemma version_key_ints v :
  ints (version_key (Some v)) = map PyStr.int (digit_runs (PyStr.split_digits v)).
Proof.
  unfold version_key.
  pose proof (split_digits_alternating v) as Halt.
  destruct (PyStr.split_digits v) as [|t0 rest]; [discriminate|].
  simpl in Halt. apply andb_true_iff in Halt as [Ht0 Hrest].
  change (digit_runs (t0 :: rest)) with (digit_runs (EmptyString :: rest)).
  rewrite <- (ints_runs _ Hrest).
  unfold ints. simpl. now rewrite (no_digit_isdigit _ Ht0).
Qed.

Lemma balloon_version_key_runs v :
  Balloon.version_key v =
  match digit_runs (PyStr.split_digits v) with
  | [] => [0%N]
  | (_ :: _) as runs => map PyStr.int runs
  end.
Proof.
  unfold Balloon.version_key. cbv zeta. rewrite findall_digits_runs.
  now destruct (digit_runs (PyStr.split_digits v)).
Qed.

Lemma digit_runs_no_digit v : no_digit v = true -> digit_runs (PyStr.split_digits v) = [].
Proof. intros H. now rewrite (split_digits_no_digit _ H). Qed.

(** [[0]] is a least key of the balloon page. *)
Lemma balloon_zero_key_least w : PyStr.list_lt (Balloon.version_key w) [0%N] = false.
Proof.
  unfold Balloon.version_key. cbv zeta.
  destruct (PyStr.findall_digits w) as [|d ds]; [reflexivity|].
  cbn [map PyStr.list_lt]. destruct (N.eqb_spec (PyStr.int d) 0) as [Heq|Hne].
  - now destruct (map PyStr.int ds).
  - apply N.ltb_ge. lia.
Qed.

Lemma balloon_sort_never_inverts a b l :
  PyStr.list_lt (Balloon.version_key a) (Balloon.version_key b) = true ->
  ~ before b a (Balloon.sorted_by_version_key l).
Proof.
  apply (sorted_never_inverts
           (fun a b => PyStr.list_lt (Balloon.version_key a) (Balloon.version_key b))).
  - intros x y. apply list_lt_asym.
  - intros x y z. apply list_le_trans.
Qed.

Lemma in_detailed_sort_never_inverts a b l :
  version_lt a b = true -> ~ before b a (sorted_by_version_key l).
Proof.
  apply (sorted_never_inverts version_lt).
  - apply version_lt_asym.
  - intros x y z. apply version_le_trans.
Qed.

End VersionKeys.

(** C2, as the code has it.  The claim holds of the balloon page only; the
    In-Detailed page keeps the text around the digit runs in its key. *)
Lemma version_key_in_detailed_keeps_text :
  InDetailed.version_key (Some "v2.10.3")
    <> [InDetailed.KInt 2; InDetailed.KInt 10; InDetailed.KInt 3] /\
  InDetailed.version_key (Some "beta") <> [] /\
  InDetailed.version_key (Some "beta") <> [InDetailed.KInt 0] /\
  InDetailed.sorted_by_version_key ["beta"; "2"] = ["2"; "beta"].
Proof. repeat split; vm_compute; congruence. Qed.

(** C2 (amended).  Both pages cut a label into text and maximal digit runs,
    [text; digits; text; ...; text], the pieces gluing back to the label.
    On the balloon page [version_key] is the sequence of the digit runs read
    as integers, and [[0]] for a label without digits, which no key
    precedes: ["v2.10.3"] gives [[2; 10; 3]] and ["beta"] gives [[0]].  On
    the In-Detailed page [version_key] keeps every piece, the digit runs as
    integers between the text: ["v2.10.3"] gives
    [["v"; 2; "."; 10; "."; 3; ""]], a label without digits is its own
    one-element key (["beta"] gives [["beta"]]) and only a missing label
    gives [[]]; its integers are those of the balloon key.  On either page,
    whatever list of labels is sorted by the key, ["v2.10"] never ends up
    before ["v2.9"]. *)
Theorem version_key_by_page (v : string) (labels : list string) :
  (glue (PyStr.split_digits v) = v /\ alternating (PyStr.split_digits v) = true) /\
  (Balloon.version_key v =
     match digit_runs (PyStr.split_digits v) with
     | [] => [0%N]
     | (_ :: _) as runs => map PyStr.int runs
     end /\
   (no_digit v = true -> Balloon.version_key v = [0%N]) /\
   (forall w, PyStr.list_lt (Balloon.version_key w) [0%N] = false) /\
   Balloon.version_key "v2.10.3" = [2; 10; 3]%N /\
   Balloon.version_key "beta" = [0%N] /\
   ~ before "v2.10" "v2.9" (Balloon.sorted_by_version_key labels) /\
   Balloon.sorted_by_version_key ["v2.10"; "v2.9"] = ["v2.9"; "v2.10"]) /\
  (InDetailed.version_key (Some v) =
     map (fun x => if PyStr.isdigit x then InDetailed.KInt (PyStr.int x)
                   else InDetailed.KText x) (PyStr.split_digits v) /\
   ints (InDetailed.version_key (Some v)) = map PyStr.int (digit_runs (PyStr.split_digits v)) /\
   (no_digit v = true -> InDetailed.version_key (Some v) = [InDetailed.KText v]) /\
   InDetailed.version_key None = [] /\
   InDetailed.version_key (Some "v2.10.3") =
     [InDetailed.KText "v"; InDetailed.KInt 2; InDetailed.KText ".";
      InDetailed.KInt 10; InDetailed.KText "."; InDetailed.KInt 3; InDetailed.KText ""] /\
   InDetailed.version_key (Some "beta") = [InDetailed.KText "beta"] /\
   (exists r, InDetailed.key_lt (InDetailed.version_key (Some v))
                (InDetailed.version_key (Some "v2.9")) = Some r) /\
   ~ before "v2.10" "v2.9" (InDetailed.sorted_by_version_key labels) /\
   InDetailed.sorted_by_version_key ["v2.10"; "v2.9"] = ["v2.9"; "v2.10"]).
Proof.
  split; [|split].
  - split; [apply split_digits_glue | apply split_digits_alternating].
  - split; [apply balloon_version_key_runs|].
    split. { intros H. now rewrite balloon_version_key_runs, (digit_runs_no_digit _ H). }
    split; [apply balloon_zero_key_least|].
    do 2 (split; [reflexivity|]).
    split; [now apply balloon_sort_never_inverts | reflexivity].
  - split; [reflexivity|].
    split; [apply version_key_ints|].
    split.
    { intros H. unfold InDetailed.version_key.
      rewrite (split_digits_no_digit _ H). simpl. now rewrite (no_digit_isdigit _ H). }
    do 3 (split; [reflexivity|]).
    split; [apply version_key_comparable|].
    split; [now apply in_detailed_sort_never_inverts | reflexivity].
Qed.

(** ** Balloon geometry in exact arithmetic *)

Section ExactGeometry.
Local Open Scope Q_scope.

Lemma Qltb_lt a b : Qltb a b = true <-> a < b.
Proof.
  unfold Qltb. rewrite negb_true_iff, <- not_true_iff_false, Qle_bool_iff.
  split; [apply Qnot_le_lt | apply Qlt_not_le].
Qed.

Lemma Qltb_ge a b : Qltb a b = false <-> b <= a.
Proof.
  unfold Qltb. rewrite negb_false_iff, Qle_bool_iff. reflexivity.
Qed.

Lemma py_max_Qmax (a b : Q) : py_max a b == Qmax a b.
Proof.
  unfold py_max. simpl. destruct (Qltb a b) eqn:H.
  - apply Qltb_lt in H. symmetry. apply Q.max_r. now apply Qlt_le_weak.
  - apply Qltb_ge in H. symmetry. now apply Q.max_l.
Qed.

Lemma py_min_Qmin (a b : Q) : py_min a b == Qmin a b.
Proof.
  unfold py_min. simpl. destruct (Qltb b a) eqn:H.
  - apply Qltb_lt in H. symmetry. apply Q.min_r. now apply Qlt_le_weak.
  - apply Qltb_ge in H. symmetry. now apply Q.min_l.
Qed.

Lemma score_norm_clamp (avg : Q) :
  Balloon.score_norm avg == Qmax 0 (Qmin ((avg - 3.2) / 1.8) 1).
Proof.
  unfold Balloon.score_norm. rewrite py_max_Qmax, py_min_Qmin.
  change (@of_int Q exact 0) with 0. change (@of_int Q exact 1) with 1.
  change (@fdiv Q exact) with Qdiv. change (@fsub Q exact) with Qminus.
  change (@Balloon.score_min Q exact) with 3.2.
  change (@Balloon.score_max Q exact) with 5.0.
  assert (Hden : 5.0 - 3.2 == 1.8) by (vm_compute; reflexivity).
  now rewrite Hden.
Qed.

Lemma circle_pixel_radius_clamp (avg : Q) :
  Balloon.circle_pixel_radius avg
  == 30 + Qmax 0 (Qmin ((avg - 3.2) / 1.8) 1) * (80 - 30).
Proof.
  unfold Balloon.circle_pixel_radius. rewrite score_norm_clamp.
  change (@Balloon.min_size Q exact) with 30. change (@Balloon.max_size Q exact) with 80.
  reflexivity.
Qed.

Lemma circle_pixel_radius_range (avg : Q) :
  30 <= Balloon.circle_pixel_radius avg <= 80.
Proof.
  rewrite circle_pixel_radius_clamp.
  destruct (Q.max_spec 0 (Qmin ((avg - 3.2) / 1.8) 1)) as [[H1 ->]|[H1 ->]];
    destruct (Q.min_spec ((avg - 3.2) / 1.8) 1) as [[H2 H3]|[H2 H3]];
    rewrite ?H3 in *; lra.
Qed.

Lemma duration_scaled_Qmax (d : Z) :
  Balloon.duration_scaled d == Qmax (inject_Z d / 15) 1.5.
Proof. unfold Balloon.duration_scaled. rewrite py_max_Qmax. reflexivity. Qed.

Lemma duration_scaled_ge (d : Z) : 1.5 <= Balloon.duration_scaled d.
Proof. rewrite duration_scaled_Qmax. apply Q.le_max_r. Qed.

Lemma circle_data_radius_le (avg : Q) : Balloon.circle_data_radius avg <= (2 # 15).
Proof.
  unfold Balloon.circle_data_radius.
  pose proof (circle_pixel_radius_range avg) as [_ H].
  cbv [Balloon.pixel_to_data_ratio of_int fmul fdiv exact inject_Z].
  set (r := Balloon.circle_pixel_radius avg) in *.
  assert (E : r / 2 * (2 / 600) == r * (1 # 600)) by field.
  rewrite E. lra.
Qed.

Lemma stick_visible_height_Qmax (avg : Q) (d : Z) :
  Balloon.stick_visible_height avg d
  == Qmax (Balloon.duration_scaled d - Balloon.circle_data_radius avg) 0.5.
Proof. unfold Balloon.stick_visible_height. rewrite py_max_Qmax. reflexivity. Qed.

End ExactGeometry.

(** ** The average of star ratings in binary64 *)

Section StarRatings.
Local Open Scope Z_scope.

Lemma lit_star (z : Z) : 1 <= z <= 5 -> @lit float binary64 (inject_Z z) = float_of_Z z.
Proof.
  intros H.
  assert (E : z = 1 \/ z = 2 \/ z = 3 \/ z = 4 \/ z = 5) by lia.
  destruct E as [-> | [-> | [-> | [-> | ->]]]]; vm_compute; reflexivity.
Qed.

Lemma add_whole_exact_all (a : Z) : 0 <= a <= 500 -> add_whole_exact_in_binary64 a = true.
Proof.
  intros H.
  assert (Hin : In a (map Z.of_nat (seq 0 501))).
  { apply in_map_iff. exists (Z.to_nat a). split; [lia|]. apply in_seq. lia. }
  clear H. revert a Hin. apply forallb_forall. vm_compute. reflexivity.
Qed.

(** Adding two whole numbers is exact as long as the result stays within
    500, so the sum of up to a hundred ratings is their total, in whichever
    order and grouping the additions are made. *)
Lemma add_whole_exact (a b : Z) :
  0 <= a -> 0 <= b -> a + b <= 500 ->
  PrimFloat.add (float_of_Z a) (float_of_Z b) = float_of_Z (a + b).
Proof.
  intros Ha Hb Hab. pose proof (add_whole_exact_all a ltac:(lia)) as H.
  unfold add_whole_exact_in_binary64 in H. rewrite forallb_forall in H.
  specialize (H (Z.to_nat b)). rewrite Z2Nat.id in H by exact Hb.
  apply FloatAxioms.Leibniz.eqb_spec, H, in_seq. lia.
Qed.

Lemma sum_step_exact (a z : Z) :
  0 <= a <= 495 -> 1 <= z <= 5 ->
  PrimFloat.add (float_of_Z a) (@lit float binary64 (inject_Z z)) = float_of_Z (a + z).
Proof.
  intros Ha Hz. rewrite lit_star by exact Hz. apply add_whole_exact; lia.
Qed.

Lemma total_stars_cons r bucket :
  total_stars (r :: bucket) = Qnum (score r) + total_stars bucket.
Proof. reflexivity. Qed.

Lemma total_stars_bounds bucket :
  star_ratings bucket ->
  Z.of_nat (length bucket) <= total_stars bucket <= 5 * Z.of_nat (length bucket).
Proof.
  induction 1 as [|r bucket (z & Hz & Hr) _ IH]; [cbn; lia|].
  rewrite total_stars_cons, Hr. cbn [length Qnum inject_Z]. lia.
Qed.

Lemma fold_star_ratings bucket : forall a,
  star_ratings bucket -> 0 <= a -> a + 5 * Z.of_nat (length bucket) <= 500 ->
  fold_left PrimFloat.add (map (fun r => @lit float binary64 (score r)) bucket)
            (float_of_Z a)
  = float_of_Z (a + total_stars bucket).
Proof.
  induction bucket as [|r bucket IH]; intros a Hall Ha Hlen.
  - cbn. now rewrite Z.add_0_r.
  - inversion Hall as [|? ? (z & Hz & Hr) Hall']; subst.
    cbn [map fold_left length] in *. rewrite total_stars_cons, Hr.
    rewrite sum_step_exact by lia. cbn [Qnum inject_Z].
    rewrite IH by (try assumption; lia). f_equal. lia.
Qed.

Lemma sum_star_ratings bucket :
  star_ratings bucket -> (length bucket <= 100)%nat ->
  @Pandas.sum float binary64 (map (fun r => lit (score r)) bucket)
  = float_of_Z (total_stars bucket).
Proof.
  intros Hall Hlen. unfold Pandas.sum.
  change (@of_int float binary64 0) with (float_of_Z 0).
  change (@fadd float binary64) with PrimFloat.add.
  now rewrite fold_star_ratings by (try assumption; lia).
Qed.

Lemma average_on_grid_all (n : Z) : 1 <= n <= 100 -> average_on_grid_in_binary64 n = true.
Proof.
  intros H.
  assert (Hin : In n (map Z.of_nat (seq 1 100))).
  { apply in_map_iff. exists (Z.to_nat n). split; [lia|]. apply in_seq. lia. }
  clear H. revert n Hin. apply forallb_forall. vm_compute. reflexivity.
Qed.

Lemma nearest_on_grid_all (n t : Z) :
  1 <= n <= 100 -> n <= t <= 5 * n -> nearest_on_grid n t = true.
Proof.
  intros Hn Ht. pose proof (average_on_grid_all n Hn) as H.
  unfold average_on_grid_in_binary64 in H. rewrite forallb_forall in H.
  specialize (H (Z.to_nat (t - n))).
  replace (n + Z.of_nat (Z.to_nat (t - n))) with t in H by lia.
  apply H, in_seq. lia.
Qed.

(** What the check says: a whole number of hundredths nearest to the
    exact mean. *)
Lemma nearest_on_grid_spec (n t : Z) :
  1 <= n -> n <= t <= 5 * n -> nearest_on_grid n t = true ->
  exists k,
    @round2 float binary64 (PrimFloat.div (float_of_Z t) (float_of_Z n)) = lit (k # 100)
    /\ 100 <= k <= 500 /\ 2 * Z.abs (100 * t - k * n) <= n.
Proof.
  intros Hn Ht H. unfold nearest_on_grid in H. cbv zeta in H.
  pose proof (Z.div_mod (100 * t) n ltac:(lia)) as Hdm.
  pose proof (Z.mod_pos_bound (100 * t) n ltac:(lia)) as Hr.
  set (k := 100 * t / n) in *. set (r := (100 * t) mod n) in *.
  assert (Hk : 100 <= k <= 500) by nia.
  destruct (2 * r <? n) eqn:H1; [|destruct (n <? 2 * r) eqn:H2].
  - apply Z.ltb_lt in H1. apply FloatAxioms.Leibniz.eqb_spec in H.
    exists k. split; [exact H|]. split; [exact Hk|]. nia.
  - apply Z.ltb_lt in H2. apply FloatAxioms.Leibniz.eqb_spec in H.
    exists (k + 1). split; [exact H|]. split; nia.
  - apply Z.ltb_ge in H1, H2. apply orb_true_iff in H as [H|H];
      apply FloatAxioms.Leibniz.eqb_spec in H.
    + exists k. split; [exact H|]. split; [exact Hk|]. nia.
    + exists (k + 1). split; [exact H|]. split; nia.
Qed.

(** The average shown for a bucket of up to a hundred star ratings, as the
    page computes it in binary64. *)
Lemma star_ratings_average (bucket : list review) :
  bucket <> [] -> (length bucket <= 100)%nat -> star_ratings bucket ->
  exists k,
    @Balloon.avg_score float binary64 bucket = lit (k # 100)
    /\ 100 <= k <= 500
    /\ 2 * Z.abs (100 * total_stars bucket - k * Z.of_nat (length bucket))
       <= Z.of_nat (length bucket).
Proof.
  intros Hne Hlen Hall.
  assert (Hn : 1 <= Z.of_nat (length bucket) <= 100).
  { destruct bucket; [easy | cbn [length] in *; lia]. }
  pose proof (total_stars_bounds bucket Hall) as Ht.
  unfold Balloon.avg_score, Pandas.mean.
  rewrite sum_star_ratings by assumption. rewrite length_map.
  apply nearest_on_grid_spec; [lia | exact Ht |].
  now apply nearest_on_grid_all.
Qed.

End StarRatings.

Section RadiusCases.
Local Open Scope Q_scope.

Lemma norm_sign (avg : Q) :
  (avg <= 3.2 -> (avg - 3.2) / 1.8 <= 0) /\
  (3.2 <= avg -> 0 <= (avg - 3.2) / 1.8) /\
  (avg <= 5.0 -> (avg - 3.2) / 1.8 <= 1) /\
  (5.0 <= avg -> 1 <= (avg - 3.2) / 1.8).
Proof.
  repeat split; intros H.
  - apply Qle_shift_div_r; lra.
  - apply Qle_shift_div_l; lra.
  - apply Qle_shift_div_r; lra.
  - apply Qle_shift_div_l; lra.
Qed.

Lemma circle_pixel_radius_cases (avg : Q) :
  (avg <= 3.2 -> Balloon.circle_pixel_radius avg == 30) /\
  (5.0 <= avg -> Balloon.circle_pixel_radius avg == 80) /\
  (3.2 <= avg <= 5.0 ->
     Balloon.circle_pixel_radius avg == 30 + (avg - 3.2) / 1.8 * (80 - 30)).
Proof.
  destruct (norm_sign avg) as (Hlo & Hlo' & Hhi & Hhi').
  repeat split; intros H; rewrite circle_pixel_radius_clamp.
  - rewrite Q.max_l; [lra|].
    apply Qle_trans with ((avg - 3.2) / 1.8); [apply Q.le_min_l | now apply Hlo].
  - rewrite Q.min_r by now apply Hhi'.
    rewrite Q.max_r; lra.
  - destruct H as [H1 H2].
    rewrite Q.min_l by now apply Hhi.
    rewrite Q.max_r by now apply Hlo'.
    reflexivity.
Qed.

End RadiusCases.

Lemma hundredths_In k : (0 <= k <= 1000)%Z -> In k hundredths.
Proof.
  intros H. unfold hundredths. apply in_map_iff. exists (Z.to_nat k).
  split; [lia|]. apply in_seq. lia.
Qed.

Lemma clamps_in_binary64_all k : (0 <= k <= 1000)%Z -> clamps_in_binary64 k = true.
Proof.
  intros H. apply hundredths_In in H. revert k H. apply forallb_forall.
  vm_compute. reflexivity.
Qed.

(** Every non-empty bucket is drawn, whatever its timestamps, with the
    statistics of lines 71-82. *)
Lemma plot_bucket {F} `{PyFloat F} (version_df : list review) (s : sentiment) :
  Balloon.sentiment_df version_df s <> [] ->
  Balloon.plot version_df s
  = Some {| Balloon.l_reviews := Balloon.reviews (Balloon.sentiment_df version_df s);
            Balloon.l_avg_score := Balloon.avg_score (Balloon.sentiment_df version_df s);
            Balloon.l_duration_days :=
              Balloon.duration_days (Balloon.sentiment_df version_df s);
            Balloon.l_duration_scaled :=
              option_map Balloon.duration_scaled
                (Balloon.duration_days (Balloon.sentiment_df version_df s));
            Balloon.l_circle_pixel_radius :=
              Balloon.circle_pixel_radius
                (Balloon.avg_score (Balloon.sentiment_df version_df s));
            Balloon.l_stick_visible_height :=
              option_map
                (Balloon.stick_visible_height
                   (Balloon.avg_score (Balloon.sentiment_df version_df s)))
                (Balloon.duration_days (Balloon.sentiment_df version_df s));
            Balloon.l_circle_y :=
              option_map
                (Balloon.circle_y (Balloon.avg_score (Balloon.sentiment_df version_df s)))
                (Balloon.duration_days (Balloon.sentiment_df version_df s)) |}.
Proof.
  intros Hne. unfold Balloon.plot.
  destruct (Balloon.sentiment_df version_df s); [easy | reflexivity].
Qed.

Lemma plot_None {F} `{PyFloat F} (version_df : list review) (s : sentiment) :
  Balloon.plot version_df s = None <-> Balloon.sentiment_df version_df s = [].
Proof.
  unfold Balloon.plot.
  destruct (Balloon.sentiment_df version_df s); split; intros; easy.
Qed.

(** C3, as the code has it: the radius is computed from [avg_score], the
    mean rounded to two decimals, not from the mean.  Three Positive
    reviews with the scores 4, 4 and 5 have the mean 13/3, inside
    [3.2, 5.0]; the page shows the average 4.33 and draws the radius
    30 + (4.33 - 3.2) / 1.8 * 50 = 61.388..., not the linear image
    61.481... of the mean, in exact arithmetic and in binary64 alike (where
    the two differ by more than 0.09). *)
Lemma circle_pixel_radius_of_rounded_mean :
  let bucket := [sample_review "good" 4 None; sample_review "good" 4 None;
                 sample_review "good" 5 None] in
  Balloon.sentiment_df bucket Positive = bucket /\
  (@Pandas.mean Q exact (map score bucket) == 13 # 3)%Q /\
  (3.2 <= 13 # 3 <= 5.0)%Q /\
  (exists p : Balloon.lollipop Q,
     Balloon.plot bucket Positive = Some p /\
     (Balloon.l_avg_score p == 4.33)%Q /\
     (Balloon.l_circle_pixel_radius p == linear_image 4.33)%Q /\
     ~ (Balloon.l_circle_pixel_radius p == linear_image (13 # 3))%Q) /\
  (exists p : Balloon.lollipop float,
     Balloon.plot bucket Positive = Some p /\
     Balloon.l_avg_score p = lit 4.33 /\
     PrimFloat.ltb
       (PrimFloat.sub
          (linear_image (@Pandas.mean float binary64 (map (fun r => lit (score r)) bucket)))
          (Balloon.l_circle_pixel_radius p))
       (lit 0.09)
     = false).
Proof.
  intros bucket.
  split; [reflexivity|]. split; [vm_compute; reflexivity|].
  split; [split; vm_compute; discriminate|]. split.
  - eexists. split; [reflexivity|]. cbn [Balloon.l_avg_score Balloon.l_circle_pixel_radius].
    split; [vm_compute; reflexivity|]. split; [vm_compute; reflexivity|].
    intros E. vm_compute in E. discriminate.
  - eexists. split; [reflexivity|]. cbn [Balloon.l_avg_score Balloon.l_circle_pixel_radius].
    split; vm_compute; reflexivity.
Qed.

(** C3 (amended).  Every non-empty sentiment bucket is drawn (only an
    empty one is skipped), and its circle pixel radius is computed from [avg_score], the bucket's mean
    score rounded to two decimals, as
    [30 + clamp((avg_score - 3.2) / (5.0 - 3.2)) * (80 - 30)], in whichever
    arithmetic.  In exact arithmetic this is the linear image of
    [3.2, 5.0] onto [30, 80] with out-of-domain values clamped: 3.2 gives
    30, 5.0 gives 80, 4.1 gives 55, anything below 3.2 gives 30 and
    anything above 5.0 gives 80.  In the binary64 arithmetic the page runs,
    3.2 gives 30 and 5.0 gives 80 exactly and 4.1 gives 55 up to rounding
    (54.999999999999986); every two-decimal average from 0.00 to 3.20
    gives 30, every one from 5.00 to 10.00 gives 80, and all of them stay
    within [30, 80]; the average of a bucket of up to a hundred star
    ratings is such a value, so its radius is within [30, 80]. *)
Theorem circle_pixel_radius_clamped_linear
  (F : Type) (PF : PyFloat F) (version_df : list review) (s : sentiment) :
  (@Balloon.plot F PF version_df s = None <-> Balloon.sentiment_df version_df s = []) /\
  (Balloon.sentiment_df version_df s <> [] ->
   exists p : Balloon.lollipop F,
     Balloon.plot version_df s = Some p /\
     Balloon.l_avg_score p
       = round2 (Pandas.mean (map (fun r => lit (score r))
                                  (Balloon.sentiment_df version_df s))) /\
     Balloon.l_circle_pixel_radius p
       = (of_int 30 + py_max (of_int 0)
            (py_min ((Balloon.l_avg_score p - lit 3.2) / (lit 5.0 - lit 3.2)) (of_int 1))
          * (of_int 80 - of_int 30))%py) /\
  (forall avg : Q,
     (Balloon.circle_pixel_radius avg
        == 30 + Qmax 0 (Qmin ((avg - 3.2) / (5.0 - 3.2)) 1) * (80 - 30))%Q /\
     (avg <= 3.2 -> Balloon.circle_pixel_radius avg == 30)%Q /\
     (5.0 <= avg -> Balloon.circle_pixel_radius avg == 80)%Q /\
     (3.2 <= avg <= 5.0 ->
        Balloon.circle_pixel_radius avg
          == 30 + (avg - 3.2) / (5.0 - 3.2) * (80 - 30))%Q /\
     (30 <= Balloon.circle_pixel_radius avg <= 80)%Q) /\
  (Balloon.circle_pixel_radius 3.2 == 30 /\
   Balloon.circle_pixel_radius 5.0 == 80 /\
   Balloon.circle_pixel_radius 4.1 == 55)%Q /\
  (@Balloon.circle_pixel_radius float binary64 (lit 3.2) = of_int 30 /\
   @Balloon.circle_pixel_radius float binary64 (lit 5.0) = of_int 80 /\
   @Balloon.circle_pixel_radius float binary64 (lit 1.0) = of_int 30 /\
   @Balloon.circle_pixel_radius float binary64 (lit 6.0) = of_int 80 /\
   @Balloon.circle_pixel_radius float binary64 (lit 4.1) = 0x1.b7ffffffffffep+5%float /\
   PrimFloat.ltb (PrimFloat.sub (of_int 55)
                    (@Balloon.circle_pixel_radius float binary64 (lit 4.1)))
                 0x1p-45%float = true) /\
  (forall k : Z, (0 <= k <= 1000)%Z ->
     ((k <= 320)%Z ->
        PrimFloat.eqb (@Balloon.circle_pixel_radius float binary64 (lit (k # 100)))
                      (of_int 30) = true) /\
     ((500 <= k)%Z ->
        PrimFloat.eqb (@Balloon.circle_pixel_radius float binary64 (lit (k # 100)))
                      (of_int 80) = true) /\
     PrimFloat.leb (of_int 30)
       (@Balloon.circle_pixel_radius float binary64 (lit (k # 100))) = true /\
     PrimFloat.leb (@Balloon.circle_pixel_radius float binary64 (lit (k # 100)))
       (of_int 80) = true) /\
  (Balloon.sentiment_df version_df s <> [] ->
   (length (Balloon.sentiment_df version_df s) <= 100)%nat ->
   star_ratings (Balloon.sentiment_df version_df s) ->
   exists (p : Balloon.lollipop float) (k : Z),
     Balloon.plot version_df s = Some p /\
     Balloon.l_avg_score p = lit (k # 100) /\ (100 <= k <= 500)%Z /\
     Balloon.l_circle_pixel_radius p
       = @Balloon.circle_pixel_radius float binary64 (lit (k # 100)) /\
     PrimFloat.leb (of_int 30) (Balloon.l_circle_pixel_radius p) = true /\
     PrimFloat.leb (Balloon.l_circle_pixel_radius p) (of_int 80) = true /\
     ((k <= 320)%Z -> PrimFloat.eqb (Balloon.l_circle_pixel_radius p) (of_int 30) = true) /\
     ((500 <= k)%Z -> PrimFloat.eqb (Balloon.l_circle_pixel_radius p) (of_int 80) = true)).
Proof.
  assert (Hden : (5.0 - 3.2 == 1.8)%Q) by (vm_compute; reflexivity).
  split; [|split; [|split; [|split; [|split; [|split]]]]].
  - apply plot_None.
  - intros Hne. eexists. split; [now apply plot_bucket|].
    split; reflexivity.
  - intros avg. rewrite Hden.
    destruct (circle_pixel_radius_cases avg) as (H1 & H2 & H3).
    repeat split; try assumption;
      try apply circle_pixel_radius_clamp; apply circle_pixel_radius_range.
  - repeat split; vm_compute; reflexivity.
  - repeat split; vm_compute; reflexivity.
  - intros k Hk. pose proof (clamps_in_binary64_all k Hk) as H.
    unfold clamps_in_binary64 in H. cbv zeta in H.
    rewrite !andb_true_iff in H. destruct H as [[[H1 H2] H3] H4].
    split; [|split; [|split]]; try assumption.
    + intros Hle. apply Z.leb_le in Hle. now rewrite Hle in H1.
    + intros Hge. apply Z.leb_le in Hge. now rewrite Hge in H2.
  - intros Hne Hlen Hstars.
    destruct (star_ratings_average _ Hne Hlen Hstars) as (k & Hk & Hrange & _).
    eexists _, k. split; [now apply plot_bucket|].
    cbn [Balloon.l_avg_score Balloon.l_circle_pixel_radius]. rewrite Hk.
    split; [reflexivity|]. split; [exact Hrange|]. split; [reflexivity|].
    pose proof (clamps_in_binary64_all k ltac:(lia)) as H.
    unfold clamps_in_binary64 in H. cbv zeta in H.
    rewrite !andb_true_iff in H. destruct H as [[[H1 H2] H3] H4].
    split; [exact H3|]. split; [exact H4|]. split.
    + intros Hle. apply Z.leb_le in Hle. now rewrite Hle in H1.
    + intros Hge. apply Z.leb_le in Hge. now rewrite Hge in H2.
Qed.

(** ** Column minimum and maximum *)

Section ColumnExtrema.
Local Open Scope Z_scope.

Lemma min_spec (col : list (option Z)) :
  match Pandas.min col with
  | Some m => In (Some m) col /\ forall x, In (Some x) col -> m <= x
  | None => forall x, ~ In (Some x) col
  end.
Proof.
  induction col as [|[a|] col IH]; simpl.
  - intros x [].
  - destruct (Pandas.min col) as [m|]; simpl.
    + destruct IH as [Hin Hle]. split.
      * destruct (Z.min_spec a m) as [[_ ->]|[_ ->]]; auto.
      * intros x [[= <-]|Hx]; [lia|]. specialize (Hle x Hx). lia.
    + split; [now left|]. intros x [[= <-]|Hx]; [lia | now apply IH in Hx].
  - destruct (Pandas.min col) as [m|]; simpl.
    + destruct IH as [Hin Hle]. split; [now right|].
      intros x [Hx|Hx]; [discriminate | now apply Hle].
    + intros x [Hx|Hx]; [discriminate | now apply IH in Hx].
Qed.

Lemma max_spec (col : list (option Z)) :
  match Pandas.max col with
  | Some m => In (Some m) col /\ forall x, In (Some x) col -> x <= m
  | None => forall x, ~ In (Some x) col
  end.
Proof.
  induction col as [|[a|] col IH]; simpl.
  - intros x [].
  - destruct (Pandas.max col) as [m|]; simpl.
    + destruct IH as [Hin Hle]. split.
      * destruct (Z.max_spec a m) as [[_ ->]|[_ ->]]; auto.
      * intros x [[= <-]|Hx]; [lia|]. specialize (Hle x Hx). lia.
    + split; [now left|]. intros x [[= <-]|Hx]; [lia | now apply IH in Hx].
  - destruct (Pandas.max col) as [m|]; simpl.
    + destruct IH as [Hin Hle]. split; [now right|].
      intros x [Hx|Hx]; [discriminate | now apply Hle].
    + intros x [Hx|Hx]; [discriminate | now apply IH in Hx].
Qed.

Lemma min_earliest rows t : earliest t rows -> Pandas.min (map at_ rows) = Some t.
Proof.
  intros [Hin Hle]. pose proof (min_spec (map at_ rows)) as H.
  destruct (Pandas.min (map at_ rows)) as [m|]; [|now apply H in Hin].
  destruct H as [Hm Hmle]. f_equal.
  specialize (Hle m Hm). specialize (Hmle t Hin). lia.
Qed.

Lemma max_latest rows t : latest t rows -> Pandas.max (map at_ rows) = Some t.
Proof.
  intros [Hin Hle]. pose proof (max_spec (map at_ rows)) as H.
  destruct (Pandas.max (map at_ rows)) as [m|]; [|now apply H in Hin].
  destruct H as [Hm Hmle]. f_equal.
  specialize (Hle m Hm). specialize (Hmle t Hin). lia.
Qed.


End ColumnExtrema.



Section StickHeight.
Local Open Scope Q_scope.

(** The converted radius is at most 2/15 and the scaled duration at least
    1.5, so the floor of 0.5 is never the larger argument. *)
Lemma stick_floor_never_binds (avg : Q) (d : Z) :
  Balloon.stick_visible_height avg d
  == Balloon.duration_scaled d - Balloon.circle_data_radius avg.
Proof.
  rewrite stick_visible_height_Qmax.
  pose proof (duration_scaled_ge d). pose proof (circle_data_radius_le avg).
  apply Q.max_l. lra.
Qed.

End StickHeight.

(** ** A bucket without timestamps *)

Section NaN.

Lemma is_nan_spec (x : float) : PrimFloat.is_nan x = true <-> Prim2SF x = S754_nan.
Proof.
  unfold PrimFloat.is_nan. rewrite FloatAxioms.eqb_spec, negb_true_iff.
  destruct (Prim2SF x) as [s|s| |s m e]; unfold SFeqb; cbn [SFcompare].
  - split; discriminate.
  - destruct s; split; discriminate.
  - split; reflexivity.
  - rewrite Z.compare_refl, Pos.compare_cont_refl. destruct s; split; discriminate.
Qed.

(** NaN in binary64 goes through the arithmetic of lines 74-82, and
    [max(nan, c)] keeps the NaN, its first argument. *)
Lemma nan_div (x y : float) : PrimFloat.is_nan x = true -> PrimFloat.is_nan (x / y) = true.
Proof.
  rewrite !is_nan_spec, FloatAxioms.div_spec. intros ->. reflexivity.
Qed.

Lemma nan_sub (x y : float) : PrimFloat.is_nan x = true -> PrimFloat.is_nan (x - y) = true.
Proof.
  rewrite !is_nan_spec, FloatAxioms.sub_spec. intros ->. reflexivity.
Qed.

Lemma nan_add (x y : float) : PrimFloat.is_nan x = true -> PrimFloat.is_nan (x + y) = true.
Proof.
  rewrite !is_nan_spec, FloatAxioms.add_spec. intros ->. reflexivity.
Qed.

Lemma nan_py_max (x c : float) :
  PrimFloat.is_nan x = true -> @py_max float binary64 x c = x.
Proof.
  rewrite is_nan_spec. intros H. unfold py_max. cbn [flt binary64].
  now rewrite FloatAxioms.ltb_spec, H.
Qed.

Lemma nan_geometry (days radius : float) :
  PrimFloat.is_nan days = true ->
  let duration_scaled := @py_max float binary64 (days / of_int 15)%float (lit 1.5) in
  let stick_visible_height :=
    @py_max float binary64 (duration_scaled - radius)%float (lit 0.5) in
  PrimFloat.is_nan duration_scaled = true /\
  PrimFloat.is_nan stick_visible_height = true /\
  PrimFloat.is_nan (stick_visible_height + radius)%float = true.
Proof.
  intros H ds h.
  assert (Hds : PrimFloat.is_nan ds = true).
  { unfold ds. rewrite nan_py_max; now apply nan_div. }
  assert (Hh : PrimFloat.is_nan h = true).
  { unfold h. rewrite nan_py_max; now apply nan_sub. }
  split; [exact Hds|]. split; [exact Hh|]. now apply nan_add.
Qed.

(** The span of a bucket is missing exactly when no row has a timestamp. *)
Lemma duration_days_None (bucket : list review) :
  Balloon.duration_days bucket = None <-> no_timestamp bucket.
Proof.
  unfold Balloon.duration_days, no_timestamp.
  pose proof (max_spec (map at_ bucket)) as Hmax.
  pose proof (min_spec (map at_ bucket)) as Hmin.
  rewrite List.Forall_forall.
  destruct (Pandas.max (map at_ bucket)) as [hi|], (Pandas.min (map at_ bucket)) as [lo|].
  - split; [discriminate|]. intros Hall. destruct Hmax as [Hin _].
    apply in_map_iff in Hin as (r & Hr & Hin). apply Hall in Hin. congruence.
  - destruct Hmax as [Hin _]. now apply Hmin in Hin.
  - destruct Hmin as [Hin _]. now apply Hmax in Hin.
  - split; [|reflexivity]. intros _ r Hr.
    destruct (at_ r) as [t|] eqn:Ht; [|reflexivity].
    exfalso. apply (Hmax t). apply in_map_iff. now exists r.
Qed.

End NaN.

(** C10, as the code has it.  Every non-empty sentiment bucket is drawn
    (only an empty one is skipped).
    When the bucket has a review timestamp, the stick height is
    [max(duration_scaled - circle_data_radius, 0.5)] and the circle's
    center is that height plus the converted radius; the height is then
    never below 0.5 (the floor never takes effect: the converted radius is
    at most 2/15 and the scaled duration at least 1.5, so the height is the
    plain difference, at least 41/30, although [max(x, 0.5)] would give 0.5
    for any [x] up to 0.5).  When no row of the bucket has a timestamp,
    the span is NaN and so are the stick height and the center: the floor
    does not apply, because [max(nan, 0.5)] keeps the NaN.  One Positive
    review with the score 5 and no review date is drawn with the radius 80
    and a NaN height. *)
Theorem stick_visible_height_nan_without_timestamp
  (F : Type) (PF : PyFloat F) (version_df : list review) (s : sentiment) :
  (@Balloon.plot F PF version_df s = None <-> Balloon.sentiment_df version_df s = []) /\
  (Balloon.sentiment_df version_df s <> [] ->
   exists p : Balloon.lollipop F,
     Balloon.plot version_df s = Some p /\
     (forall d, Balloon.duration_days (Balloon.sentiment_df version_df s) = Some d ->
        Balloon.l_stick_visible_height p
          = Some (py_max (Balloon.duration_scaled d
                            - Balloon.circle_data_radius (Balloon.l_avg_score p))%py
                         (lit 0.5)) /\
        Balloon.l_circle_y p
          = Some (Balloon.stick_visible_height (Balloon.l_avg_score p) d
                    + Balloon.circle_data_radius (Balloon.l_avg_score p))%py) /\
     (no_timestamp (Balloon.sentiment_df version_df s)
        <-> Balloon.l_stick_visible_height p = None) /\
     (no_timestamp (Balloon.sentiment_df version_df s)
        <-> Balloon.l_circle_y p = None)) /\
  (forall (avg : Q) (d : Z),
     (Balloon.circle_data_radius avg
        == Balloon.circle_pixel_radius avg / 2 * (2 / 600))%Q /\
     (Balloon.stick_visible_height avg d
        == Qmax (Balloon.duration_scaled d - Balloon.circle_data_radius avg) 0.5)%Q /\
     (Balloon.stick_visible_height avg d
        == Balloon.duration_scaled d - Balloon.circle_data_radius avg)%Q /\
     (Balloon.circle_y avg d
        == Balloon.stick_visible_height avg d + Balloon.circle_data_radius avg)%Q /\
     (0.5 <= 41 # 30 <= Balloon.stick_visible_height avg d)%Q) /\
  (forall x : Q,
     (py_max x 0.5 == Qmax x 0.5)%Q /\ (x <= 0.5 -> py_max x 0.5 == 0.5)%Q) /\
  (forall days radius : float,
     PrimFloat.is_nan days = true ->
     PrimFloat.is_nan
       (@py_max float binary64
          (@py_max float binary64 (days / of_int 15)%float (lit 1.5) - radius)%float
          (lit 0.5)) = true) /\
  (let bucket := [sample_review "good" 5 None] in
   Balloon.sentiment_df bucket Positive = bucket /\
   @Balloon.plot float binary64 bucket Positive
   = Some {| Balloon.l_reviews := 1;
             Balloon.l_avg_score := 5%float;
             Balloon.l_duration_days := None;
             Balloon.l_duration_scaled := None;
             Balloon.l_circle_pixel_radius := 80%float;
             Balloon.l_stick_visible_height := None;
             Balloon.l_circle_y := None |}) /\
  (@Balloon.stick_visible_height float binary64 (lit 5.0) 0 = 0x1.5dddddddddddep+0%float /\
   @Balloon.circle_y float binary64 (lit 5.0) 0 = 1.5%float /\
   PrimFloat.leb 0.5 (@Balloon.stick_visible_height float binary64 (lit 3.2) 400) = true).
Proof.
  split; [|split; [|split; [|split; [|split; [|split]]]]].
  - apply plot_None.
  - intros Hne. eexists. split; [now apply plot_bucket|].
    cbn [Balloon.l_stick_visible_height Balloon.l_circle_y Balloon.l_avg_score].
    split; [|split].
    + intros d ->. split; reflexivity.
    + rewrite <- duration_days_None.
      destruct (Balloon.duration_days (Balloon.sentiment_df version_df s));
        split; intros; easy.
    + rewrite <- duration_days_None.
      destruct (Balloon.duration_days (Balloon.sentiment_df version_df s));
        split; intros; easy.
  - intros avg d.
    split; [reflexivity|].
    split; [apply stick_visible_height_Qmax|].
    split; [apply stick_floor_never_binds|].
    split; [reflexivity|].
    split; [discriminate|]. rewrite stick_floor_never_binds.
    pose proof (duration_scaled_ge d). pose proof (circle_data_radius_le avg).
    lra.
  - intros x. split; [apply py_max_Qmax|].
    intros H. rewrite py_max_Qmax. now apply Q.max_r.
  - intros days radius H. now apply nan_geometry.
  - split; vm_compute; reflexivity.
  - repeat split; vm_compute; reflexivity.
Qed.

(** ** The In-Detailed filters *)

Section Filters.
Import InDetailed.

Lemma filter_sublist {A} (f : A -> bool) (l : list A) : sublist (List.filter f l) l.
Proof.
  induction l as [|x l IH]; simpl; [constructor|].
  destruct (f x); now constructor.
Qed.

Lemma in_date_range_spec d0 d1 r :
  in_date_range d0 d1 r = true <-> dated_within d0 d1 r.
Proof.
  unfold in_date_range, dated_within, Pandas.ge, Pandas.le, Pandas.to_datetime.
  change Pandas.ns_per_day with 86400000000000%Z.
  destruct (at_ r) as [t|]; simpl.
  - rewrite andb_true_iff, !Z.leb_le. split.
    + intros H. now exists t.
    + now intros (u & [= <-] & H).
  - split; [discriminate | now intros (u & [=] & _)].
Qed.

Lemma isin_spec x vs :
  Pandas.isin x vs = true <-> exists v, In v vs /\ x = Some v.
Proof.
  unfold Pandas.isin. rewrite existsb_exists.
  split; intros (v & Hin & H); exists v; (split; [assumption|]);
    destruct x as [a|]; simpl in *; try discriminate.
  - now apply String.eqb_eq in H as ->.
  - injection H as ->. apply String.eqb_refl.
Qed.

(** What [filtered_df] keeps, once two dates are picked. *)
Lemma filtered_df_rows d0 d1 rest version_filter df :
  exists rows,
    filtered_df (d0 :: d1 :: rest) version_filter df = Some rows /\
    sublist rows df /\
    forall r, In r rows <->
              In r df /\ dated_within d0 d1 r /\ version_selected version_filter r.
Proof.
  unfold filtered_df, version_selected.
  destruct version_filter as [|v vs].
  - eexists. split; [reflexivity|]. split; [apply filter_sublist|].
    intros r. rewrite filter_In, in_date_range_spec. intuition.
  - eexists. split; [reflexivity|]. split.
    + etransitivity; apply filter_sublist.
    + intros r. rewrite !filter_In, in_date_range_spec, isin_spec.
      intuition discriminate.
Qed.

End Filters.

(** The calendar day of a timestamp against the midnight bounds. *)
Lemma date_bounds (d t : Z) :
  ((d <= Pandas.date t <-> Pandas.to_datetime d <= t) /\
   (Pandas.date t < d <-> t < Pandas.to_datetime d) /\
   (Pandas.date t = d ->
      (t <= Pandas.to_datetime d <-> t = Pandas.to_datetime d)))%Z.
Proof.
  unfold Pandas.date, Pandas.to_datetime.
  change Pandas.ns_per_day with 86400000000000%Z.
  pose proof (Z.div_mod t 86400000000000 ltac:(lia)) as Hdm.
  pose proof (Z.mod_pos_bound t 86400000000000 ltac:(lia)) as Hr.
  set (q := (t / 86400000000000)%Z) in *. lia.
Qed.

Lemma dated_within_at d0 d1 r t :
  at_ r = Some t ->
  (dated_within d0 d1 r
   <-> (Pandas.to_datetime d0 <= t <= Pandas.to_datetime d1)%Z).
Proof.
  intros Ht. unfold dated_within, Pandas.to_datetime.
  change Pandas.ns_per_day with 86400000000000%Z. rewrite Ht. split.
  - now intros (u & [= <-] & H).
  - intros H. now exists t.
Qed.

(** C5, as the code has it.  For any two picked dates the filter returns
    (it never raises, whatever dates failed to parse) rows of the table, in
    their order, whose review timestamp is present: a row whose date was
    coerced to the missing-value marker is in no filtered result.  Every
    row kept is dated on a day of the selected range, and every row dated
    on a day before the end date is kept; but the upper bound is midnight
    at the start of the end date, so of the reviews written on the end date
    itself only those written at midnight sharp are kept.  With the range
    from day 0 to day 1, a review written at noon of day 1 is dropped. *)
Theorem filtered_df_drops_end_day
  (df : list review) (d0 d1 : Z) (rest : list Z) (version_filter : list string) :
  (exists rows,
     InDetailed.filtered_df (d0 :: d1 :: rest) version_filter df = Some rows /\
     sublist rows df /\
     (forall r, In r rows -> at_ r <> None) /\
     (forall r, In r rows ->
                In r df /\ on_days d0 d1 r /\ version_selected version_filter r) /\
     (forall r t, In r df -> version_selected version_filter r -> at_ r = Some t ->
                  (d0 <= Pandas.date t < d1)%Z -> In r rows) /\
     (forall r t, In r df -> version_selected version_filter r -> at_ r = Some t ->
                  Pandas.date t = d1 ->
                  (In r rows <-> t = Pandas.to_datetime d1 /\ (d0 <= d1)%Z))) /\
  (forall r, at_ r = None -> InDetailed.in_date_range d0 d1 r = false) /\
  (let morning := sample_review "first day" 5 (Some (9 * 3600 * 10 ^ 9)%Z) in
   let noon :=
     sample_review "last day" 5 (Some (Pandas.ns_per_day + 12 * 3600 * 10 ^ 9)%Z) in
   on_days 0 1 morning /\ on_days 0 1 noon /\
   InDetailed.filtered_df [0; 1]%Z [] [morning; noon] = Some [morning]).
Proof.
  split; [|split].
  - destruct (filtered_df_rows d0 d1 rest version_filter df)
      as (rows & Hrows & Hsub & Hin).
    exists rows. split; [exact Hrows|]. split; [exact Hsub|].
    split; [|split; [|split]].
    + intros r Hr. apply Hin in Hr as (_ & (t & Ht & _) & _). congruence.
    + intros r Hr. apply Hin in Hr as (Hdf & Hd & Hv).
      split; [exact Hdf|]. split; [|exact Hv].
      destruct Hd as (t & Ht & Hd). exists t. split; [exact Ht|].
      destruct (date_bounds d0 t) as (H0 & _ & _).
      destruct (date_bounds (d1 + 1) t) as (_ & H1 & _).
      unfold Pandas.to_datetime in *.
      change Pandas.ns_per_day with 86400000000000%Z in *. lia.
    + intros r t Hdf Hv Ht Hd. apply Hin. split; [exact Hdf|]. split; [|exact Hv].
      apply (dated_within_at _ _ _ _ Ht).
      destruct (date_bounds d0 t) as (H0 & _ & _).
      destruct (date_bounds d1 t) as (_ & H1 & _). lia.
    + intros r t Hdf Hv Ht Hd. rewrite Hin, (dated_within_at _ _ _ _ Ht).
      destruct (date_bounds d0 t) as (H0 & _ & _).
      destruct (date_bounds d1 t) as (_ & _ & H1). specialize (H1 Hd).
      split.
      * intros (_ & [Hlo Hhi] & _). split; [now apply H1|]. lia.
      * intros [-> Hle]. split; [exact Hdf|]. split; [|exact Hv].
        unfold Pandas.to_datetime.
        change Pandas.ns_per_day with 86400000000000%Z. lia.
  - intros r Hr. unfold InDetailed.in_date_range. now rewrite Hr.
  - split; [|split].
    + eexists. split; [reflexivity|]. vm_compute. split; discriminate.
    + eexists. split; [reflexivity|]. vm_compute. split; discriminate.
    + vm_compute. reflexivity.
Qed.

(** C7, as the code has it: the traceability table keeps the column
    [Feature Description] and leaves out [appVersion] and
    [Release Version], so its columns are not the input columns without
    the feature description plus the sentiment. *)
Lemma traceability_keeps_feature_description :
  In "Feature Description" InDetailed.traceability_columns /\
  ~ In "appVersion" InDetailed.traceability_columns /\
  ~ In "Release Version" InDetailed.traceability_columns /\
  ~ (forall c, In c InDetailed.traceability_columns
               <-> In c columns_without_feature_description).
Proof.
  split; [|split; [|split]].
  - vm_compute. tauto.
  - vm_compute. intuition discriminate.
  - vm_compute. intuition discriminate.
  - intros H. specialize (H "Feature Description"). vm_compute in H.
    destruct H as [H _].
    assert (Hfd : False); [|exact Hfd].
    destruct H as [H|[H|[H|[H|[H|[H|[H|[H|[]]]]]]]]]; try discriminate; tauto.
Qed.


(** ** Feature descriptions *)

Section Features.

Lemma features_spec entry x :
  In x (Balloon.features entry) <->
  exists frag, In frag (PyStr.split "#" entry) /\ x = PyStr.strip frag /\ x <> "".
Proof.
  unfold Balloon.features. rewrite in_map_iff. split.
  - intros (frag & <- & Hin). apply filter_In in Hin as [Hin Ht].
    exists frag. repeat split; [assumption|].
    now destruct (PyStr.strip frag).
  - intros (frag & Hin & -> & Hne). exists frag. split; [reflexivity|].
    apply filter_In. split; [assumption|]. now destruct (PyStr.strip frag).
Qed.

Lemma feature_set_fold (raw : list string) : forall (acc : gset string) x,
  x ∈ foldl (fun set entry => set ∪ list_to_set (Balloon.features entry)) acc raw
  <-> x ∈ acc \/ exists entry, In entry raw /\ In x (Balloon.features entry).
Proof.
  induction raw as [|e raw IH]; intros acc x; simpl.
  - split; [now left | intros [H|(e & [] & _)]; exact H].
  - rewrite IH, elem_of_union, elem_of_list_to_set, list_elem_of_In. split.
    + intros [[H|H]|(e' & Hin & H)]; eauto.
    + intros [H|(e' & [<-|Hin] & H)]; eauto.
Qed.

Lemma feature_set_spec raw x : x ∈ Balloon.feature_set raw <-> trimmed_fragment x raw.
Proof.
  unfold Balloon.feature_set, trimmed_fragment. rewrite feature_set_fold. split.
  - intros [H|(e & Hin & H)]; [now apply not_elem_of_empty in H|].
    apply features_spec in H as (frag & Hf & Hx & Hne). now exists e, frag.
  - intros (e & frag & Hin & Hf & Hx & Hne). right. exists e. split; [assumption|].
    apply features_spec. now exists frag.
Qed.

Lemma feature_list_perm raw :
  Permutation (Balloon.feature_list raw) (elements (Balloon.feature_set raw)).
Proof. apply sorted_perm. Qed.

End Features.

(** C8. The feature list is made of the fragments between ['#'] signs of
    the selected rows' descriptions, trimmed, empty ones dropped, without
    repetition and in ascending order; it depends only on which fragments
    occur, not on their order or on the order of the rows.  The input
    ["Login#Search # Export"] yields exactly the set of ["Login"],
    ["Search"] and ["Export"], listed as Export, Login, Search. *)
Theorem feature_list_trimmed_unique_sorted (feature_raw feature_raw' : list string) :
  (Balloon.feature_set ["Login#Search # Export"]
     = list_to_set ["Login"; "Search"; "Export"] /\
   Balloon.feature_list ["Login#Search # Export"] = ["Export"; "Login"; "Search"] /\
   Balloon.feature_list [" Export #Search#Login"] = ["Export"; "Login"; "Search"] /\
   Balloon.feature_list ["Search # Login"; "Export##Login "] = ["Export"; "Login"; "Search"]) /\
  (forall x, In x (Balloon.feature_list feature_raw) <-> trimmed_fragment x feature_raw) /\
  NoDup (Balloon.feature_list feature_raw) /\
  StronglySorted (fun a b => String.leb a b = true) (Balloon.feature_list feature_raw) /\
  (Permutation feature_raw feature_raw' ->
     Balloon.feature_list feature_raw = Balloon.feature_list feature_raw') /\
  ((forall x, trimmed_fragment x feature_raw <-> trimmed_fragment x feature_raw') ->
     Balloon.feature_list feature_raw = Balloon.feature_list feature_raw').
Proof.
  assert (Hset : forall raw raw',
            (forall x, trimmed_fragment x raw <-> trimmed_fragment x raw') ->
            Balloon.feature_list raw = Balloon.feature_list raw').
  { intros raw raw' H. unfold Balloon.feature_list. f_equal. f_equal.
    apply set_eq. intros x. now rewrite !feature_set_spec. }
  split; [|split; [|split; [|split; [|split]]]].
  - repeat split; vm_compute; reflexivity.
  - intros x. rewrite <- feature_set_spec, <- elem_of_elements, <- list_elem_of_In.
    now rewrite (feature_list_perm feature_raw).
  - rewrite (feature_list_perm feature_raw). apply NoDup_elements.
  - unfold Balloon.feature_list.
    eapply strongly_sorted_impl; [| apply (sorted_sorted String.ltb)].
    + intros a b H. now apply str_ltb_leb.
    + apply str_lt_asym.
    + intros a b c. apply str_le_trans.
  - intros Hperm. apply Hset. intros x. unfold trimmed_fragment.
    split; intros (e & frag & Hin & H); exists e, frag; (split; [|exact H]).
    + now rewrite <- Hperm.
    + now rewrite Hperm.
  - apply Hset.
Qed.

(** ** The Gantt aggregate *)

Section Gantt.
Import InDetailed.

Lemma unique_In l x : In x (Pandas.unique l) <-> In x l.
Proof.
  induction l as [|y l IH]; simpl; [reflexivity|].
  rewrite filter_In, IH, negb_true_iff, String.eqb_neq.
  destruct (String.eqb_spec y x) as [->|Hne]; intuition.
Qed.

Lemma unique_NoDup l : NoDup (Pandas.unique l).
Proof.
  induction l as [|y l IH]; simpl; constructor.
  - rewrite list_elem_of_In, filter_In, String.eqb_refl. intuition discriminate.
  - apply (sublist_NoDup _ (Pandas.unique l)); [assumption | apply filter_sublist].
Qed.

Lemma dropna_In {A} (col : list (option A)) x : In x (Pandas.dropna col) <-> In (Some x) col.
Proof.
  unfold Pandas.dropna.
  induction col as [|[a|] col IH]; simpl; [reflexivity | |].
  - rewrite IH. split; intros [H|H]; auto; left; congruence.
  - rewrite IH. split; [now right | now intros [H|H]].
Qed.

Lemma group_keys_perm rows :
  Permutation (group_keys rows) (Pandas.unique (Pandas.dropna (map Release_Version rows))).
Proof. apply sorted_perm. Qed.

Lemma group_keys_In rows v :
  In v (group_keys rows) <-> exists r, In r rows /\ Release_Version r = Some v.
Proof.
  rewrite <- list_elem_of_In, (group_keys_perm rows), list_elem_of_In.
  rewrite unique_In, dropna_In, in_map_iff.
  split; intros (r & H1 & H2); now exists r.
Qed.

Lemma group_keys_NoDup rows : NoDup (group_keys rows).
Proof. rewrite (group_keys_perm rows). apply unique_NoDup. Qed.

Lemma group_keys_length rows :
  length (group_keys rows)
  = size (list_to_set (Pandas.dropna (map Release_Version rows)) : gset string).
Proof.
  rewrite (group_keys_perm rows).
  rewrite <- (size_list_to_set (C := gset string)) by apply unique_NoDup.
  f_equal. apply set_eq. intros x.
  now rewrite !elem_of_list_to_set, !list_elem_of_In, unique_In.
Qed.

Lemma group_rows_of_version v rows : group v rows = rows_of_version v rows.
Proof.
  unfold group, rows_of_version.
  induction rows as [|r rows IH]; [reflexivity|].
  rewrite filter_cons. simpl. rewrite IH.
  unfold Pandas.eq_str.
  destruct (Release_Version r) as [a|]; [|now case_decide].
  destruct (String.eqb_spec a v) as [->|Hne]; case_decide; congruence.
Qed.

Lemma first_spec {A} (col : list (option A)) : is_first (Pandas.first col) col.
Proof.
  unfold Pandas.first, Pandas.dropna.
  induction col as [|[a|] col IH].
  - constructor.
  - exists [], col. split; [reflexivity | constructor].
  - change (omap id (None :: col)) with (omap id col).
    destruct (head (omap id col)) as [d|]; unfold is_first in *.
    + destruct IH as (pre & post & -> & Hpre). exists (None :: pre), post.
      split; [reflexivity | now constructor].
    + now constructor.
Qed.

Lemma count_present (g : list review) :
  Pandas.count (map content g) = length (filter (fun r => content r <> None) g).
Proof.
  unfold Pandas.count, Pandas.dropna.
  induction g as [|r g IH]; [reflexivity|].
  rewrite filter_cons. cbn [map].
  destruct (content r) as [c|]; case_decide; try congruence.
  - simpl. f_equal. exact IH.
  - exact IH.
Qed.

Lemma agg_aggregate_of rows v :
  In v (group_keys rows) -> aggregate_of rows (agg v rows).
Proof.
  intros Hv. unfold aggregate_of, agg. simpl.
  rewrite group_rows_of_version.
  split; [|split; [|split; [|split]]].
  - apply group_keys_In in Hv as (r & Hin & Hr).
    intros Hnil.
    assert (Hel : r ∈ rows_of_version v rows)
      by (apply list_elem_of_filter; split; [assumption | now apply list_elem_of_In]).
    rewrite Hnil in Hel. now apply not_elem_of_nil in Hel.
  - apply min_spec.
  - apply max_spec.
  - apply first_spec.
  - apply count_present.
Qed.

Lemma start_lt_asym a b : start_lt a b = true -> start_lt b a = false.
Proof.
  destruct a, b; simpl; try easy. rewrite Z.ltb_lt, Z.ltb_ge. lia.
Qed.

Lemma start_le_trans a b c :
  start_lt b a = false -> start_lt c b = false -> start_lt c a = false.
Proof.
  destruct a, b, c; simpl; try easy. rewrite !Z.ltb_ge. lia.
Qed.

Lemma start_le_no_later a b : start_lt b a = false <-> starts_no_later a b.
Proof.
  destruct a, b; simpl; try easy. apply Z.ltb_ge.
Qed.

Lemma sort_values_Start_perm rows : Permutation (sort_values_Start rows) rows.
Proof. apply sorted_perm. Qed.

Lemma sort_values_Start_sorted rows :
  StronglySorted (fun a b => starts_no_later (Start a) (Start b)) (sort_values_Start rows).
Proof.
  eapply strongly_sorted_impl;
    [| apply (sorted_sorted (fun a b => start_lt (Start a) (Start b)))].
  - intros a b H. now apply start_le_no_later.
  - intros a b. apply start_lt_asym.
  - intros a b c. apply start_le_trans.
Qed.

Lemma grouped_versions rows : map g_Release_Version (grouped rows) = group_keys rows.
Proof.
  unfold grouped. rewrite map_map. simpl. apply map_id.
Qed.

End Gantt.

Section GanttTop.
Import InDetailed.

Lemma strongly_sorted_take {A} (R : A -> A -> Prop) n (l : list A) :
  StronglySorted R l -> StronglySorted R (take n l).
Proof.
  intros H. revert n. induction H as [|x l Hs IH Hall]; intros [|n]; simpl;
    constructor; [apply IH|].
  apply Forall_forall. intros y Hy. rewrite Forall_forall in Hall.
  apply Hall. eapply elem_of_sublist; [exact Hy | apply sublist_take].
Qed.

Lemma sorted_grouped_In rows row :
  In row (sort_values_Start (grouped rows)) <->
  exists v, In v (group_keys rows) /\ row = agg v rows.
Proof.
  rewrite <- list_elem_of_In, (sort_values_Start_perm (grouped rows)), list_elem_of_In.
  unfold grouped. rewrite in_map_iff.
  split; intros (v & H1 & H2); now exists v.
Qed.

Lemma versions_keys rows v :
  v ∈ (list_to_set (Pandas.dropna (map Release_Version rows)) : gset string)
  <-> In v (group_keys rows).
Proof.
  rewrite elem_of_list_to_set, list_elem_of_In, dropna_In, in_map_iff, group_keys_In.
  split; intros (r & H1 & H2); now exists r.
Qed.

(** A kept row and a dropped row: the kept one stands first in the sorted
    table. *)
Lemma kept_before_dropped {A} (l : list A) n x y :
  In x (take n l) -> In y (drop n l) -> before x y l.
Proof.
  intros Hx Hy.
  apply in_split in Hx as (l1 & l2 & Hx). apply in_split in Hy as (l3 & l4 & Hy).
  exists l1, (l2 ++ l3)%list, l4.
  rewrite <- (take_drop n l) at 1. rewrite Hx, Hy.
  now rewrite <- !app_assoc.
Qed.

End GanttTop.

(** C6. The Gantt aggregate has at most 20 rows: as many as there are
    release versions among the filtered rows when these are fewer than 20,
    and 20 otherwise.  Its rows belong to distinct release versions, each
    carrying that version's minimum release date, maximum review
    timestamp, first feature description present and count of reviews with
    a text; they are in ascending order of the minimum release date, and
    every version left out starts no earlier than every version kept (a
    version without any release date counts as starting last). *)
Theorem gantt_df_twenty_earliest (filtered_df : list review) :
  let g := InDetailed.gantt_df filtered_df in
  let versions : gset string :=
    list_to_set (Pandas.dropna (map Release_Version filtered_df)) in
  length g = Nat.min 20 (size versions) /\
  (length g <= 20)%nat /\
  NoDup (map InDetailed.g_Release_Version g) /\
  (forall row, In row g ->
     InDetailed.g_Release_Version row ∈ versions /\ aggregate_of filtered_df row) /\
  StronglySorted
    (fun a b => starts_no_later (InDetailed.Start a) (InDetailed.Start b)) g /\
  (forall v row,
     v ∈ versions -> ~ In v (map InDetailed.g_Release_Version g) -> In row g ->
     aggregate_of filtered_df (InDetailed.agg v filtered_df) /\
     starts_no_later (InDetailed.Start row)
                     (InDetailed.Start (InDetailed.agg v filtered_df))).
Proof.
  intros g versions. unfold g, InDetailed.gantt_df.
  set (table := InDetailed.sort_values_Start (InDetailed.grouped filtered_df)).
  assert (Hlen : length table = size versions).
  { unfold table. rewrite (sort_values_Start_perm (InDetailed.grouped filtered_df)).
    unfold InDetailed.grouped. rewrite length_map. apply group_keys_length. }
  assert (Hnodup : NoDup (map InDetailed.g_Release_Version table)).
  { unfold table. rewrite (sort_values_Start_perm (InDetailed.grouped filtered_df)).
    rewrite grouped_versions. apply group_keys_NoDup. }
  assert (Hrow : forall row, In row (take 20 table) ->
                   exists v, In v (InDetailed.group_keys filtered_df)
                             /\ row = InDetailed.agg v filtered_df).
  { intros row Hin. apply sorted_grouped_In. apply list_elem_of_In.
    eapply elem_of_sublist; [apply list_elem_of_In, Hin | apply sublist_take]. }
  split; [now rewrite length_take, Hlen|].
  split; [rewrite length_take; lia|].
  split.
  { apply (sublist_NoDup _ (map InDetailed.g_Release_Version table)); [exact Hnodup|].
    change (map InDetailed.g_Release_Version (take 20 table))
      with (InDetailed.g_Release_Version <$> take 20 table).
    rewrite fmap_take. apply sublist_take. }
  split.
  { intros row Hin. destruct (Hrow row Hin) as (v & Hv & ->). split.
    - now apply versions_keys.
    - now apply agg_aggregate_of. }
  split; [apply strongly_sorted_take, sort_values_Start_sorted|].
  intros v row Hv Hout Hin.
  apply versions_keys in Hv.
  split; [now apply agg_aggregate_of|].
  assert (Htab : In (InDetailed.agg v filtered_df) table)
    by (apply sorted_grouped_In; now exists v).
  rewrite <- (take_drop 20 table) in Htab. apply in_app_or in Htab as [Hk|Hd].
  - exfalso. apply Hout. apply in_map_iff.
    now exists (InDetailed.agg v filtered_df).
  - apply start_le_no_later.
    apply (strongly_sorted_before
             (fun a b => InDetailed.start_lt (InDetailed.Start a) (InDetailed.Start b))
             row (InDetailed.agg v filtered_df) table).
    + apply sorted_sorted.
      * intros a b. apply start_lt_asym.
      * intros a b c. apply start_le_trans.
    + now apply (kept_before_dropped table 20).
Qed.

(** * Further properties of the two pages *)

(** ** The sentiment buckets of the balloon page *)

Section Buckets.

Lemma sentiment_eqb_eq a b : sentiment_eqb a b = true <-> a = b.
Proof. destruct a, b; simpl; split; congruence. Qed.

Lemma sentiment_df_In version_df s r :
  In r (Balloon.sentiment_df version_df s) <-> In r version_df /\ Balloon.Sentiment r = s.
Proof.
  unfold Balloon.sentiment_df. now rewrite filter_In, sentiment_eqb_eq.
Qed.

Lemma buckets_perm version_df :
  Permutation
    (Balloon.sentiment_df version_df Positive
     ++ Balloon.sentiment_df version_df Neutral
     ++ Balloon.sentiment_df version_df Negative)%list
    version_df.
Proof.
  unfold Balloon.sentiment_df.
  induction version_df as [|r l IH]; [reflexivity|].
  simpl. destruct (Balloon.Sentiment r); simpl.
  - now constructor.
  - rewrite <- Permutation_middle. now constructor.
  - rewrite app_assoc, <- Permutation_middle, <- app_assoc. now constructor.
Qed.

End Buckets.

(** X1. The loop over [sentiment_order] splits the selected rows into three
    buckets that cover them without overlap: every row is in the bucket of
    its own sentiment and in no other, the buckets together are a
    rearrangement of the selected rows, and the three review counts add up
    to the number of selected rows. *)
Theorem sentiment_buckets_partition (version_df : list review) :
  (forall r s, In r (Balloon.sentiment_df version_df s)
               <-> In r version_df /\ Balloon.Sentiment r = s) /\
  (forall r, In r version_df ->
             exists s, In s Balloon.sentiment_order
                       /\ In r (Balloon.sentiment_df version_df s)) /\
  Permutation
    (concat (map (Balloon.sentiment_df version_df) Balloon.sentiment_order))
    version_df /\
  (Balloon.reviews (Balloon.sentiment_df version_df Positive)
   + Balloon.reviews (Balloon.sentiment_df version_df Neutral)
   + Balloon.reviews (Balloon.sentiment_df version_df Negative)
   = length version_df)%nat.
Proof.
  split; [|split; [|split]].
  - intros r s. apply sentiment_df_In.
  - intros r Hr. exists (Balloon.Sentiment r). split.
    + unfold Balloon.sentiment_order. destruct (Balloon.Sentiment r); simpl; auto.
    + now apply sentiment_df_In.
  - simpl. rewrite app_nil_r. apply buckets_perm.
  - unfold Balloon.reviews.
    rewrite <- (Permutation_length (buckets_perm version_df)), !length_app. lia.
Qed.

(** ** The version selector of the balloon page *)

Section VersionList.

Lemma eq_str_spec x v : Pandas.eq_str x v = true <-> x = Some v.
Proof.
  destruct x as [a|]; simpl; [|split; discriminate].
  rewrite String.eqb_eq. split; congruence.
Qed.

Lemma balloon_sorted_perm l : Permutation (Balloon.sorted_by_version_key l) l.
Proof. apply sorted_perm. Qed.

Lemma version_list_tail_In df v :
  In v (Balloon.sorted_by_version_key (Pandas.unique (Pandas.dropna (map appVersion df))))
  <-> exists r, In r df /\ appVersion r = Some v.
Proof.
  rewrite <- list_elem_of_In, balloon_sorted_perm, list_elem_of_In.
  rewrite unique_In, dropna_In, in_map_iff.
  split; intros (r & H1 & H2); now exists r.
Qed.

End VersionList.

(** X2. The version selector lists ["All Versions"] first, then every app
    version that occurs in the table exactly once (missing versions left
    out), in ascending order of the version key. *)
Theorem version_list_sorted_distinct (df : list review) :
  exists versions,
    Balloon.version_list df = "All Versions" :: versions /\
    NoDup versions /\
    (forall v, In v versions <-> exists r, In r df /\ appVersion r = Some v) /\
    StronglySorted
      (fun a b => PyStr.list_lt (Balloon.version_key b) (Balloon.version_key a) = false)
      versions /\
    (forall a b, PyStr.list_lt (Balloon.version_key a) (Balloon.version_key b) = true ->
                 ~ before b a versions).
Proof.
  eexists. split; [reflexivity|]. split; [|split; [|split]].
  - rewrite balloon_sorted_perm. apply unique_NoDup.
  - intros v. apply version_list_tail_In.
  - apply (sorted_sorted
             (fun a b => PyStr.list_lt (Balloon.version_key a) (Balloon.version_key b))).
    + intros x y. apply list_lt_asym.
    + intros x y z. apply list_le_trans.
  - intros a b. apply balloon_sort_never_inverts.
Qed.

(** X3. Selecting ["All Versions"] keeps the whole table; selecting any
    other label keeps, in order, exactly the rows of that app version; and
    every version offered by the selector selects at least one row. *)
Theorem version_df_selection (df : list review) :
  Balloon.version_df "All Versions" df = df /\
  (forall v, sublist (Balloon.version_df v df) df) /\
  (forall v r, v <> "All Versions" ->
               (In r (Balloon.version_df v df) <-> In r df /\ appVersion r = Some v)) /\
  (forall v, In v (Balloon.version_list df) -> df <> [] -> Balloon.version_df v df <> []) /\
  (forall v, In v (tl (Balloon.version_list df)) -> Balloon.version_df v df <> []).
Proof.
  assert (Hsel : forall v r, v <> "All Versions" ->
            (In r (Balloon.version_df v df) <-> In r df /\ appVersion r = Some v)).
  { intros v r Hv. unfold Balloon.version_df.
    apply String.eqb_neq in Hv. rewrite Hv.
    now rewrite filter_In, eq_str_spec. }
  assert (Htail : forall v, In v (tl (Balloon.version_list df)) ->
                            Balloon.version_df v df <> []).
  { intros v Hv. simpl in Hv. apply version_list_tail_In in Hv as (r & Hin & Hr).
    destruct (String.eqb_spec v "All Versions") as [->|Hne].
    - unfold Balloon.version_df. simpl. now destruct df.
    - intros Hnil. pose proof (proj2 (Hsel v r Hne) (conj Hin Hr)) as H.
      now rewrite Hnil in H. }
  split; [reflexivity|]. split; [|split; [exact Hsel|split; [|exact Htail]]].
  - intros v. unfold Balloon.version_df.
    destruct (String.eqb v "All Versions"); [reflexivity | apply filter_sublist].
  - intros v [<-|Hv] Hne; [exact Hne | now apply Htail].
Qed.

(** ** The release-version selector of the In-Detailed page *)

Section SortedVersions.
Import InDetailed.

Lemma key_lt_trichotomy : forall k1 k2 b,
  shaped b k1 = true -> shaped b k2 = true ->
  key_lt k1 k2 = Some false -> key_lt k2 k1 = Some false -> k1 = k2.
Proof.
  induction k1 as [|p k1 IH]; intros [|q k2] b H1 H2; simpl; try easy.
  rewrite (part_eqb_sym q p).
  destruct p, q, b; simpl in *; try discriminate.
  - destruct (String.eqb_spec s s0) as [->|Hne].
    + intros Ha Hb. f_equal. now apply IH with false.
    + intros [= Ha] [= Hb]. apply String.eqb_neq in Hne.
      rewrite (str_trichotomy _ _ Hne Ha) in Hb. discriminate.
  - destruct (N.eqb_spec n n0) as [->|Hne].
    + intros Ha Hb. f_equal. now apply IH with true.
    + intros [= Ha] [= Hb]. apply N.ltb_ge in Ha, Hb. lia.
Qed.

Lemma in_detailed_sorted_perm l : Permutation (sorted_by_version_key l) l.
Proof. apply sorted_perm. Qed.

End SortedVersions.

(** X4. On the In-Detailed page, comparing the version keys of two labels
    never raises the [TypeError] of comparing text with an integer, although
    the keys mix both: keys of labels have text and integers at the same
    positions.  Two labels that neither precede the other have the same
    key.  The selector therefore lists every release version of the table
    exactly once, in ascending order of the key. *)
Theorem sorted_versions_never_raises (df : list review) :
  (forall a b, exists r,
     InDetailed.key_lt (InDetailed.version_key (Some a))
                       (InDetailed.version_key (Some b)) = Some r) /\
  InDetailed.key_lt [InDetailed.KText "beta"] [InDetailed.KInt 2] = None /\
  (forall a b, InDetailed.version_lt a b = false -> InDetailed.version_lt b a = false ->
               InDetailed.version_key (Some a) = InDetailed.version_key (Some b)) /\
  NoDup (InDetailed.sorted_versions df) /\
  (forall v, In v (InDetailed.sorted_versions df)
             <-> exists r, In r df /\ Release_Version r = Some v) /\
  StronglySorted (fun a b => InDetailed.version_lt b a = false)
                 (InDetailed.sorted_versions df).
Proof.
  split; [|split; [|split; [|split; [|split]]]].
  - intros a b. eapply key_lt_comparable; apply version_key_shaped.
  - reflexivity.
  - intros a b. unfold InDetailed.version_lt.
    destruct (key_lt_comparable _ _ true (version_key_shaped a) (version_key_shaped b))
      as [r1 H1].
    destruct (key_lt_comparable _ _ true (version_key_shaped b) (version_key_shaped a))
      as [r2 H2].
    rewrite H1, H2. intros -> ->.
    exact (key_lt_trichotomy _ _ true (version_key_shaped a) (version_key_shaped b) H1 H2).
  - unfold InDetailed.sorted_versions. rewrite in_detailed_sorted_perm.
    apply unique_NoDup.
  - intros v. unfold InDetailed.sorted_versions.
    rewrite <- list_elem_of_In, in_detailed_sorted_perm, list_elem_of_In.
    rewrite unique_In, dropna_In, in_map_iff.
    split; intros (r & H1 & H2); now exists r.
  - apply (sorted_sorted InDetailed.version_lt).
    + apply version_lt_asym.
    + intros x y z. apply version_le_trans.
Qed.

(** ** The two classifiers side by side *)

Section TwoClassifiers.

Lemma mentions_app l1 l2 t : mentions (l1 ++ l2)%list t <-> mentions l1 t \/ mentions l2 t.
Proof.
  unfold mentions. split.
  - intros (w & Hin & H). apply in_app_or in Hin as [Hin|Hin]; [left|right]; now exists w.
  - intros [(w & Hin & H)|(w & Hin & H)]; exists w; (split; [apply in_or_app; auto | exact H]).
Qed.

Lemma mentions_Perfectoo t : ~ mentions ["Perfectoo"] (PyStr.lower t).
Proof.
  intros (w & [<-|[]] & H). apply contains_spec in H.
  now rewrite upper_keyword_never_matches in H.
Qed.

Lemma balloon_positive_split t :
  mentions Balloon.positive_words (PyStr.lower t)
  <-> mentions InDetailed.positive_words (PyStr.lower t)
      \/ mentions ["perfect"; "clear"; "easy"] (PyStr.lower t).
Proof.
  change Balloon.positive_words
    with (InDetailed.positive_words ++ ["perfect"; "clear"; "easy"] ++ ["Perfectoo"])%list.
  rewrite !mentions_app. pose proof (mentions_Perfectoo t). tauto.
Qed.

Lemma balloon_negative_split t :
  mentions Balloon.negative_words t
  <-> mentions InDetailed.negative_words t \/ mentions ["worst"] t.
Proof.
  change Balloon.negative_words with (InDetailed.negative_words ++ ["worst"])%list.
  apply mentions_app.
Qed.

Lemma lower_char_idem c : PyStr.lower_char (PyStr.lower_char c) = PyStr.lower_char c.
Proof. destruct c as [[] [] [] [] [] [] [] []]; vm_compute; reflexivity. Qed.

Lemma lower_idem t : PyStr.lower (PyStr.lower t) = PyStr.lower t.
Proof.
  induction t as [|c t IH]; [reflexivity|].
  simpl. now rewrite lower_char_idem, IH.
Qed.

End TwoClassifiers.

(** X5. The two pages classify a review alike unless its lower-cased text
    contains one of the keywords only the balloon page knows, ["perfect"],
    ["clear"], ["easy"] or ["worst"].  In general a review that is Positive
    on the In-Detailed page is Positive on the balloon page, and a review
    that is Neutral on the balloon page is Neutral on the In-Detailed page;
    the converse fails, e.g. for "worst app" and "easy but bad". *)
Theorem classifiers_differ_on_four_keywords (text : option string) :
  let t := PyStr.lower (PyStr.str text) in
  (~ mentions ["perfect"; "clear"; "easy"; "worst"] t ->
     Balloon.classify_sentiment text = InDetailed.classify_sentiment text) /\
  (InDetailed.classify_sentiment text = Positive ->
     Balloon.classify_sentiment text = Positive) /\
  (Balloon.classify_sentiment text = Neutral ->
     InDetailed.classify_sentiment text = Neutral) /\
  (Balloon.classify_sentiment (Some "worst app") = Negative /\
   InDetailed.classify_sentiment (Some "worst app") = Neutral /\
   Balloon.classify_sentiment (Some "easy but bad") = Positive /\
   InDetailed.classify_sentiment (Some "easy but bad") = Negative).
Proof.
  intros t.
  pose proof (first_match Balloon.positive_words Balloon.negative_words t) as (B1 & B2 & B3).
  pose proof (first_match InDetailed.positive_words InDetailed.negative_words t)
    as (D1 & D2 & D3).
  pose proof (balloon_positive_split (PyStr.str text)) as Hp.
  pose proof (balloon_negative_split t) as Hn.
  fold t in Hp.
  change (Balloon.classify_sentiment text) with
    (if existsb (fun word => PyStr.contains word t) Balloon.positive_words then Positive
     else if existsb (fun word => PyStr.contains word t) Balloon.negative_words
          then Negative else Neutral) in *.
  change (InDetailed.classify_sentiment text) with
    (if existsb (fun word => PyStr.contains word t) InDetailed.positive_words then Positive
     else if existsb (fun word => PyStr.contains word t) InDetailed.negative_words
          then Negative else Neutral) in *.
  split; [|split; [|split]].
  - intros Hnone.
    assert (Hq : ~ mentions ["perfect"; "clear"; "easy"] t /\ ~ mentions ["worst"] t).
    { change ["perfect"; "clear"; "easy"; "worst"]
        with (["perfect"; "clear"; "easy"] ++ ["worst"])%list in Hnone.
      rewrite mentions_app in Hnone. tauto. }
    destruct Hq as [Hq1 Hq2].
    destruct (existsb _ InDetailed.positive_words) eqn:Ep.
    + assert (Hm : mentions Balloon.positive_words t) by (apply Hp; left; now apply D1).
      apply B1 in Hm. now rewrite Hm.
    + destruct (existsb _ InDetailed.negative_words) eqn:En.
      * assert (Hm : ~ mentions Balloon.positive_words t /\ mentions Balloon.negative_words t).
        { split; [rewrite Hp; intros [H|H]; [apply D2 in H; [|reflexivity]|]; tauto|].
          apply Hn. left. now apply D2. }
        apply B2 in Hm. now rewrite Hm.
      * assert (Hm : ~ mentions Balloon.positive_words t /\ ~ mentions Balloon.negative_words t).
        { assert (Hd := proj1 D3 eq_refl). rewrite Hp, Hn. tauto. }
        apply B3 in Hm. now rewrite Hm.
  - intros Hd. apply B1, Hp. left. now apply D1.
  - intros Hb. apply B3 in Hb as [Hb1 Hb2]. apply D3. rewrite Hp in Hb1. rewrite Hn in Hb2.
    tauto.
  - repeat split; vm_compute; reflexivity.
Qed.

(** X6. Classification ignores letter case on both pages: texts that agree
    after lower-casing get the same sentiment, and a text is classified like
    its own lower-case form.  A missing review text is read as the text
    "nan" and is Neutral on both pages. *)
Theorem classify_sentiment_ignores_case (t : string) :
  (forall t', PyStr.lower t = PyStr.lower t' ->
     Balloon.classify_sentiment (Some t) = Balloon.classify_sentiment (Some t') /\
     InDetailed.classify_sentiment (Some t) = InDetailed.classify_sentiment (Some t')) /\
  Balloon.classify_sentiment (Some (PyStr.lower t)) = Balloon.classify_sentiment (Some t) /\
  InDetailed.classify_sentiment (Some (PyStr.lower t))
    = InDetailed.classify_sentiment (Some t) /\
  Balloon.classify_sentiment None = Balloon.classify_sentiment (Some "nan") /\
  Balloon.classify_sentiment None = Neutral /\
  InDetailed.classify_sentiment None = Neutral.
Proof.
  assert (H : forall t t', PyStr.lower t = PyStr.lower t' ->
     Balloon.classify_sentiment (Some t) = Balloon.classify_sentiment (Some t') /\
     InDetailed.classify_sentiment (Some t) = InDetailed.classify_sentiment (Some t')).
  { intros a b Hab.
    unfold Balloon.classify_sentiment, InDetailed.classify_sentiment. simpl PyStr.str.
    cbv zeta. now rewrite Hab. }
  split; [apply H|].
  split; [apply H, lower_idem|]. split; [apply H, lower_idem|].
  repeat split; vm_compute; reflexivity.
Qed.

(** ** Trimming and splitting *)

Section Strip.

Lemma all_space_occurs s : all_space s = true <-> forall c, occurs c s -> PyStr.is_space c = true.
Proof.
  unfold occurs. induction s as [|a s IH]; simpl.
  - split; [intros _ c [] | reflexivity].
  - rewrite andb_true_iff, IH. split.
    + intros [Ha Hs] c [<-|Hc]; auto.
    + intros H. split; [apply H; now left | intros c Hc; apply H; now right].
Qed.

Lemma all_space_app a b : all_space (a +:+ b) = all_space a && all_space b.
Proof.
  induction a as [|c a IH]; [reflexivity|].
  rewrite app_cons. simpl. now rewrite IH, andb_assoc.
Qed.

Lemma occurs_app_iff c a b : occurs c (a +:+ b) <-> occurs c a \/ occurs c b.
Proof.
  unfold occurs. induction a as [|x a IH]; [rewrite app_nil; simpl; tauto|].
  rewrite app_cons. simpl. rewrite IH. tauto.
Qed.

Lemma rstrip_cons c s :
  PyStr.rstrip (String c s) =
  match PyStr.rstrip s with
  | EmptyString => if PyStr.is_space c then EmptyString else String c EmptyString
  | String _ _ as r => String c r
  end.
Proof. reflexivity. Qed.

Lemma rstrip_nil_iff s : PyStr.rstrip s = "" <-> all_space s = true.
Proof.
  induction s as [|c s IH]; [easy|].
  rewrite rstrip_cons. simpl all_space. rewrite andb_true_iff, <- IH.
  destruct (PyStr.rstrip s); destruct (PyStr.is_space c); split; try easy; intuition discriminate.
Qed.

(** [rstrip] cuts whitespace off the end, and nothing else. *)
Lemma rstrip_prefix s : exists b, s = PyStr.rstrip s +:+ b /\ all_space b = true.
Proof.
  induction s as [|c s (b & Hb & Hsp)]; [now exists ""|].
  rewrite rstrip_cons.
  destruct (PyStr.rstrip s) as [|r0 r] eqn:Hr.
  - apply rstrip_nil_iff in Hr.
    destruct (PyStr.is_space c) eqn:Hc.
    + exists (String c s). split; [reflexivity|]. simpl. now rewrite Hc, Hr.
    + exists s. split; [reflexivity | assumption].
  - exists b. split; [|assumption]. rewrite app_cons. now rewrite <- Hb.
Qed.

Lemma rstrip_last s : forall pre c,
  PyStr.rstrip s = pre +:+ String c "" -> PyStr.is_space c = false.
Proof.
  induction s as [|a s IH]; intros pre c.
  - simpl. intros H. apply app_eq_nil in H as [_ H]. discriminate.
  - rewrite rstrip_cons.
    destruct (PyStr.rstrip s) as [|r0 r] eqn:Hr.
    + destruct (PyStr.is_space a) eqn:Ha.
      * intros H. apply app_eq_nil in H as [_ H]. discriminate.
      * destruct pre as [|p pre]; rewrite ?app_nil, ?app_cons.
        -- now intros [= <-].
        -- intros [= _ H]. apply app_eq_nil in H as [_ H]. discriminate.
    + destruct pre as [|p pre]; rewrite ?app_nil, ?app_cons; [discriminate|].
      intros [= <- H]. now apply (IH pre).
Qed.

Lemma lstrip_suffix s : exists a, s = a +:+ PyStr.lstrip s /\ all_space a = true.
Proof.
  induction s as [|c s (a & Ha & Hsp)]; [now exists ""|].
  simpl. destruct (PyStr.is_space c) eqn:Hc.
  - exists (String c a). split; [now rewrite app_cons, <- Ha | simpl; now rewrite Hc].
  - now exists "".
Qed.

Lemma lstrip_first s c rest : PyStr.lstrip s = String c rest -> PyStr.is_space c = false.
Proof.
  induction s as [|a s IH]; simpl; [discriminate|].
  destruct (PyStr.is_space a) eqn:Ha; [exact IH | now intros [= <- _]].
Qed.

(** What [strip] returns: the text between the surrounding whitespace. *)
Lemma strip_spec s :
  exists a b, s = a +:+ PyStr.strip s +:+ b
              /\ all_space a = true /\ all_space b = true
              /\ no_outer_space (PyStr.strip s).
Proof.
  unfold PyStr.strip.
  destruct (lstrip_suffix s) as (a & Ha & Hsa).
  destruct (rstrip_prefix (PyStr.lstrip s)) as (b & Hb & Hsb).
  exists a, b. split; [now rewrite <- Hb|]. split; [assumption|]. split; [assumption|].
  split.
  - intros c rest Heq. rewrite Heq, app_cons in Hb. now apply lstrip_first in Hb.
  - intros pre c. apply rstrip_last.
Qed.

Lemma strip_nil_iff s : PyStr.strip s = "" <-> all_space s = true.
Proof.
  destruct (strip_spec s) as (a & b & Hs & Ha & Hb & _). split.
  - intros H. rewrite H in Hs. rewrite Hs, !all_space_app, Ha, Hb. reflexivity.
  - intros H. rewrite Hs, !all_space_app, !andb_true_iff in H.
    destruct H as (_ & H & _).
    destruct (PyStr.strip s) as [|c rest] eqn:E; [reflexivity|].
    destruct (strip_spec s) as (_ & _ & _ & _ & _ & Hfirst & _).
    rewrite E in Hfirst. specialize (Hfirst c rest eq_refl).
    simpl in H. now rewrite Hfirst in H.
Qed.

Lemma split_cons sep c s :
  PyStr.split sep (String c s) =
  if Ascii.eqb c sep then EmptyString :: PyStr.split sep s
  else match PyStr.split sep s with
       | p :: ps => String c p :: ps
       | [] => [String c EmptyString]
       end.
Proof. reflexivity. Qed.

Lemma split_not_nil sep s : PyStr.split sep s <> [].
Proof.
  destruct s as [|c s]; [discriminate|].
  rewrite split_cons. destruct (Ascii.eqb c sep); [discriminate|].
  now destruct (PyStr.split sep s).
Qed.

Lemma join_cons sep p q pieces :
  join sep (p :: q :: pieces) = p +:+ String sep (join sep (q :: pieces)).
Proof. reflexivity. Qed.

(** Joining the pieces with the separator gives the text back. *)
Lemma split_join sep s : join sep (PyStr.split sep s) = s.
Proof.
  induction s as [|c s IH]; [reflexivity|].
  rewrite split_cons. pose proof (split_not_nil sep s) as Hne.
  destruct (Ascii.eqb_spec c sep) as [->|Hc].
  - destruct (PyStr.split sep s) as [|p ps]; [easy|].
    now rewrite join_cons, app_nil, IH.
  - destruct (PyStr.split sep s) as [|p ps]; [easy|].
    destruct ps as [|q ps].
    + simpl in *. now rewrite IH.
    + rewrite join_cons in *. now rewrite app_cons, IH.
Qed.

(** The characters of the pieces are those of the text, the separator
    apart. *)
Lemma split_occurs sep c s :
  (exists p, In p (PyStr.split sep s) /\ occurs c p) <-> occurs c s /\ c <> sep.
Proof.
  induction s as [|a s IH].
  - simpl. split; [intros (p & [<-|[]] & []) | intros [[] _]].
  - rewrite split_cons. unfold occurs in *. simpl list_ascii_of_string.
    destruct (Ascii.eqb_spec a sep) as [->|Ha].
    + split.
      * intros (p & [<-|Hp] & Hc); [destruct Hc|].
        destruct (proj1 IH (ex_intro _ p (conj Hp Hc))) as [H1 H2].
        split; [now right | assumption].
      * intros [[<-|Hc] Hne]; [congruence|].
        destruct (proj2 IH (conj Hc Hne)) as (p & Hp & Hcp).
        exists p. split; [now right | assumption].
    + pose proof (split_not_nil sep s) as Hne.
      destruct (PyStr.split sep s) as [|p ps]; [easy|].
      split.
      * intros (q & [<-|Hq] & Hc).
        -- destruct Hc as [<-|Hc]; [split; [now left | congruence]|].
           destruct (proj1 IH (ex_intro _ p (conj (or_introl eq_refl) Hc))) as [H1 H2].
           split; [now right | assumption].
        -- destruct (proj1 IH (ex_intro _ q (conj (or_intror Hq) Hc))) as [H1 H2].
           split; [now right | assumption].
      * intros [[<-|Hc] Hcs].
        -- exists (String a p). split; [now left | now left].
        -- destruct (proj2 IH (conj Hc Hcs)) as (q & [<-|Hq] & Hcq).
           ++ exists (String a p). split; [now left | now right].
           ++ exists q. split; [now right | assumption].
Qed.

End Strip.

(** ** What the feature list holds *)

Section FeatureGuard.

Lemma app_empty_r (s : string) : s +:+ "" = s.
Proof. induction s as [|c s IH]; [reflexivity | now rewrite app_cons, IH]. Qed.

Lemma join_substring sep p pieces : In p pieces -> substring p (join sep pieces).
Proof.
  induction pieces as [|q [|r pieces] IH]; [intros [] | |].
  - intros [<-|[]]. exists "", "". simpl. now rewrite app_nil, app_empty_r.
  - intros [<-|Hin].
    + rewrite join_cons. now exists "", (String sep (join sep (r :: pieces))).
    + destruct (IH Hin) as (a & b & Hab). rewrite join_cons, Hab.
      exists (q +:+ String sep a), b. now rewrite !append_assoc, app_cons.
Qed.

Lemma split_substring sep p s : In p (PyStr.split sep s) -> substring p s.
Proof.
  intros H. apply (join_substring sep) in H. now rewrite split_join in H.
Qed.

Lemma strip_substring s : substring (PyStr.strip s) s.
Proof. destruct (strip_spec s) as (a & b & H & _). now exists a, b. Qed.

Lemma strip_occurs c s : occurs c (PyStr.strip s) -> occurs c s.
Proof.
  destruct (strip_spec s) as (a & b & H & _). intros Hc.
  rewrite H, !occurs_app_iff. tauto.
Qed.

(** An entry yields no feature exactly when it is blank. *)
Lemma features_nil_iff entry : Balloon.features entry = [] <-> blank_entry entry.
Proof.
  unfold blank_entry. split.
  - intros Hnil c Hc.
    destruct (Ascii.eqb_spec c "#") as [->|Hne]; [now left | right].
    destruct (proj2 (split_occurs "#" c entry) (conj Hc Hne)) as (p & Hp & Hcp).
    destruct (PyStr.strip p) eqn:Hs.
    + apply strip_nil_iff in Hs. now apply (proj1 (all_space_occurs p) Hs).
    + exfalso.
      assert (Hin : In (PyStr.strip p) (Balloon.features entry)).
      { apply features_spec. exists p. rewrite Hs. now repeat split. }
      now rewrite Hnil in Hin.
  - intros Hblank.
    destruct (Balloon.features entry) as [|x l] eqn:Hf; [reflexivity|].
    exfalso.
    assert (Hin : In x (Balloon.features entry)) by (rewrite Hf; now left).
    apply features_spec in Hin as (p & Hp & Hx & Hne).
    apply Hne. rewrite Hx. apply strip_nil_iff, all_space_occurs.
    intros c Hc.
    destruct (proj1 (split_occurs "#" c entry) (ex_intro _ p (conj Hp Hc))) as [H1 H2].
    destruct (Hblank c H1) as [->|Hsp]; [easy | assumption].
Qed.

End FeatureGuard.

(** X7. The feature list is empty, so that the page shows its "no feature
    descriptions" notice instead of the list, exactly when every feature
    description of the selected rows is missing or made of ['#'] signs and
    whitespace only; in particular when no row is selected. *)
Theorem feature_list_empty_guard (version_df : list review) :
  (Balloon.feature_list (Balloon.feature_raw version_df) = []
   <-> forall r entry, In r version_df -> Feature_Description r = Some entry ->
                       blank_entry entry) /\
  Balloon.feature_list (Balloon.feature_raw []) = [] /\
  Balloon.feature_list ["#"; " # "; ""] = [].
Proof.
  split; [|split; vm_compute; reflexivity].
  assert (Hempty : Balloon.feature_list (Balloon.feature_raw version_df) = []
                   <-> forall x, ~ trimmed_fragment x (Balloon.feature_raw version_df)).
  { split.
    - intros Hnil x Hx. apply feature_set_spec, elem_of_elements in Hx.
      rewrite <- (feature_list_perm (Balloon.feature_raw version_df)), Hnil in Hx.
      now apply not_elem_of_nil in Hx.
    - intros Hnone.
      destruct (Balloon.feature_list (Balloon.feature_raw version_df)) as [|x l] eqn:Hf;
        [reflexivity|].
      exfalso. apply (Hnone x).
      apply feature_set_spec, elem_of_elements.
      rewrite <- (feature_list_perm (Balloon.feature_raw version_df)), Hf. now left. }
  rewrite Hempty. unfold Balloon.feature_raw. split.
  - intros Hnone r entry Hr He. apply features_nil_iff.
    destruct (Balloon.features entry) as [|x l] eqn:Hf; [reflexivity|].
    exfalso. apply (Hnone x).
    assert (Hx : In x (Balloon.features entry)) by (rewrite Hf; now left).
    apply features_spec in Hx as (frag & Hfrag & Hx & Hne).
    exists entry, frag. split; [|now repeat split].
    apply dropna_In, in_map_iff. now exists r.
  - intros Hblank x (entry & frag & Hin & Hfrag & Hx & Hne).
    apply dropna_In, in_map_iff in Hin as (r & Hr & Hin).
    pose proof (proj2 (features_nil_iff entry) (Hblank r entry Hin Hr)) as Hnil.
    assert (Hx' : In x (Balloon.features entry))
      by (apply features_spec; now exists frag).
    now rewrite Hnil in Hx'.
Qed.

(** X8. Splitting an entry at ['#'] loses nothing: the pieces joined with
    ['#'] give the entry back.  Every feature taken from an entry is a
    non-empty piece of its text that contains no ['#'] and neither starts
    nor ends with whitespace. *)
Theorem features_well_formed (entry : string) :
  join "#" (PyStr.split "#" entry) = entry /\
  Forall (fun x => x <> "" /\ ~ occurs "#" x /\ no_outer_space x /\ substring x entry)
         (Balloon.features entry).
Proof.
  split; [apply split_join|].
  apply List.Forall_forall. intros x Hx.
  apply features_spec in Hx as (frag & Hfrag & -> & Hne).
  split; [assumption|]. split; [|split].
  - intros Hc. apply strip_occurs in Hc.
    destruct (proj1 (split_occurs "#" "#" entry) (ex_intro _ frag (conj Hfrag Hc))) as [_ H].
    now apply H.
  - destruct (strip_spec frag) as (_ & _ & _ & _ & _ & H). exact H.
  - eapply substring_trans; [apply strip_substring | now apply (split_substring "#")].
Qed.

(** ** More on the balloon geometry *)

Section GeometryExtra.
Local Open Scope Q_scope.

Lemma range_In n k : (0 <= k < Z.of_nat n)%Z -> In k (map Z.of_nat (seq 0 n)).
Proof.
  intros H. apply in_map_iff. exists (Z.to_nat k).
  split; [lia|]. apply in_seq. lia.
Qed.

Lemma duration_scaled_threshold (d : Z) :
  ((d <= 22)%Z -> Balloon.duration_scaled d == 1.5) /\
  ((23 <= d)%Z -> Balloon.duration_scaled d == inject_Z d / 15
                  /\ 1.5 < Balloon.duration_scaled d).
Proof.
  rewrite duration_scaled_Qmax. split; intros H.
  - apply Q.max_r. apply Qle_shift_div_r; [reflexivity|].
    assert (Hq : inject_Z d <= inject_Z 22) by (rewrite <- Zle_Qle; lia).
    change (inject_Z 22) with 22 in Hq. lra.
  - assert (Hq : inject_Z 23 <= inject_Z d) by (rewrite <- Zle_Qle; lia).
    change (inject_Z 23) with 23 in Hq.
    assert (Hlt : 1.5 < inject_Z d / 15) by (apply Qlt_shift_div_l; lra).
    rewrite Q.max_l by lra. split; [reflexivity | assumption].
Qed.

Lemma duration_scaled_monotone (d d' : Z) :
  (d <= d')%Z -> Balloon.duration_scaled d <= Balloon.duration_scaled d'.
Proof.
  intros H. rewrite !duration_scaled_Qmax.
  apply Q.max_le_compat_r.
  assert (Hq : inject_Z d <= inject_Z d') by (now rewrite <- Zle_Qle).
  apply Qle_shift_div_l; [reflexivity|].
  assert (E : inject_Z d / 15 * 15 == inject_Z d) by field.
  rewrite E. exact Hq.
Qed.

Lemma duration_days_nonneg bucket d : Balloon.duration_days bucket = Some d -> (0 <= d)%Z.
Proof.
  unfold Balloon.duration_days.
  pose proof (max_spec (map at_ bucket)) as Hmax.
  pose proof (min_spec (map at_ bucket)) as Hmin.
  destruct (Pandas.max (map at_ bucket)) as [mx|]; [|discriminate].
  destruct (Pandas.min (map at_ bucket)) as [mn|]; [|discriminate].
  intros [= <-]. destruct Hmax as [_ Hmax], Hmin as [Hin _].
  specialize (Hmax mn Hin). unfold Pandas.days.
  apply Z.div_pos; [lia | vm_compute; reflexivity].
Qed.

Lemma circle_pixel_radius_monotone (a b : Q) :
  a <= b -> Balloon.circle_pixel_radius a <= Balloon.circle_pixel_radius b.
Proof.
  intros H. rewrite !circle_pixel_radius_clamp.
  assert (Hn : (a - 3.2) / 1.8 <= (b - 3.2) / 1.8).
  { apply Qle_shift_div_l; [reflexivity|].
    assert (E : (a - 3.2) / 1.8 * 1.8 == a - 3.2) by field. rewrite E. lra. }
  assert (Hc : Qmax 0 (Qmin ((a - 3.2) / 1.8) 1) <= Qmax 0 (Qmin ((b - 3.2) / 1.8) 1)).
  { apply Q.max_le_compat_l. now apply Q.min_le_compat_r. }
  lra.
Qed.










End GeometryExtra.

Section GeometryChecks.

Lemma duration_threshold_binary64_all d :
  (0 <= d <= 3650)%Z -> duration_threshold_in_binary64 d = true.
Proof.
  intros H. assert (Hin : In d day_counts) by (apply range_In; lia).
  clear H. revert d Hin. apply forallb_forall. vm_compute. reflexivity.
Qed.

Lemma radius_step_binary64_all k :
  (0 <= k < 1000)%Z -> radius_step_in_binary64 k = true.
Proof.
  intros H. assert (Hin : In k (map Z.of_nat (seq 0 1000))) by (apply range_In; lia).
  clear H. revert k Hin. apply forallb_forall. vm_compute. reflexivity.
Qed.

Lemma floor_idle_binary64_all k :
  (0 <= k <= 1000)%Z -> floor_idle_in_binary64 k = true.
Proof.
  intros H. apply hundredths_In in H.
  revert k H. apply forallb_forall. vm_compute. reflexivity.
Qed.

End GeometryChecks.

(** X9. The floor of 0.5 on the stick height never takes effect: the
    converted radius lies between 0.05 and 2/15 and the scaled duration is
    at least 1.5, so the stick height is the scaled duration minus the
    converted radius, at least 41/30, and the circle's center sits exactly
    at the scaled duration whatever the score.  In binary64 as well, for
    every two-decimal mean from 0.00 to 10.00 and every span up to 60
    days, [max] returns the difference and the height exceeds 1. *)
Theorem circle_center_at_scaled_duration (avg : Q) (d : Z) :
  (Balloon.stick_visible_height avg d
     == Balloon.duration_scaled d - Balloon.circle_data_radius avg)%Q /\
  (Balloon.circle_y avg d == Balloon.duration_scaled d)%Q /\
  ((41 # 30) <= Balloon.stick_visible_height avg d)%Q /\
  (0.05 <= Balloon.circle_data_radius avg <= (2 # 15))%Q /\
  (forall k d' : Z, (0 <= k <= 1000)%Z -> (0 <= d' <= 60)%Z ->
     PrimFloat.eqb
       (@Balloon.stick_visible_height float binary64 (lit (k # 100)) d')
       (PrimFloat.sub (@Balloon.duration_scaled float binary64 d')
                      (@Balloon.circle_data_radius float binary64 (lit (k # 100))))
     = true /\
     PrimFloat.ltb 1 (@Balloon.stick_visible_height float binary64 (lit (k # 100)) d')
     = true).
Proof.
  pose proof (stick_floor_never_binds avg d) as Hs.
  pose proof (duration_scaled_ge d) as Hd.
  pose proof (circle_data_radius_le avg) as Hr.
  assert (Hr' : (0.05 <= Balloon.circle_data_radius avg)%Q).
  { unfold Balloon.circle_data_radius.
    pose proof (circle_pixel_radius_range avg) as [H _].
    cbv [Balloon.pixel_to_data_ratio of_int fmul fdiv exact inject_Z].
    set (r := Balloon.circle_pixel_radius avg) in *.
    assert (E : (r / 2 * (2 / 600) == r * (1 # 600))%Q) by field.
    rewrite E. lra. }
  split; [exact Hs|]. split; [|split; [|split; [split; assumption|]]].
  - change (Balloon.circle_y avg d)
      with (Balloon.stick_visible_height avg d + Balloon.circle_data_radius avg)%Q.
    rewrite Hs. ring.
  - rewrite Hs. lra.
  - intros k d' Hk Hd'.
    pose proof (floor_idle_binary64_all k Hk) as H.
    unfold floor_idle_in_binary64 in H. rewrite forallb_forall in H.
    specialize (H d' ltac:(apply range_In; lia)).
    now apply andb_true_iff in H.
Qed.

(** X10. The span of a bucket is never negative, and the scaled stick
    length does not decrease with it.  Every span of up to 22 days is drawn
    with the same minimum length 1.5; from 23 days on the length is the
    span divided by 15, above 1.5.  The same holds in binary64 for all
    spans up to ten years. *)
Theorem duration_scaled_threshold_22_days (bucket : list review) (d : Z) :
  (forall n, Balloon.duration_days bucket = Some n -> (0 <= n)%Z) /\
  ((d <= 22)%Z -> Balloon.duration_scaled d == 1.5)%Q /\
  ((23 <= d)%Z -> Balloon.duration_scaled d == inject_Z d / 15
                  /\ 1.5 < Balloon.duration_scaled d)%Q /\
  (forall d', (d <= d')%Z -> Balloon.duration_scaled d <= Balloon.duration_scaled d')%Q /\
  ((0 <= d <= 22)%Z -> PrimFloat.eqb (@Balloon.duration_scaled float binary64 d) 1.5 = true) /\
  ((23 <= d <= 3650)%Z ->
     PrimFloat.eqb (@Balloon.duration_scaled float binary64 d)
                   (PrimFloat.div (of_int d) (of_int 15)) = true /\
     PrimFloat.ltb 1.5 (@Balloon.duration_scaled float binary64 d) = true).
Proof.
  destruct (duration_scaled_threshold d) as [H1 H2].
  split; [intros n; apply duration_days_nonneg|].
  split; [exact H1|]. split; [exact H2|].
  split; [intros d'; apply duration_scaled_monotone|].
  split; intros Hd.
  - pose proof (duration_threshold_binary64_all d ltac:(lia)) as H.
    unfold duration_threshold_in_binary64 in H. cbv zeta in H.
    now rewrite (proj2 (Z.leb_le d 22) ltac:(lia)) in H.
  - pose proof (duration_threshold_binary64_all d ltac:(lia)) as H.
    unfold duration_threshold_in_binary64 in H. cbv zeta in H.
    rewrite (proj2 (Z.leb_gt d 22) ltac:(lia)) in H.
    now apply andb_true_iff in H.
Qed.

(** X11. A better mean score never gives a smaller circle: the pixel
    radius does not decrease with the mean score, in exact arithmetic for
    all scores and in binary64 from each two-decimal mean between 0.00 and
    10.00 to the next. *)
Theorem circle_pixel_radius_monotone_in_score (a b : Q) (k : Z) :
  ((a <= b)%Q -> (Balloon.circle_pixel_radius a <= Balloon.circle_pixel_radius b)%Q) /\
  ((0 <= k < 1000)%Z ->
     PrimFloat.leb (@Balloon.circle_pixel_radius float binary64 (lit (k # 100)))
                   (@Balloon.circle_pixel_radius float binary64 (lit ((k + 1) # 100)))
     = true).
Proof.
  split; [apply circle_pixel_radius_monotone | apply radius_step_binary64_all].
Qed.

Section AverageShown.
Local Open Scope Z_scope.



End AverageShown.


(** ** More on the In-Detailed filters *)

Section FilterExtra.
Import InDetailed.

Lemma filter_sublist_impl {A} (f g : A -> bool) (l : list A) :
  (forall x, f x = true -> g x = true) -> sublist (List.filter f l) (List.filter g l).
Proof.
  intros H. induction l as [|x l IH]; simpl; [constructor|].
  destruct (f x) eqn:Hf.
  - rewrite (H x Hf). now constructor.
  - destruct (g x); [now constructor | assumption].
Qed.

Lemma in_date_range_widen d0 d1 d0' d1' r :
  (d0' <= d0)%Z -> (d1 <= d1')%Z ->
  in_date_range d0 d1 r = true -> in_date_range d0' d1' r = true.
Proof.
  intros H0 H1. rewrite !in_date_range_spec. unfold dated_within.
  intros (t & Ht & Hlo & Hhi). exists t. split; [assumption | lia].
Qed.

Lemma filter_filter_sublist {A} (f g : A -> bool) (l : list A) :
  sublist (List.filter g (List.filter f l)) (List.filter f l).
Proof. apply filter_sublist. Qed.

Lemma filter_idem {A} (f : A -> bool) (l : list A) :
  List.filter f (List.filter f l) = List.filter f l.
Proof.
  induction l as [|x l IH]; [reflexivity|].
  simpl. destruct (f x) eqn:Hf; [simpl; now rewrite Hf, IH | assumption].
Qed.

Lemma filter_comm {A} (f g : A -> bool) (l : list A) :
  List.filter f (List.filter g l) = List.filter g (List.filter f l).
Proof.
  induction l as [|x l IH]; [reflexivity|].
  simpl. destruct (f x) eqn:Hf, (g x) eqn:Hg; simpl; rewrite ?Hf, ?Hg, IH; reflexivity.
Qed.

Lemma filter_twice {A} (f g : A -> bool) (l : list A) :
  List.filter g (List.filter f (List.filter g (List.filter f l)))
  = List.filter g (List.filter f l).
Proof. now rewrite (filter_comm f g (List.filter f l)), filter_idem, filter_idem. Qed.

End FilterExtra.

(** X13. Filtering on the In-Detailed page only ever narrows: a wider date
    range keeps every row a narrower one keeps, selecting release versions
    keeps a part of what no selection keeps, a range whose end date is
    before its start date keeps nothing, and filtering the filtered rows
    again with the same inputs changes nothing. *)
Theorem filtered_df_narrows
  (df : list review) (d0 d1 d0' d1' : Z) (version_filter : list string) :
  exists rows wider unselected,
    InDetailed.filtered_df [d0; d1] version_filter df = Some rows /\
    InDetailed.filtered_df [d0'; d1'] version_filter df = Some wider /\
    InDetailed.filtered_df [d0; d1] [] df = Some unselected /\
    ((d0' <= d0)%Z -> (d1 <= d1')%Z -> sublist rows wider) /\
    sublist rows unselected /\
    ((d1 < d0)%Z -> rows = []) /\
    InDetailed.filtered_df [d0; d1] version_filter rows = Some rows.
Proof.
  unfold InDetailed.filtered_df.
  destruct version_filter as [|v vs].
  - do 3 eexists. do 3 (split; [reflexivity|]).
    split; [|split; [reflexivity|split]].
    + intros H0 H1. apply filter_sublist_impl. intros r.
      now apply in_date_range_widen.
    + intros Hrev.
      destruct (List.filter (InDetailed.in_date_range d0 d1) df) as [|r l] eqn:Hf;
        [reflexivity|].
      assert (Hin : In r (List.filter (InDetailed.in_date_range d0 d1) df))
        by (rewrite Hf; now left).
      apply filter_In in Hin as [_ Hin]. apply in_date_range_spec in Hin.
      destruct Hin as (t & _ & Hlo & Hhi). lia.
    + f_equal. apply filter_idem.
  - do 3 eexists. do 3 (split; [reflexivity|]).
    set (sel := fun r => Pandas.isin (Release_Version r) (v :: vs)).
    split; [|split; [apply filter_sublist|split]].
    + intros H0 H1. rewrite (filter_comm sel), (filter_comm sel).
      apply filter_sublist_impl. intros r. now apply in_date_range_widen.
    + intros Hrev.
      destruct (List.filter sel (List.filter (InDetailed.in_date_range d0 d1) df))
        as [|r l] eqn:Hf; [reflexivity|].
      assert (Hin : In r (List.filter sel
                            (List.filter (InDetailed.in_date_range d0 d1) df)))
        by (rewrite Hf; now left).
      apply filter_In in Hin as [Hin _]. apply filter_In in Hin as [_ Hin].
      apply in_date_range_spec in Hin. destruct Hin as (t & _ & Hlo & Hhi). lia.
    + f_equal. apply filter_twice.
Qed.

(** X14. With the date widget left at its initial value (the calendar days
    of the earliest and of the latest review), the lower bound excludes
    nothing, but the upper bound is midnight at the start of the last day:
    the rows kept are those dated up to that midnight, and the latest
    review itself is kept only when it was written exactly at midnight. *)
Theorem default_date_range_cuts_last_day (df : list review) (t_first t_last : Z) :
  earliest t_first df -> latest t_last df ->
  InDetailed.default_date_range df = Some [Pandas.date t_first; Pandas.date t_last] /\
  exists rows,
    InDetailed.filtered_df [Pandas.date t_first; Pandas.date t_last] [] df = Some rows /\
    (forall r, In r rows <->
               In r df /\ exists t, at_ r = Some t
                                    /\ (t <= Pandas.date t_last * Pandas.ns_per_day)%Z) /\
    (forall r, In r df -> at_ r = Some t_last ->
               (In r rows <-> (t_last mod Pandas.ns_per_day = 0)%Z)).
Proof.
  intros Hfirst Hlast.
  split.
  { unfold InDetailed.default_date_range.
    now rewrite (min_earliest _ _ Hfirst), (max_latest _ _ Hlast). }
  assert (Hrows : forall r,
            In r (List.filter (InDetailed.in_date_range (Pandas.date t_first)
                                                        (Pandas.date t_last)) df)
            <-> In r df /\ exists t, at_ r = Some t
                                     /\ (t <= Pandas.date t_last * Pandas.ns_per_day)%Z).
  { intros r. rewrite filter_In, in_date_range_spec. unfold dated_within, Pandas.date.
    change Pandas.ns_per_day with 86400000000000%Z.
    split; intros [Hin (t & Ht & H)]; (split; [assumption|]); exists t;
      (split; [assumption|]); [lia|].
    split; [|assumption].
    destruct Hfirst as [_ Hle].
    assert (Hin' : In (Some t) (map at_ df)) by (apply in_map_iff; now exists r).
    specialize (Hle t Hin').
    pose proof (Z.mul_div_le t_first 86400000000000 eq_refl). lia. }
  eexists. split; [reflexivity|]. split; [exact Hrows|].
  intros r Hin Hr. rewrite Hrows. unfold Pandas.date.
  change Pandas.ns_per_day with 86400000000000%Z. split.
  - intros [_ (t & Ht & Hle)]. rewrite Hr in Ht. injection Ht as <-.
    pose proof (Z.div_mod t_last 86400000000000 ltac:(lia)).
    pose proof (Z.mod_pos_bound t_last 86400000000000 eq_refl). lia.
  - intros Hmod. split; [assumption|]. exists t_last. split; [assumption|].
    pose proof (Z.div_mod t_last 86400000000000 ltac:(lia)). lia.
Qed.

Lemma default_date_range_cuts_last_day_witness :
  let r0 := {| at_ := Some 5%Z; content := Some "good"; score := 5;
               appVersion := Some "1.0"; Release_Version := Some "R1";
               reviewCreatedVersion := None; Feature_Description := None;
               Release_Date := None |} in
  let r1 := {| at_ := Some (Pandas.ns_per_day + 7)%Z; content := Some "bad";
               score := 1; appVersion := Some "1.0"; Release_Version := Some "R1";
               reviewCreatedVersion := None; Feature_Description := None;
               Release_Date := None |} in
  InDetailed.default_date_range [r0; r1]
    = Some [Pandas.date 5; Pandas.date (Pandas.ns_per_day + 7)] /\
  exists rows,
    InDetailed.filtered_df [Pandas.date 5; Pandas.date (Pandas.ns_per_day + 7)] [] [r0; r1]
      = Some rows /\
    (forall r, In r rows <->
               In r [r0; r1]
               /\ exists t, at_ r = Some t
                            /\ (t <= Pandas.date (Pandas.ns_per_day + 7) * Pandas.ns_per_day)%Z) /\
    (forall r, In r [r0; r1] -> at_ r = Some (Pandas.ns_per_day + 7)%Z ->
               (In r rows <-> ((Pandas.ns_per_day + 7) mod Pandas.ns_per_day = 0)%Z)).
Proof.
  intros r0 r1.
  apply (default_date_range_cuts_last_day [r0; r1] 5 (Pandas.ns_per_day + 7)).
  - split; [simpl; auto|].
    intros u [[= <-]|[[= <-]|[]]]; vm_compute; discriminate.
  - split; [simpl; auto|].
    intros u [[= <-]|[[= <-]|[]]]; vm_compute; discriminate.
Defined.

(** ** The Gantt chart over the filtered rows *)

Section GanttExtra.
Import InDetailed.

Lemma gantt_df_row rows row :
  In row (gantt_df rows) -> exists v, In v (group_keys rows) /\ row = agg v rows.
Proof.
  intros Hin. apply sorted_grouped_In, list_elem_of_In.
  eapply elem_of_sublist; [apply list_elem_of_In, Hin | apply sublist_take].
Qed.

Lemma rows_of_version_In v rows r :
  In r (rows_of_version v rows) <-> In r rows /\ Release_Version r = Some v.
Proof.
  unfold rows_of_version. rewrite <- !list_elem_of_In, list_elem_of_filter. tauto.
Qed.

End GanttExtra.

(** X15. Over the filtered rows every bar of the Gantt aggregate ends at a
    review date inside the selected date range (never at a missing date),
    belongs to a release version of the table, and, when release versions
    are selected, to a selected one. *)
Theorem gantt_of_filtered_rows
  (df : list review) (d0 d1 : Z) (rest : list Z) (version_filter : list string) :
  exists rows,
    InDetailed.filtered_df (d0 :: d1 :: rest) version_filter df = Some rows /\
    forall row, In row (InDetailed.gantt_df rows) ->
      (exists t, InDetailed.End_ row = Some t
                 /\ (d0 * 86400000000000 <= t <= d1 * 86400000000000)%Z) /\
      (exists r, In r df /\ dated_within d0 d1 r
                 /\ Release_Version r = Some (InDetailed.g_Release_Version row)) /\
      (version_filter <> [] -> In (InDetailed.g_Release_Version row) version_filter).
Proof.
  destruct (filtered_df_rows d0 d1 rest version_filter df) as (rows & Hrows & _ & Hin).
  exists rows. split; [exact Hrows|].
  intros row Hrow. apply gantt_df_row in Hrow as (v & Hv & ->).
  pose proof (agg_aggregate_of rows v Hv) as Hagg.
  unfold aggregate_of in Hagg. cbv zeta in Hagg.
  change (InDetailed.g_Release_Version (InDetailed.agg v rows)) with v in *.
  destruct Hagg as (Hne & _ & Hmax & _).
  destruct (rows_of_version v rows) as [|r0 g] eqn:Hg; [easy|].
  assert (Hr0 : In r0 rows /\ Release_Version r0 = Some v)
    by (apply rows_of_version_In; rewrite Hg; now left).
  destruct Hr0 as [Hr0 Hv0].
  apply Hin in Hr0 as (Hdf0 & Hd0 & Hs0).
  split; [|split].
  - unfold is_max in Hmax.
    destruct (InDetailed.End_ (InDetailed.agg v rows)) as [m|].
    + exists m. split; [reflexivity|].
      destruct Hmax as [Hm _]. apply in_map_iff in Hm as (r & Hr & Hrg).
      rewrite <- Hg in Hrg. apply rows_of_version_In in Hrg as [Hrg _].
      apply Hin in Hrg as (_ & (t & Ht & Hb) & _). congruence.
    + exfalso. destruct Hd0 as (t & Ht & _). apply (Hmax t).
      apply in_map_iff. exists r0. split; [assumption | now left].
  - now exists r0.
  - intros Hsel. destruct Hs0 as [Hs0|(v' & Hv' & Hs0)]; [easy | congruence].
Qed.

(** ** Counting by key *)

Section CountPartition.
Context {K : Type} (eqb : K -> K -> bool).
Hypothesis eqb_eq : forall x y, eqb x y = true <-> x = y.

Lemma filter_length_split (f : K -> bool) (l : list K) :
  (length (List.filter f l) + length (List.filter (fun x => negb (f x)) l)
   = length l)%nat.
Proof.
  induction l as [|x l IH]; [reflexivity|].
  simpl. destruct (f x); simpl; lia.
Qed.

Lemma filter_other_key k k' (l : list K) :
  k <> k' ->
  List.filter (eqb k') (List.filter (fun x => negb (eqb k x)) l) = List.filter (eqb k') l.
Proof.
  intros Hne. induction l as [|x l IH]; [reflexivity|].
  simpl. destruct (eqb k x) eqn:Hk; simpl.
  - apply eqb_eq in Hk as <-.
    destruct (eqb k' k) eqn:Hk'; [apply eqb_eq in Hk'; congruence | assumption].
  - destruct (eqb k' x); now rewrite IH.
Qed.

(** Counting the elements key by key, over keys without repetition that
    cover the list, counts every element once. *)
Lemma count_partition (keys l : list K) :
  NoDup keys -> (forall x, In x l -> In x keys) ->
  list_sum (map (fun k => length (List.filter (eqb k) l)) keys) = length l.
Proof.
  intros Hnd. revert l. induction Hnd as [|k ks Hk Hnd IH]; intros l Hcov.
  - simpl. destruct l as [|x l]; [reflexivity | destruct (Hcov x); now left].
  - cbn [map list_sum fold_right].
    rewrite <- (filter_length_split (eqb k) l). f_equal.
    rewrite <- (IH (List.filter (fun x => negb (eqb k x)) l)).
    + f_equal. apply map_ext_in. intros k' Hk'.
      rewrite filter_other_key; [reflexivity|].
      intros ->. apply Hk. now apply list_elem_of_In.
    + intros x Hx. apply filter_In in Hx as [Hx Hne].
      destruct (Hcov x Hx) as [<-|Hin]; [|assumption].
      rewrite (proj2 (eqb_eq k k) eq_refl) in Hne. discriminate.
Qed.

End CountPartition.

Section Sums.

Lemma list_sum_perm (l l' : list nat) : Permutation l l' -> list_sum l = list_sum l'.
Proof. induction 1; simpl; lia. Qed.

Lemma list_sum_take n (l : list nat) : (list_sum (take n l) <= list_sum l)%nat.
Proof.
  revert n. induction l as [|x l IH]; intros [|n]; simpl; try lia.
  specialize (IH n). lia.
Qed.

End Sums.

(** ** Totals of the Gantt aggregate *)

Section GanttTotals.
Import InDetailed.

Lemma counted_versions_cons r rows :
  counted_versions (r :: rows) =
  match content r, Release_Version r with
  | Some _, Some w => w :: counted_versions rows
  | _, _ => counted_versions rows
  end.
Proof.
  unfold counted_versions. cbn [omap list_omap].
  now destruct (content r), (Release_Version r).
Qed.

Lemma count_cons {A} (x : option A) (col : list (option A)) :
  Pandas.count (x :: col)
  = match x with Some _ => S (Pandas.count col) | None => Pandas.count col end.
Proof. now destruct x. Qed.

Lemma reviews_counted v rows :
  Reviews (agg v rows) = length (List.filter (String.eqb v) (counted_versions rows)).
Proof.
  change (Reviews (agg v rows)) with (Pandas.count (map content (group v rows))).
  induction rows as [|r rows IH]; [reflexivity|].
  rewrite counted_versions_cons.
  change (group v (r :: rows))
    with (if Pandas.eq_str (Release_Version r) v then r :: group v rows else group v rows).
  unfold Pandas.eq_str.
  destruct (Release_Version r) as [w|].
  - rewrite (String.eqb_sym w v).
    destruct (String.eqb v w) eqn:Hvw.
    + cbn [map]. rewrite count_cons.
      destruct (content r); [|exact IH].
      cbn [List.filter]. rewrite Hvw. simpl. now f_equal.
    + destruct (content r); [|exact IH].
      cbn [List.filter]. now rewrite Hvw.
  - now destruct (content r).
Qed.

Lemma counted_versions_In rows v :
  In v (counted_versions rows) -> In v (group_keys rows).
Proof.
  intros Hin. apply group_keys_In.
  induction rows as [|r rows IH]; [destruct Hin|].
  rewrite counted_versions_cons in Hin.
  assert (Hrec : In v (counted_versions rows) ->
                 exists r0, In r0 (r :: rows) /\ Release_Version r0 = Some v).
  { intros H. destruct (IH H) as (r' & Hr' & H'). exists r'. split; [now right | assumption]. }
  destruct (content r); [destruct (Release_Version r) as [w|] eqn:Hw|]; auto.
  destruct Hin as [<-|Hin]; [|auto].
  exists r. split; [now left | assumption].
Qed.

Lemma counted_versions_length rows :
  length (counted_versions rows)
  = length (filter (fun r => Release_Version r <> None /\ content r <> None) rows).
Proof.
  induction rows as [|r rows IH]; [reflexivity|].
  rewrite filter_cons, counted_versions_cons.
  destruct (content r); destruct (Release_Version r); case_decide;
    simpl; try (exfalso; intuition congruence); congruence.
Qed.

Lemma grouped_reviews_total rows :
  list_sum (map Reviews (grouped rows)) = length (counted_versions rows).
Proof.
  unfold grouped. rewrite map_map.
  rewrite (map_ext _ (fun v => length (List.filter (String.eqb v) (counted_versions rows))))
    by (intros v; apply reviews_counted).
  apply (count_partition String.eqb String.eqb_eq).
  - apply group_keys_NoDup.
  - intros v. apply counted_versions_In.
Qed.

End GanttTotals.

(** X16. The review counts of the per-version aggregate add up to the
    number of filtered rows that have both a release version and a review
    text: rows without a release version belong to no group, rows without
    text are not counted.  The Gantt chart, cut to 20 versions, shows at
    most that many reviews, and all of them when there are at most 20
    release versions. *)
Theorem gantt_reviews_total (filtered_df : list review) :
  let counted :=
    length (filter (fun r => Release_Version r <> None /\ content r <> None) filtered_df) in
  list_sum (map InDetailed.Reviews (InDetailed.grouped filtered_df)) = counted /\
  (list_sum (map InDetailed.Reviews (InDetailed.gantt_df filtered_df)) <= counted)%nat /\
  ((size (list_to_set (Pandas.dropna (map Release_Version filtered_df)) : gset string)
    <= 20)%nat ->
   list_sum (map InDetailed.Reviews (InDetailed.gantt_df filtered_df)) = counted).
Proof.
  intros counted. unfold counted. rewrite <- counted_versions_length.
  assert (Hsorted : list_sum (map InDetailed.Reviews
                     (InDetailed.sort_values_Start (InDetailed.grouped filtered_df)))
                    = length (counted_versions filtered_df)).
  { rewrite <- grouped_reviews_total. apply list_sum_perm.
    apply Permutation_map, sort_values_Start_perm. }
  split; [apply grouped_reviews_total|]. split.
  - rewrite <- Hsorted. unfold InDetailed.gantt_df.
    change (map InDetailed.Reviews (take 20 ?l)) with (InDetailed.Reviews <$> take 20 l).
    rewrite fmap_take. apply list_sum_take.
  - intros Hsize. rewrite <- Hsorted. unfold InDetailed.gantt_df.
    rewrite take_ge; [reflexivity|].
    rewrite (sort_values_Start_perm (InDetailed.grouped filtered_df)).
    unfold InDetailed.grouped. rewrite length_map, group_keys_length. exact Hsize.
Qed.

(** ** Reviews per month *)

Section Timeline.

Lemma dropna_cons {A} (x : option A) (col : list (option A)) :
  Pandas.dropna (x :: col)
  = match x with Some a => a :: Pandas.dropna col | None => Pandas.dropna col end.
Proof. now destruct x. Qed.

Lemma month_count (to_period_M : Z -> Z) (rows : list review) p :
  length (List.filter (Z.eqb p)
            (Pandas.dropna (map (fun r => option_map to_period_M (at_ r)) rows)))
  = length (filter (fun r => option_map to_period_M (at_ r) = Some p) rows).
Proof.
  induction rows as [|r rows IH]; [reflexivity|].
  rewrite filter_cons. cbn [map]. rewrite dropna_cons.
  destruct (at_ r) as [t|]; cbn [option_map].
  - cbn [List.filter]. destruct (Z.eqb_spec p (to_period_M t)) as [->|Hne];
      case_decide; try congruence; simpl; congruence.
  - case_decide; [discriminate | exact IH].
Qed.

Lemma dated_count (to_period_M : Z -> Z) (rows : list review) :
  length (Pandas.dropna (map (fun r => option_map to_period_M (at_ r)) rows))
  = length (filter (fun r => at_ r <> None) rows).
Proof.
  induction rows as [|r rows IH]; [reflexivity|].
  rewrite filter_cons. cbn [map]. rewrite dropna_cons.
  destruct (at_ r) as [t|]; cbn [option_map]; case_decide; try congruence; simpl; congruence.
Qed.

Lemma filter_all {A} (P : A -> Prop) `{forall x, Decision (P x)} (l : list A) :
  (forall x, In x l -> P x) -> filter P l = l.
Proof.
  induction l as [|x l IH]; intros Hall; [reflexivity|].
  rewrite filter_cons. case_decide.
  - f_equal. apply IH. intros y Hy. apply Hall. now right.
  - exfalso. apply H0, Hall. now left.
Qed.

End Timeline.

(** X18. The monthly timeline lists every month that has a dated review
    once, in ascending order, each with the number of reviews of that
    month (at least one); the counts add up to the number of dated rows,
    and over the filtered rows, whose dates are all present, to the number
    of filtered rows.  Here [to_period_M] stands for pandas' mapping of a
    timestamp to its month. *)
Theorem timeline_counts_add_up
  (to_period_M : Z -> Z) (rows df : list review) (d0 d1 : Z) (rest : list Z)
  (version_filter : list string) :
  let tl := InDetailed.timeline to_period_M rows in
  NoDup (map fst tl) /\
  StronglySorted Z.le (map fst tl) /\
  (forall p n, In (p, n) tl ->
     (1 <= n)%nat /\
     n = length (filter (fun r => option_map to_period_M (at_ r) = Some p) rows)) /\
  (forall r t, In r rows -> at_ r = Some t -> exists n, In (to_period_M t, n) tl) /\
  list_sum (map snd tl) = length (filter (fun r => at_ r <> None) rows) /\
  (exists kept,
     InDetailed.filtered_df (d0 :: d1 :: rest) version_filter df = Some kept /\
     list_sum (map snd (InDetailed.timeline to_period_M kept)) = length kept).
Proof.
  assert (Hgen : forall rows,
    let tl := InDetailed.timeline to_period_M rows in
    let present := Pandas.dropna (map (fun r => option_map to_period_M (at_ r)) rows) in
    map fst tl = PyStr.sorted Z.ltb (nodup Z.eq_dec present) /\
    list_sum (map snd tl) = length (filter (fun r => at_ r <> None) rows)).
  { intros rs tl present. unfold tl, InDetailed.timeline, Pandas.groupby_size.
    fold present. rewrite !map_map. cbn [fst snd]. split; [apply map_id|].
    rewrite <- (dated_count to_period_M rs). fold present.
    apply (count_partition Z.eqb Z.eqb_eq).
    - rewrite (sorted_perm Z.ltb). apply NoDup_ListNoDup, NoDup_nodup.
    - intros x Hx. apply list_elem_of_In. rewrite (sorted_perm Z.ltb).
      apply list_elem_of_In. now apply nodup_In. }
  intros tl.
  destruct (Hgen rows) as [Hfst Hsum]. fold tl in Hfst, Hsum.
  set (present := Pandas.dropna (map (fun r => option_map to_period_M (at_ r)) rows)) in *.
  assert (Hmem : forall p n, In (p, n) tl <->
            In p present /\ n = length (List.filter (Z.eqb p) present)).
  { intros p n. unfold tl, InDetailed.timeline, Pandas.groupby_size. fold present.
    rewrite in_map_iff. split.
    - intros (k & [= <- <-] & Hk). split; [|reflexivity].
      apply list_elem_of_In in Hk. rewrite (sorted_perm Z.ltb) in Hk.
      apply list_elem_of_In in Hk. now apply nodup_In in Hk.
    - intros [Hp ->]. exists p. split; [reflexivity|].
      apply list_elem_of_In. rewrite (sorted_perm Z.ltb).
      apply list_elem_of_In. now apply nodup_In. }
  split; [|split; [|split; [|split; [|split; [exact Hsum|]]]]].
  - rewrite Hfst, (sorted_perm Z.ltb). apply NoDup_ListNoDup, NoDup_nodup.
  - rewrite Hfst. eapply strongly_sorted_impl; [|apply (sorted_sorted Z.ltb)].
    + intros a b H. apply Z.ltb_ge in H. exact H.
    + intros a b. rewrite Z.ltb_lt, Z.ltb_ge. lia.
    + intros a b c. rewrite !Z.ltb_ge. lia.
  - intros p n Hin. apply Hmem in Hin as [Hp ->]. split.
    + assert (Hf : In p (List.filter (Z.eqb p) present))
        by (apply filter_In; split; [assumption | apply Z.eqb_refl]).
      destruct (List.filter (Z.eqb p) present); [destruct Hf | simpl; lia].
    + apply month_count.
  - intros r t Hr Ht. eexists. apply Hmem. split; [|reflexivity].
    unfold present. apply dropna_In, in_map_iff. exists r. now rewrite Ht.
  - destruct (filtered_df_rows d0 d1 rest version_filter df) as (kept & Hk & _ & Hin).
    exists kept. split; [exact Hk|].
    destruct (Hgen kept) as [_ ->]. f_equal. apply filter_all.
    intros r Hr. apply Hin in Hr as (_ & (t & Ht & _) & _). congruence.
Qed.

(** ** The bars handed to the Gantt chart *)

Section GanttData.
Import InDetailed.

Lemma string_length_app a b :
  String.length (a +:+ b) = (String.length a + String.length b)%nat.
Proof.
  induction a as [|c a IH]; [reflexivity|].
  rewrite app_cons. simpl. now rewrite IH.
Qed.

Lemma slice_to_length n : forall s,
  String.length (PyStr.slice_to n s) = Nat.min n (String.length s).
Proof.
  induction n as [|n IH]; intros [|c s]; simpl; try reflexivity.
  now rewrite IH.
Qed.

Lemma slice_to_all n : forall s, (String.length s <= n)%nat -> PyStr.slice_to n s = s.
Proof.
  induction n as [|n IH]; intros [|c s]; simpl; try reflexivity; try lia.
  intros H. rewrite IH; [reflexivity | lia].
Qed.

Lemma slice_to_prefix n : forall s, exists b, s = PyStr.slice_to n s +:+ b.
Proof.
  induction n as [|n IH]; intros [|c s]; simpl; try (now eexists).
  destruct (IH s) as [b Hb]. exists b. now rewrite app_cons, <- Hb.
Qed.

Lemma first_none_iff {A} (col : list (option A)) :
  Pandas.first col = None <-> forall x, In x col -> x = None.
Proof.
  pose proof (first_spec col) as H. unfold is_first in H.
  destruct (Pandas.first col) as [d|].
  - split; [discriminate|]. intros Hall.
    destruct H as (pre & post & -> & _).
    specialize (Hall (Some d) ltac:(apply in_or_app; right; now left)). discriminate.
  - split; [|reflexivity]. intros _. now apply List.Forall_forall.
Qed.

Lemma agg_description_none rows v :
  Description (agg v rows) = None
  <-> forall r, In r rows -> Release_Version r = Some v -> Feature_Description r = None.
Proof.
  change (Description (agg v rows))
    with (Pandas.first (map Feature_Description (group v rows))).
  rewrite first_none_iff, group_rows_of_version. split.
  - intros H r Hr Hv. apply H, in_map_iff. exists r. split; [reflexivity|].
    now apply rows_of_version_In.
  - intros H x Hx. apply in_map_iff in Hx as (r & <- & Hr).
    apply rows_of_version_In in Hr as [Hr Hv]. now apply H.
Qed.

Lemma gantt_task_of_none timestamp_str row :
  gantt_task_of timestamp_str row = None <-> Description row = None.
Proof. unfold gantt_task_of. now destruct (Description row). Qed.

Lemma gantt_task_of_some timestamp_str row t :
  gantt_task_of timestamp_str row = Some t ->
  Task t = g_Release_Version row /\ t_Reviews t = Reviews row /\
  t_Start t = timestamp_str (Start row) /\ Finish t = timestamp_str (End_ row) /\
  exists d, Description row = Some d /\ Resource t = PyStr.slice_to 40 d +:+ "...".
Proof.
  unfold gantt_task_of. destruct (Description row) as [d|]; [|discriminate].
  intros [= <-]. do 4 (split; [reflexivity|]). exists d. split; reflexivity.
Qed.

End GanttData.

(** X17. Building the bars of the Gantt chart fails with a [TypeError]
    exactly when some release version kept in the aggregate has no feature
    description in any of its rows (its description is missing and cannot
    be sliced).  When it succeeds there is one bar per aggregate row, in
    the same order, with the same release version and review count, and
    every bar's label is the first 40 characters of the description
    followed by ["..."], at most 43 characters long; a description of up
    to 40 characters is shown whole, yet still followed by ["..."]. *)
Theorem gantt_data_needs_descriptions
  (timestamp_str : option Z -> string) (filtered_df : list review) :
  let g := InDetailed.gantt_df filtered_df in
  (InDetailed.gantt_data timestamp_str g = None <->
     exists row, In row g /\
       forall r, In r filtered_df ->
                 Release_Version r = Some (InDetailed.g_Release_Version row) ->
                 Feature_Description r = None) /\
  (forall tasks, InDetailed.gantt_data timestamp_str g = Some tasks ->
     Forall2 (fun row t =>
                InDetailed.Task t = InDetailed.g_Release_Version row /\
                InDetailed.t_Reviews t = InDetailed.Reviews row /\
                InDetailed.t_Start t = timestamp_str (InDetailed.Start row) /\
                InDetailed.Finish t = timestamp_str (InDetailed.End_ row) /\
                (String.length (InDetailed.Resource t) <= 43)%nat /\
                exists d, InDetailed.Description row = Some d /\
                          InDetailed.Resource t = PyStr.slice_to 40 d +:+ "..." /\
                          (exists rest, d = PyStr.slice_to 40 d +:+ rest) /\
                          ((String.length d <= 40)%nat ->
                           InDetailed.Resource t = d +:+ "..."))
             g tasks).
Proof.
  intros g. split.
  - unfold InDetailed.gantt_data. rewrite mapM_None, Exists_exists. split.
    + intros (row & Hin & Hnone). apply list_elem_of_In in Hin.
      exists row. split; [assumption|].
      apply gantt_task_of_none in Hnone.
      destruct (gantt_df_row _ _ Hin) as (v & _ & ->).
      now apply agg_description_none.
    + intros (row & Hin & Hnone). exists row. split; [now apply list_elem_of_In|].
      apply gantt_task_of_none.
      destruct (gantt_df_row _ _ Hin) as (v & _ & ->).
      now apply agg_description_none.
  - intros tasks Htasks. unfold InDetailed.gantt_data in Htasks.
    apply mapM_Some in Htasks.
    eapply Forall2_impl; [exact Htasks|].
    intros row t Ht.
    apply gantt_task_of_some in Ht as (H1 & H2 & H3 & H4 & d & Hd & Hr).
    do 4 (split; [assumption|]). split.
    + rewrite Hr, string_length_app, slice_to_length.
      change (String.length "...") with 3%nat. lia.
    + exists d. split; [assumption|]. split; [assumption|].
      split; [apply slice_to_prefix|].
      intros Hlen. now rewrite Hr, slice_to_all.
Qed.

(** ** The download button *)

Section Download.
Import InDetailed.

Lemma traceability_table rows :
  traceability rows
  = Some {| header := traceability_columns; lines := map traceability_line rows |}.
Proof.
  unfold traceability, select.
  assert (E : mapM (fun r => mapM (fun c => column c r) traceability_columns) rows
              = Some (map traceability_line rows)).
  { induction rows as [|r rows IH]; [reflexivity|].
    cbn [mapM]. rewrite IH. reflexivity. }
  now rewrite E.
Qed.

(** The Gantt aggregate is empty exactly when no row has a release
    version. *)
Lemma gantt_df_nil rows :
  gantt_df rows = [] <-> forall r, In r rows -> Release_Version r = None.
Proof.
  split.
  - intros Hnil r Hr. destruct (Release_Version r) as [v|] eqn:Hv; [|reflexivity].
    exfalso.
    assert (Hin : In v (group_keys rows)) by (apply group_keys_In; now exists r).
    assert (Hlen : length (gantt_df rows) = 0%nat) by now rewrite Hnil.
    unfold gantt_df in Hlen. rewrite length_take in Hlen.
    rewrite (sort_values_Start_perm (grouped rows)) in Hlen.
    unfold grouped in Hlen. rewrite length_map in Hlen.
    destruct (group_keys rows); [easy | cbn [length] in Hlen; lia].
  - intros Hall. destruct (gantt_df rows) as [|row g] eqn:Hg; [reflexivity|].
    exfalso.
    destruct (gantt_df_row rows row) as (v & Hv & _); [rewrite Hg; now left|].
    apply group_keys_In in Hv as (r & Hr & Hrv). rewrite (Hall r Hr) in Hrv.
    discriminate.
Qed.

(** The page reaches line 169 exactly when the bars of the Gantt chart
    can be built and are not none. *)
Lemma download_reached timestamp_str date_range version_filter df rows :
  filtered_df date_range version_filter df = Some rows ->
  (gantt_df rows <> [] /\ Forall (fun row => Description row <> None) (gantt_df rows) ->
   download timestamp_str date_range version_filter df = traceability rows) /\
  (download timestamp_str date_range version_filter df <> None ->
   gantt_df rows <> [] /\ Forall (fun row => Description row <> None) (gantt_df rows)).
Proof.
  intros Hrows. unfold download. rewrite Hrows.
  destruct (gantt_data timestamp_str (gantt_df rows)) as [bars|] eqn:Hbars.
  - unfold gantt_data in Hbars. apply mapM_Some in Hbars.
    assert (Hdesc : Forall (fun row => Description row <> None) (gantt_df rows)).
    { clear -Hbars.
      induction Hbars as [|row t g bars Ht _ IH]; constructor; [|exact IH].
      intros Hnone. apply (gantt_task_of_none timestamp_str) in Hnone. congruence. }
    destruct bars as [|bar bars].
    + apply Forall2_nil_inv_r in Hbars. rewrite Hbars. cbn [create_gantt].
      split; [now intros [H _] | easy].
    + cbn [create_gantt]. split; [reflexivity|]. intros _. split; [|exact Hdesc].
      intros Hnil. rewrite Hnil in Hbars. inversion Hbars.
  - unfold gantt_data in Hbars. apply mapM_None in Hbars.
    apply Exists_exists in Hbars as (row & Hin & Hnone).
    apply gantt_task_of_none in Hnone.
    split; [|easy]. intros [_ Hall]. rewrite Forall_forall in Hall.
    now apply Hall in Hin.
Qed.

End Download.

(** C7 (amended).  Once two dates are picked, the page reaches the
    download button exactly when the bars of the Gantt chart can be built:
    some row of the currently filtered set has a release version and every
    release version kept in the Gantt aggregate has a feature description
    in one of its rows.  The downloaded table then has one line per row of
    the currently filtered set, in their order; its columns are [at],
    [content], [score], [Sentiment], [reviewCreatedVersion],
    [Feature Description] and [Release Date], that is, the input columns
    without [appVersion] and [Release Version], plus the derived
    [Sentiment]; the feature description is exported as it stands, and the
    [Sentiment] cell of a line is the classifier's output on that row's
    review text. *)
Theorem download_filtered_traceability
  (timestamp_str : option Z -> string)
  (df : list review) (d0 d1 : Z) (rest : list Z) (version_filter : list string) :
  exists rows,
    InDetailed.filtered_df (d0 :: d1 :: rest) version_filter df = Some rows /\
    sublist rows df /\
    ((exists t, InDetailed.download timestamp_str (d0 :: d1 :: rest) version_filter df
                = Some t)
     <-> (exists r, In r rows /\ Release_Version r <> None) /\
         (forall row, In row (InDetailed.gantt_df rows) ->
                      InDetailed.Description row <> None)) /\
    (forall row, In row (InDetailed.gantt_df rows) ->
       (InDetailed.Description row = None
        <-> forall r, In r rows ->
                      Release_Version r = Some (InDetailed.g_Release_Version row) ->
                      Feature_Description r = None)) /\
    (forall t,
       InDetailed.download timestamp_str (d0 :: d1 :: rest) version_filter df = Some t ->
       InDetailed.header t
         = ["at"; "content"; "score"; "Sentiment"; "reviewCreatedVersion";
            "Feature Description"; "Release Date"] /\
       (forall c, In c (InDetailed.header t) <->
                  (In c InDetailed.input_columns /\ c <> "appVersion"
                   /\ c <> "Release Version")
                  \/ c = "Sentiment") /\
       InDetailed.lines t = map traceability_line rows /\
       length (InDetailed.lines t) = length rows).
Proof.
  destruct (filtered_df_rows d0 d1 rest version_filter df) as (rows & Hrows & Hsub & _).
  destruct (download_reached timestamp_str _ _ _ _ Hrows) as [Hyes Hno].
  exists rows. split; [exact Hrows|]. split; [exact Hsub|]. split; [|split].
  - split.
    + intros (t & Ht). destruct Hno as [Hne Hall]; [congruence|]. split.
      * destruct (InDetailed.gantt_df rows) as [|row g] eqn:Hg; [easy|].
        destruct (gantt_df_row rows row) as (v & Hv & _); [rewrite Hg; now left|].
        apply group_keys_In in Hv as (r & Hr & Hrv). exists r. split; [exact Hr|].
        congruence.
      * now apply List.Forall_forall.
    + intros [(r & Hr & Hrv) Hall]. rewrite Hyes, traceability_table; [now eexists|].
      split; [|now apply List.Forall_forall].
      intros Hnil. apply Hrv. revert Hr. now apply gantt_df_nil.
  - intros row Hin. destruct (gantt_df_row _ _ Hin) as (v & _ & ->).
    apply agg_description_none.
  - intros t Ht. destruct Hno as [Hne Hall]; [congruence|].
    rewrite Hyes, traceability_table in Ht by (split; assumption).
    injection Ht as <-. cbn [InDetailed.header InDetailed.lines].
    split; [reflexivity|]. split; [|split; [reflexivity | apply length_map]].
    intros c. simpl. split.
    + intros [ <- | [ <- | [ <- | [ <- | [ <- | [ <- | [ <- | [] ] ] ] ] ] ] ];
        try (now right); left; (split; [vm_compute; tauto | split; discriminate]).
    + intros [(Hc & Ha & Hr) | ->]; [|tauto].
      vm_compute in Hc.
      destruct Hc as [ <- | [ <- | [ <- | [ <- | [ <- | [ <- | [ <- | [ <- | [] ] ] ] ] ] ] ] ]; tauto.
Qed.

(** ** The Gantt aggregate under any order of equal start dates *)

Section TieOrder.
Import InDetailed.

Lemma starts_no_later_antisym a b :
  starts_no_later a b -> starts_no_later b a -> a = b.
Proof.
  destruct a as [x|], b as [y|]; simpl; try easy.
  intros H1 H2. f_equal. lia.
Qed.

Lemma starts_sorted (table : list gantt_row) :
  StronglySorted (fun a b => starts_no_later (Start a) (Start b)) table ->
  StronglySorted starts_no_later (map Start table).
Proof.
  induction 1 as [|row table Hs IH Hall]; cbn [map]; constructor; [exact IH|].
  apply List.Forall_forall. intros x Hx. apply in_map_iff in Hx as (row' & <- & Hin).
  rewrite List.Forall_forall in Hall. now apply Hall.
Qed.

(** Two tables with the same rows, both in ascending order of [Start], show
    the same start dates line by line. *)
Lemma sorted_starts_unique (t1 t2 : list gantt_row) :
  Permutation t1 t2 ->
  StronglySorted (fun a b => starts_no_later (Start a) (Start b)) t1 ->
  StronglySorted (fun a b => starts_no_later (Start a) (Start b)) t2 ->
  map Start t1 = map Start t2.
Proof.
  intros Hperm H1 H2.
  apply (StronglySorted_unique_strong starts_no_later).
  - intros x1 x2 _ _. apply starts_no_later_antisym.
  - now apply starts_sorted.
  - now apply starts_sorted.
  - now apply Permutation_map.
Qed.

Lemma sorted_before (table : list gantt_row) x y :
  StronglySorted (fun a b => starts_no_later (Start a) (Start b)) table ->
  before x y table -> starts_no_later (Start x) (Start y).
Proof.
  intros Hs (l1 & l2 & l3 & ->).
  induction l1 as [|z l1 IH]; simpl in Hs; apply StronglySorted_inv in Hs as [Hs Hall].
  - rewrite Forall_app, Forall_cons in Hall. tauto.
  - now apply IH.
Qed.

End TieOrder.

(** X19. [sort_values] is free to put release versions with equal start
    dates in any order.  Whatever table it returns (the rows of the
    per-version aggregate, in ascending order of [Start], missing dates
    last), its first 20 rows show the same start dates, line by line, as
    the Gantt aggregate of the model; there are as many of them, they
    belong to distinct release versions, each is the aggregate of its
    version, and every version left out starts no earlier than every
    version kept. *)
Theorem gantt_df_any_tie_order
  (filtered_df : list review) (table : list InDetailed.gantt_row) :
  Permutation table (InDetailed.grouped filtered_df) ->
  StronglySorted
    (fun a b => starts_no_later (InDetailed.Start a) (InDetailed.Start b)) table ->
  let g := take 20 table in
  let versions : gset string :=
    list_to_set (Pandas.dropna (map Release_Version filtered_df)) in
  map InDetailed.Start g = map InDetailed.Start (InDetailed.gantt_df filtered_df) /\
  length g = length (InDetailed.gantt_df filtered_df) /\
  length g = Nat.min 20 (size versions) /\
  NoDup (map InDetailed.g_Release_Version g) /\
  (forall row, In row g ->
     InDetailed.g_Release_Version row ∈ versions /\ aggregate_of filtered_df row) /\
  (forall v row,
     v ∈ versions -> ~ In v (map InDetailed.g_Release_Version g) -> In row g ->
     starts_no_later (InDetailed.Start row)
                     (InDetailed.Start (InDetailed.agg v filtered_df))).
Proof.
  intros Hperm Hsorted g versions. unfold g.
  assert (Hmodel : Permutation table
                     (InDetailed.sort_values_Start (InDetailed.grouped filtered_df))).
  { rewrite Hperm. symmetry. apply sort_values_Start_perm. }
  assert (Hstarts : map InDetailed.Start table
                    = map InDetailed.Start
                        (InDetailed.sort_values_Start (InDetailed.grouped filtered_df))).
  { apply sorted_starts_unique; [exact Hmodel | exact Hsorted |].
    apply sort_values_Start_sorted. }
  assert (Hlen : length table = size versions).
  { rewrite Hperm. unfold InDetailed.grouped. rewrite length_map.
    apply group_keys_length. }
  assert (Hin : forall row, In row table ->
                  exists v, In v (InDetailed.group_keys filtered_df)
                            /\ row = InDetailed.agg v filtered_df).
  { intros row Hrow. apply sorted_grouped_In.
    rewrite <- list_elem_of_In in *. now rewrite <- Hmodel. }
  assert (Htake : forall row, In row (take 20 table) -> In row table).
  { intros row Hrow. apply list_elem_of_In.
    eapply elem_of_sublist; [apply list_elem_of_In, Hrow | apply sublist_take]. }
  split; [|split; [|split; [|split; [|split]]]].
  - unfold InDetailed.gantt_df.
    change (map InDetailed.Start (take 20 table))
      with (InDetailed.Start <$> take 20 table).
    change (map InDetailed.Start
              (take 20 (InDetailed.sort_values_Start (InDetailed.grouped filtered_df))))
      with (InDetailed.Start
              <$> take 20 (InDetailed.sort_values_Start (InDetailed.grouped filtered_df))).
    rewrite !fmap_take. f_equal. exact Hstarts.
  - unfold InDetailed.gantt_df. rewrite !length_take. f_equal.
    now apply Permutation_length.
  - now rewrite length_take, Hlen.
  - apply (sublist_NoDup _ (map InDetailed.g_Release_Version table)).
    + rewrite Hperm, grouped_versions. apply group_keys_NoDup.
    + change (map InDetailed.g_Release_Version (take 20 table))
        with (InDetailed.g_Release_Version <$> take 20 table).
      rewrite fmap_take. apply sublist_take.
  - intros row Hrow. destruct (Hin row (Htake row Hrow)) as (v & Hv & ->). split.
    + now apply versions_keys.
    + now apply agg_aggregate_of.
  - intros v row Hv Hout Hrow. apply versions_keys in Hv.
    assert (Htab : In (InDetailed.agg v filtered_df) table).
    { apply list_elem_of_In. rewrite Hmodel. apply list_elem_of_In.
      apply sorted_grouped_In. now exists v. }
    rewrite <- (take_drop 20 table) in Htab. apply in_app_or in Htab as [Hk|Hd].
    + exfalso. apply Hout. apply in_map_iff. now exists (InDetailed.agg v filtered_df).
    + apply (sorted_before table); [exact Hsorted|].
      now apply (kept_before_dropped table 20).
Qed.

Lemma gantt_df_any_tie_order_witness :
  let release v :=
    {| at_ := Some 0%Z; content := Some "good"; score := 5; appVersion := None;
       Release_Version := Some v; reviewCreatedVersion := None;
       Feature_Description := Some "Login"; Release_Date := Some 7%Z |} in
  let filtered_df := [release "A"; release "B"] in
  let table := [InDetailed.agg "B" filtered_df; InDetailed.agg "A" filtered_df] in
  map InDetailed.g_Release_Version (InDetailed.gantt_df filtered_df) = ["A"; "B"] /\
  map InDetailed.g_Release_Version (take 20 table) = ["B"; "A"] /\
  map InDetailed.Start (take 20 table)
  = map InDetailed.Start (InDetailed.gantt_df filtered_df).
Proof.
  intros release filtered_df table.
  split; [reflexivity|]. split; [reflexivity|].
  refine (proj1 (gantt_df_any_tie_order filtered_df table _ _)).
  - change (InDetailed.grouped filtered_df)
      with [InDetailed.agg "A" filtered_df; InDetailed.agg "B" filtered_df].
    apply perm_swap.
  - repeat constructor; simpl; lia.
Defined.
